(** * hexohtml2md: the conversion core of [hexo.py]

    A shallow embedding of the Hexo HTML to Markdown converter: the timezone
    normaliser [convert_utc_to_timezone], the front-matter renderer
    [generate_front_matter], the body converter [html_to_markdown] with its
    helper [handle_element], and the metadata extraction of
    [process_html_file].

    Python values are modelled as follows.
    - [str] is [string]; one [ascii] stands for one code point below 256.
    - [int] is [Z].
    - a raised exception is the [Raise] branch of [result].
    - the parsed document is the tree [node], as bs4 builds it with the
      'html.parser' builder.

    The library calls of the converter are modelled after the libraries:
    [datetime] after CPython's [_pydatetime] and [_strptime], the zone
    objects after [pytz] with the zone database as a parameter, the tree
    queries and the printing of elements after [bs4]. Reading and writing
    files, the walk over the input directory and the unused
    [extract_front_matter] are left out. *)

From Stdlib Require Import ZArith List String Ascii Bool Lia.
Import ListNotations.

Local Open Scope string_scope.
Local Open Scope Z_scope.

(** ** Exceptions and results *)

Inductive exn : Set :=
| ValueError
| TypeError
| KeyError
| AttributeError
| IndexError
| OverflowError
| UnknownTimeZoneError.

Inductive result (A : Type) : Type :=
| Ok (a : A)
| Raise (e : exn).

Arguments Ok {A} a.
Arguments Raise {A} e.

Definition bind {A B : Type} (r : result A) (k : A -> result B) : result B :=
  match r with
  | Ok a => k a
  | Raise e => Raise e
  end.

Notation "x <- r ;; k" := (bind r (fun x => k))
  (at level 61, r at next level, right associativity).

Definition is_ok {A : Type} (r : result A) : bool :=
  match r with
  | Ok _ => true
  | Raise _ => false
  end.

(** ** Python string primitives *)

Module PyStr.

(** The one-character string made of a line feed. *)
Definition LF : string := String (ascii_of_nat 10) "".

(** [str.isspace] on one code point below 256. *)
Definition isspace (c : ascii) : bool :=
  let n := nat_of_ascii c in
  ((9 <=? n) && (n <=? 13))%nat
  || ((28 <=? n) && (n <=? 32))%nat
  || (n =? 133)%nat
  || (n =? 160)%nat.

Fixpoint lstrip (s : string) : string :=
  match s with
  | String c s' => if isspace c then lstrip s' else s
  | EmptyString => EmptyString
  end.

Fixpoint rstrip (s : string) : string :=
  match s with
  | String c s' =>
      match rstrip s' with
      | EmptyString => if isspace c then EmptyString else String c EmptyString
      | r => String c r
      end
  | EmptyString => EmptyString
  end.

Definition strip (s : string) : string := rstrip (lstrip s).

(** [s.startswith(p)] *)
Definition startswith (s p : string) : bool := prefix p s.

(** [sep.join(l)] *)
Definition join (sep : string) (l : list string) : string := concat sep l.

(** [s * n] *)
Definition repeat (s : string) (n : Z) : string :=
  concat "" (List.repeat s (Z.to_nat n)).

(** [s[:-1]] *)
Fixpoint drop_last (s : string) : string :=
  match s with
  | String c EmptyString => EmptyString
  | String c s' => String c (drop_last s')
  | EmptyString => EmptyString
  end.

(** [s[1]] *)
Definition index1 (s : string) : result ascii :=
  match s with
  | String _ (String c _) => Ok c
  | _ => Raise IndexError
  end.

Definition is_digit (c : ascii) : bool :=
  let n := nat_of_ascii c in ((48 <=? n) && (n <=? 57))%nat.

Definition digit_value (c : ascii) : Z := Z.of_nat (nat_of_ascii c) - 48.

(** [int(c)] on a one-character string. *)
Definition int_of_char (c : ascii) : result Z :=
  if is_digit c then Ok (digit_value c) else Raise ValueError.

(** [int(s)] on a string of decimal digits. *)
Definition int_of_digits (s : string) : Z :=
  fold_left (fun acc c => 10 * acc + digit_value c) (list_ascii_of_string s) 0.

(** [a in s] for a character [a]. *)
Fixpoint contains_char (a : ascii) (s : string) : bool :=
  match s with
  | String c s' => Ascii.eqb c a || contains_char a s'
  | EmptyString => false
  end.

(** [s.split(LF)] *)
Fixpoint split_lines (s : string) : list string :=
  match s with
  | EmptyString => [EmptyString]
  | String c s' =>
      if Ascii.eqb c (ascii_of_nat 10) then EmptyString :: split_lines s'
      else match split_lines s' with
           | l :: ls => String c l :: ls
           | [] => [String c EmptyString]
           end
  end.

End PyStr.

Import PyStr.

(** ** Front matter: [generate_front_matter] *)

(** The dictionary [front_matter] that [process_html_file] fills: five keys,
    [categories] being [None] when no category element was found. *)
Record front_matter : Type := {
  title : string;
  updated : string;
  date : string;
  categories : option string;
  tags : list string
}.

(** [str(v)] of a value that is a string or [None], as an f-string field
    prints it. *)
Definition format_opt (v : option string) : string :=
  match v with
  | Some s => s
  | None => "None"
  end.

Definition generate_front_matter (data : front_matter) : string :=
  let fm := "---" ++ LF in
  let fm := fm ++ ("title: " ++ title data ++ LF) in
  let fm := fm ++ ("updated: " ++ updated data ++ LF) in
  let fm := fm ++ ("date: " ++ date data ++ LF) in
  let fm := fm ++ ("categories: " ++ format_opt (categories data) ++ LF) in
  let fm :=
    match tags data with
    | [] => fm
    | _ :: _ =>
        fm ++ ("tags:" ++ LF ++ join LF (map (fun tag => "  - " ++ tag) (tags data)))
    end in
  fm ++ (LF ++ "---" ++ LF ++ LF).

(** ** Dates and times: the [datetime] module *)

Module Datetime.

(** A naive [datetime.datetime]. *)
Record datetime : Type := mkdt {
  year : Z;
  month : Z;
  day : Z;
  hour : Z;
  minute : Z;
  second : Z;
  microsecond : Z
}.

Definition MINYEAR : Z := 1.
Definition MAXYEAR : Z := 9999.
Definition _MAXORDINAL : Z := 3652059.

Definition _DAYS_IN_MONTH : list Z :=
  [-1; 31; 28; 31; 30; 31; 30; 31; 31; 30; 31; 30; 31].

Definition _DAYS_BEFORE_MONTH : list Z :=
  [-1; 0; 31; 59; 90; 120; 151; 181; 212; 243; 273; 304; 334].

(** [table[i]] for an index the callers keep within the table. *)
Definition index (table : list Z) (i : Z) : Z := nth (Z.to_nat i) table (-1).

Definition _is_leap (y : Z) : bool :=
  (y mod 4 =? 0) && (negb (y mod 100 =? 0) || (y mod 400 =? 0)).

Definition _days_before_year (y : Z) : Z :=
  let y := y - 1 in
  y * 365 + y / 4 - y / 100 + y / 400.

Definition _days_in_month (y m : Z) : Z :=
  if (m =? 2) && _is_leap y then 29 else index _DAYS_IN_MONTH m.

Definition _days_before_month (y m : Z) : Z :=
  index _DAYS_BEFORE_MONTH m + (if (2 <? m) && _is_leap y then 1 else 0).

Definition _ymd2ord (y m d : Z) : Z :=
  _days_before_year y + _days_before_month y m + d.

Definition _DI400Y : Z := 146097.
Definition _DI100Y : Z := 36524.
Definition _DI4Y : Z := 1461.

Definition _ord2ymd (n : Z) : Z * Z * Z :=
  let n := n - 1 in
  let n400 := n / _DI400Y in
  let n := n mod _DI400Y in
  let y := n400 * 400 + 1 in
  let n100 := n / _DI100Y in
  let n := n mod _DI100Y in
  let n4 := n / _DI4Y in
  let n := n mod _DI4Y in
  let n1 := n / 365 in
  let n := n mod 365 in
  let y := y + (n100 * 100 + n4 * 4 + n1) in
  if (n1 =? 4) || (n100 =? 4) then (y - 1, 12, 31)
  else
    let leapyear := (n1 =? 3) && (negb (n4 =? 24) || (n100 =? 3)) in
    let m := Z.shiftr (n + 50) 5 in
    let preceding :=
      index _DAYS_BEFORE_MONTH m + (if (2 <? m) && leapyear then 1 else 0) in
    if n <? preceding then
      let m := m - 1 in
      let preceding :=
        preceding
        - (index _DAYS_IN_MONTH m + (if (m =? 2) && leapyear then 1 else 0)) in
      (y, m, n - preceding + 1)
    else (y, m, n - preceding + 1).

(** [_check_date_fields] and [_check_time_fields]: the constructor's range
    checks, each failure a [ValueError]. *)
Definition check_fields (y m d hh mm ss us : Z) : bool :=
  (MINYEAR <=? y) && (y <=? MAXYEAR)
  && (1 <=? m) && (m <=? 12)
  && (1 <=? d) && (d <=? _days_in_month y m)
  && (0 <=? hh) && (hh <=? 23)
  && (0 <=? mm) && (mm <=? 59)
  && (0 <=? ss) && (ss <=? 59)
  && (0 <=? us) && (us <=? 999999).

(** [datetime(y, m, d, hh, mm, ss, us)] *)
Definition new (y m d hh mm ss us : Z) : result datetime :=
  if check_fields y m d hh mm ss us then Ok (mkdt y m d hh mm ss us)
  else Raise ValueError.

Definition toordinal (dt : datetime) : Z :=
  _ymd2ord (year dt) (month dt) (day dt).

(** Seconds since the start of ordinal day 0, the [timedelta] that
    [__add__] builds from [self]. *)
Definition total_seconds (dt : datetime) : Z :=
  toordinal dt * 86400 + hour dt * 3600 + minute dt * 60 + second dt.

(** [dt + timedelta(seconds=delta)] *)
Definition add_seconds (dt : datetime) (delta : Z) : result datetime :=
  let total := total_seconds dt + delta in
  let days := total / 86400 in
  let secs := total mod 86400 in
  let hh := secs / 3600 in
  let rem := secs mod 3600 in
  let mm := rem / 60 in
  let ss := rem mod 60 in
  if (0 <? days) && (days <=? _MAXORDINAL) then
    let '(y, m, d) := _ord2ymd days in
    Ok (mkdt y m d hh mm ss (microsecond dt))
  else Raise OverflowError.

(** Comparison of naive datetimes: the field tuples, lexicographically. *)
Definition fields (dt : datetime) : list Z :=
  [year dt; month dt; day dt; hour dt; minute dt; second dt; microsecond dt].

Fixpoint lex_leb (a b : list Z) : bool :=
  match a, b with
  | x :: a', y :: b' => (x <? y) || ((x =? y) && lex_leb a' b')
  | [], _ => true
  | _ :: _, [] => false
  end.

Definition leb (a b : datetime) : bool := lex_leb (fields a) (fields b).

(** *** [strftime] with the format ["%Y-%m-%d %H:%M:%S"]

    The directives are printed by the C library (glibc): month, day, hour,
    minute and second as zero-padded numbers of two digits, the year in
    decimal with no padding, so that a year before 1000 has fewer than
    four digits. *)

Definition digit_char (d : Z) : ascii := ascii_of_nat (48 + Z.to_nat d).

(** A field of at most two digits, zero-padded to width 2. *)
Definition pad2 (n : Z) : string :=
  String (digit_char (n / 10)) (String (digit_char (n mod 10)) "").

(** A number of at most four digits, zero-padded to width 4: the year as
    a timestamp of the accepted forms writes it. *)
Definition pad4 (n : Z) : string :=
  String (digit_char (n / 1000))
    (String (digit_char (n / 100 mod 10))
       (String (digit_char (n / 10 mod 10))
          (String (digit_char (n mod 10)) ""))).

(** [%Y]: the year in decimal, not padded. The year of a datetime has at
    most four digits. *)
Definition format_Y (n : Z) : string :=
  if n <? 10 then String (digit_char n) ""
  else if n <? 100 then pad2 n
  else if n <? 1000 then String (digit_char (n / 100)) (pad2 (n mod 100))
  else pad4 n.

Definition strftime (dt : datetime) : string :=
  format_Y (year dt) ++ "-" ++ pad2 (month dt) ++ "-" ++ pad2 (day dt) ++ " "
  ++ pad2 (hour dt) ++ ":" ++ pad2 (minute dt) ++ ":" ++ pad2 (second dt).

End Datetime.

(** ** [datetime.strptime] for the two formats of the normaliser

    [_strptime] compiles the format into a regular expression (one named
    group per directive, matched with IGNORECASE), takes the first match of
    the backtracking search at the start of the input, and refuses input left
    over after the match. The search is modelled by the list of its matches
    in the order the search visits them. *)

Module Strptime.

Import Datetime.

(** The matches of a pattern at the start of a string: what each match
    captures, and the input left after it; the first element is the match
    the search returns. *)
Definition rx (A : Type) : Type := string -> list (A * string).

Definition rx_ret {A : Type} (a : A) : rx A := fun s => [(a, s)].

Definition rx_bind {A B : Type} (m : rx A) (k : A -> rx B) : rx B :=
  fun s => flat_map (fun p => k (fst p) (snd p)) (m s).

Definition rx_alt {A : Type} (a b : rx A) : rx A :=
  fun s => (a s ++ b s)%list.

Definition rx_char (p : ascii -> bool) : rx string :=
  fun s =>
    match s with
    | String c r => if p c then [(String c "", r)] else []
    | EmptyString => []
    end.

(** Concatenation of two patterns, capturing the text of both. *)
Definition rx_cat (a b : rx string) : rx string :=
  rx_bind a (fun x => rx_bind b (fun y => rx_ret (x ++ y))).

(** [p?], greedy. *)
Definition rx_opt (a : rx string) : rx string := rx_alt a (rx_ret "").

Definition between (lo hi : ascii) (c : ascii) : bool :=
  ((nat_of_ascii lo <=? nat_of_ascii c) && (nat_of_ascii c <=? nat_of_ascii hi))%nat.

(** A literal character of the format. *)
Definition lit (a : ascii) : rx string := rx_char (Ascii.eqb a).

(** A literal letter of the format, under IGNORECASE. *)
Definition lit_nocase (lower upper : ascii) : rx string :=
  rx_char (fun c => Ascii.eqb c lower || Ascii.eqb c upper).

(** [\d] *)
Definition rx_d : rx string := rx_char is_digit.

(** [%Y]: [\d\d\d\d] *)
Definition dir_Y : rx string := rx_cat rx_d (rx_cat rx_d (rx_cat rx_d rx_d)).

(** [%m]: [1[0-2]|0[1-9]|[1-9]] *)
Definition dir_m : rx string :=
  rx_alt (rx_cat (lit "1") (rx_char (between "0" "2")))
    (rx_alt (rx_cat (lit "0") (rx_char (between "1" "9")))
       (rx_char (between "1" "9"))).

(** [%d]: [3[0-1]|[1-2]\d|0[1-9]|[1-9]| [1-9]] *)
Definition dir_d : rx string :=
  rx_alt (rx_cat (lit "3") (rx_char (between "0" "1")))
    (rx_alt (rx_cat (rx_char (between "1" "2")) rx_d)
       (rx_alt (rx_cat (lit "0") (rx_char (between "1" "9")))
          (rx_alt (rx_char (between "1" "9"))
             (rx_cat (lit " ") (rx_char (between "1" "9")))))).

(** [%H]: [2[0-3]|[0-1]\d|\d] *)
Definition dir_H : rx string :=
  rx_alt (rx_cat (lit "2") (rx_char (between "0" "3")))
    (rx_alt (rx_cat (rx_char (between "0" "1")) rx_d) rx_d).

(** [%M]: [[0-5]\d|\d] *)
Definition dir_M : rx string :=
  rx_alt (rx_cat (rx_char (between "0" "5")) rx_d) rx_d.

(** [%S]: [6[0-1]|[0-5]\d|\d] *)
Definition dir_S : rx string :=
  rx_alt (rx_cat (lit "6") (rx_char (between "0" "1")))
    (rx_alt (rx_cat (rx_char (between "0" "5")) rx_d) rx_d).

(** [%f]: [[0-9]{1,6}] *)
Definition dir_f : rx string :=
  rx_cat rx_d (rx_opt (rx_cat rx_d (rx_opt (rx_cat rx_d (rx_opt (rx_cat rx_d
    (rx_opt (rx_cat rx_d (rx_opt rx_d))))))))).

(** The groups of one match: Y, m, d, H, M, S and, in the fractional
    format, f. *)
Record groups : Type := mkgroups {
  gY : string; gm : string; gd : string;
  gH : string; gM : string; gS : string;
  gf : option string
}.

(** ["%Y-%m-%dT%H:%M:%S"] up to the seconds, handing the groups to [k]. *)
Definition rx_seconds {A : Type}
    (k : string -> string -> string -> string -> string -> string -> rx A) : rx A :=
  rx_bind dir_Y (fun Y => rx_bind (lit "-") (fun _ =>
  rx_bind dir_m (fun m => rx_bind (lit "-") (fun _ =>
  rx_bind dir_d (fun d => rx_bind (lit_nocase "t" "T") (fun _ =>
  rx_bind dir_H (fun H => rx_bind (lit ":") (fun _ =>
  rx_bind dir_M (fun M => rx_bind (lit ":") (fun _ =>
  rx_bind dir_S (fun S => k Y m d H M S))))))))))).

(** ["%Y-%m-%dT%H:%M:%S.%f"] *)
Definition rx_fraction : rx groups :=
  rx_seconds (fun Y m d H M S =>
    rx_bind (lit ".") (fun _ =>
    rx_bind dir_f (fun f => rx_ret (mkgroups Y m d H M S (Some f))))).

(** ["%Y-%m-%dT%H:%M:%S"] *)
Definition rx_whole : rx groups :=
  rx_seconds (fun Y m d H M S => rx_ret (mkgroups Y m d H M S None)).

(** [int(s)] on the text of a group: digits, after at most a leading
    blank. *)
Definition int_of_group (s : string) : Z := int_of_digits (strip s).

(** The [%f] group, right-padded with zeros to six digits. *)
Definition fraction_of_group (f : option string) : Z :=
  match f with
  | Some s => int_of_digits (s ++ PyStr.repeat "0" (6 - Z.of_nat (String.length s)))
  | None => 0
  end.

(** [datetime.strptime(data, format)], [format] given by its pattern. *)
Definition strptime (data : string) (format : rx groups) : result datetime :=
  match format data with
  | [] => Raise ValueError
  | (g, rest) :: _ =>
      match rest with
      | EmptyString =>
          Datetime.new (int_of_group (gY g)) (int_of_group (gm g))
            (int_of_group (gd g)) (int_of_group (gH g))
            (int_of_group (gM g)) (int_of_group (gS g))
            (fraction_of_group (gf g))
      | String _ _ => Raise ValueError
      end
  end.

End Strptime.

(** ** Time zones: the part of [pytz] the normaliser calls *)

Module Pytz.

Import Datetime.

(** The three classes of zone objects. A zone with transitions carries its
    transition instants (naive UTC, ascending) and, for each, the offset in
    seconds in force from it on. *)
Inductive tzinfo : Type :=
| UTC
| StaticTzInfo (utcoffset : Z)
| DstTzInfo (utc_transition_times : list datetime) (transition_info : list Z).

(** [bisect_right(times, dt)] on an ascending list. *)
Fixpoint bisect_right (times : list datetime) (dt : datetime) : Z :=
  match times with
  | t :: times' => if leb t dt then 1 + bisect_right times' dt else 0
  | [] => 0
  end.

(** [tz.fromutc(dt)] *)
Definition fromutc (tz : tzinfo) (dt : datetime) : result datetime :=
  match tz with
  | UTC => Ok dt
  | StaticTzInfo off => add_seconds dt off
  | DstTzInfo times info =>
      let idx := Z.max 0 (bisect_right times dt - 1) in
      match nth_error info (Z.to_nat idx) with
      | Some off => add_seconds dt off
      | None => Raise IndexError
      end
  end.

(** [utc.localize(dt).astimezone(tz)]: a UTC target returns the value
    itself; any other zone converts from UTC. *)
Definition astimezone (dt : datetime) (tz : tzinfo) : result datetime :=
  match tz with
  | UTC => Ok dt
  | _ => utc <- add_seconds dt 0 ;; fromutc tz utc
  end.

End Pytz.

(** ** The timezone normaliser: [convert_utc_to_timezone] *)

Section Normalizer.

Import Datetime Strptime Pytz.

(** The zone database behind [pytz.timezone]: the zone object built for a
    name, [None] for a name the database does not have. *)
Variable all_timezones : string -> option tzinfo.

(** [zone.upper() == 'UTC'] *)
Definition is_utc_name (zone : string) : bool :=
  match zone with
  | String u (String t (String c EmptyString)) =>
      (Ascii.eqb u "U" || Ascii.eqb u "u")
      && (Ascii.eqb t "T" || Ascii.eqb t "t")
      && (Ascii.eqb c "C" || Ascii.eqb c "c")
  | _ => false
  end.

(** [pytz.timezone(zone)] *)
Definition pytz_timezone (zone : string) : result tzinfo :=
  if is_utc_name zone then Ok UTC
  else match all_timezones zone with
       | Some tz => Ok tz
       | None => Raise UnknownTimeZoneError
       end.

Definition convert_utc_to_timezone (time_str tz_str : string) : result string :=
  utc_time <-
    match strptime (drop_last time_str) rx_fraction with
    | Raise ValueError => strptime (drop_last time_str) rx_whole
    | r => r
    end ;;
  utc_zone <- pytz_timezone "UTC" ;;
  target_zone <- pytz_timezone tz_str ;;
  local_time <- astimezone utc_time target_zone ;;
  Ok (strftime local_time).

End Normalizer.

(** An excerpt of the zone database: the one zone the converter names,
    Asia/Shanghai, with the table pytz's loader builds for it from the
    zone file (tzdata 2026b).
    The table starts at the least datetime with local mean time, its offset
    rounded to the minute as pytz rounds it, goes on to standard time at
    the first instant the file can hold (13 December 1901), and lists the
    summer-time regimes of 1919, 1940 to 1949 and 1986 to 1991; no other
    zone is listed. *)
Definition tz_excerpt (zone : string) : option Pytz.tzinfo :=
  if String.eqb zone "Asia/Shanghai" then
    Some (Pytz.DstTzInfo
            [Datetime.mkdt 1 1 1 0 0 0 0;
             Datetime.mkdt 1901 12 13 20 45 52 0;
             Datetime.mkdt 1919 4 12 16 0 0 0;
             Datetime.mkdt 1919 9 30 15 0 0 0;
             Datetime.mkdt 1940 5 31 16 0 0 0;
             Datetime.mkdt 1940 10 12 15 0 0 0;
             Datetime.mkdt 1941 3 14 16 0 0 0;
             Datetime.mkdt 1941 11 1 15 0 0 0;
             Datetime.mkdt 1942 1 30 16 0 0 0;
             Datetime.mkdt 1945 9 1 15 0 0 0;
             Datetime.mkdt 1946 5 14 16 0 0 0;
             Datetime.mkdt 1946 9 30 15 0 0 0;
             Datetime.mkdt 1947 4 14 16 0 0 0;
             Datetime.mkdt 1947 10 31 15 0 0 0;
             Datetime.mkdt 1948 4 30 16 0 0 0;
             Datetime.mkdt 1948 9 30 15 0 0 0;
             Datetime.mkdt 1949 4 30 16 0 0 0;
             Datetime.mkdt 1949 5 27 15 0 0 0;
             Datetime.mkdt 1986 5 3 18 0 0 0;
             Datetime.mkdt 1986 9 13 17 0 0 0;
             Datetime.mkdt 1987 4 11 18 0 0 0;
             Datetime.mkdt 1987 9 12 17 0 0 0;
             Datetime.mkdt 1988 4 16 18 0 0 0;
             Datetime.mkdt 1988 9 10 17 0 0 0;
             Datetime.mkdt 1989 4 15 18 0 0 0;
             Datetime.mkdt 1989 9 16 17 0 0 0;
             Datetime.mkdt 1990 4 14 18 0 0 0;
             Datetime.mkdt 1990 9 15 17 0 0 0;
             Datetime.mkdt 1991 4 13 18 0 0 0;
             Datetime.mkdt 1991 9 14 17 0 0 0]
            [29160; 28800; 32400; 28800; 32400; 28800; 32400; 28800;
             32400; 28800; 32400; 28800; 32400; 28800; 32400; 28800;
             32400; 28800; 32400; 28800; 32400; 28800; 32400; 28800;
             32400; 28800; 32400; 28800; 32400; 28800])
  else None.

(** ** The parsed document: the part of [bs4] the converter calls *)

Module Bs4.

(** A page element: a tag with its attributes as written in the markup
    (distinct keys, as in a dict) and its contents, a text node, or a
    comment. The other string classes of bs4 (doctype, CDATA, the contents
    of script, style and template elements as strings of their own class)
    are not modelled. *)
#[warnings="-register-all"]
Inductive node : Type :=
| Tag (name : string) (attrs : list (string * string)) (contents : list node)
| NavigableString (text : string)
| Comment (text : string).

(** [element.name]: [None] on a string. *)
Definition name (n : node) : option string :=
  match n with
  | Tag nm _ _ => Some nm
  | _ => None
  end.

(** [element.children] *)
Definition children (n : node) : list node :=
  match n with
  | Tag _ _ cs => cs
  | _ => []
  end.

(** [element.name == s] *)
Definition name_is (n : node) (s : string) : bool :=
  match name n with
  | Some nm => String.eqb nm s
  | None => false
  end.

(** [element.descendants]: document order. *)
Fixpoint descendants (n : node) : list node :=
  match n with
  | Tag _ _ cs => flat_map (fun c => c :: descendants c) cs
  | _ => []
  end.

(** *** Attributes *)

(** The value of an attribute as the builder stores it: a string, or, for
    a multi-valued attribute, the list of its whitespace-separated
    values. *)
Inductive attr_value : Type :=
| AStr (s : string)
| AList (l : list string).

(** [re.findall(r"\S+", s)]; [cur] is the value being read, reversed. *)
Fixpoint split_ws_from (cur : list ascii) (s : string) : list string :=
  let flush :=
    match cur with
    | [] => []
    | _ :: _ => [string_of_list_ascii (rev cur)]
    end in
  match s with
  | EmptyString => flush
  | String c s' =>
      if isspace c then (flush ++ split_ws_from [] s')%list
      else split_ws_from (c :: cur) s'
  end.

Definition split_ws (s : string) : list string := split_ws_from [] s.

(** The builder's table of multi-valued attributes. *)
Definition cdata_list_attribute (tag key : string) : bool :=
  let attr k := String.eqb key k in
  let on t := String.eqb tag t in
  attr "class" || attr "accesskey" || attr "dropzone"
  || ((on "a" || on "link") && (attr "rel" || attr "rev"))
  || ((on "td" || on "th") && attr "headers")
  || (on "form" && attr "accept-charset")
  || (on "object" && attr "archive")
  || (on "area" && attr "rel")
  || (on "icon" && attr "sizes")
  || (on "iframe" && attr "sandbox")
  || (on "output" && attr "for").

Fixpoint lookup (key : string) (attrs : list (string * string)) : option string :=
  match attrs with
  | (k, v) :: attrs' => if String.eqb k key then Some v else lookup key attrs'
  | [] => None
  end.

(** [tag.get(key)]; the converter calls it on tags only. *)
Definition get (n : node) (key : string) : option attr_value :=
  match n with
  | Tag nm attrs _ =>
      match lookup key attrs with
      | Some v =>
          Some (if cdata_list_attribute nm key then AList (split_ws v) else AStr v)
      | None => None
      end
  | _ => None
  end.

(** [str(v)] of the value [tag.get(key)], as an f-string field prints it.
    The attributes the converter prints, href and content, are
    single-valued; a list, which does not occur for them, is shown joined by
    blanks. *)
Definition format_attr (v : option attr_value) : string :=
  match v with
  | Some (AStr s) => s
  | Some (AList l) => join " " l
  | None => "None"
  end.

(** [tag.get('class') == l] *)
Definition class_is (n : node) (l : list string) : bool :=
  match get n "class" with
  | Some (AList l') => if list_eq_dec string_dec l' l then true else false
  | _ => false
  end.

(** *** Searching: [find] and [find_all] with a tag name and at most one
    attribute filter *)

(** Whether an attribute value satisfies a string filter: a multi-valued
    attribute by any one of its values or by all of them joined with
    blanks; an absent attribute only for an empty filter. *)
Definition attr_matches (v : option attr_value) (against : string) : bool :=
  match v with
  | None => String.eqb against ""
  | Some (AStr s) => String.eqb s against
  | Some (AList l) =>
      existsb (fun item => String.eqb item against) l
      || String.eqb (join " " l) against
  end.

Definition matches (tag_name : string) (filter : option (string * string))
    (n : node) : bool :=
  name_is n tag_name
  && match filter with
     | Some (key, against) => attr_matches (get n key) against
     | None => true
     end.

Definition find_all (n : node) (tag_name : string)
    (filter : option (string * string)) : list node :=
  List.filter (matches tag_name filter) (descendants n).

Definition find (n : node) (tag_name : string)
    (filter : option (string * string)) : option node :=
  hd_error (find_all n tag_name filter).

(** *** Text: [get_text] *)

(** The strings [_all_strings] yields: the text nodes under the element in
    document order, comments left out; with [strip], each one stripped and
    dropped when nothing is left. *)
Fixpoint all_strings (strip_each : bool) (n : node) : list string :=
  match n with
  | Tag _ _ cs => flat_map (all_strings strip_each) cs
  | NavigableString s =>
      if strip_each then
        match strip s with
        | EmptyString => []
        | s' => [s']
        end
      else [s]
  | Comment _ => []
  end.

(** [element.get_text(strip=strip_each)]; [element.text] is
    [get_text false]. *)
Definition get_text (strip_each : bool) (n : node) : string :=
  concat "" (all_strings strip_each n).

(** *** Markup: [str(element)] *)

(** [EntitySubstitution.substitute_xml] *)
Fixpoint substitute_xml (s : string) : string :=
  match s with
  | String c s' =>
      (if Ascii.eqb c "&" then "&amp;"
       else if Ascii.eqb c "<" then "&lt;"
       else if Ascii.eqb c ">" then "&gt;"
       else String c "") ++ substitute_xml s'
  | EmptyString => EmptyString
  end.

(** The double quote character. *)
Definition dquote : ascii := ascii_of_nat 34.

(** Every double quote replaced by its entity. *)
Fixpoint replace_dquote (s : string) : string :=
  match s with
  | String c s' =>
      (if Ascii.eqb c dquote then "&quot;" else String c "") ++ replace_dquote s'
  | EmptyString => EmptyString
  end.

(** [quoted_attribute_value] *)
Definition quoted_attribute_value (v : string) : string :=
  if contains_char dquote v then
    if contains_char "'" v then String dquote (replace_dquote v) ++ String dquote ""
    else "'" ++ v ++ "'"
  else String dquote v ++ String dquote "".

(** The attributes in the order the formatter prints them: sorted by
    key. *)
Fixpoint insert_attr (a : string * string) (l : list (string * string))
    : list (string * string) :=
  match l with
  | b :: l' => if String.leb (fst a) (fst b) then a :: l else b :: insert_attr a l'
  | [] => [a]
  end.

Definition sorted_attrs (l : list (string * string)) : list (string * string) :=
  fold_right insert_attr [] l.

Definition attribute_string (tag : string) (attrs : list (string * string)) : string :=
  concat ""
    (map (fun kv =>
            let v := if cdata_list_attribute tag (fst kv)
                     then join " " (split_ws (snd kv)) else snd kv in
            " " ++ fst kv ++ "=" ++ quoted_attribute_value (substitute_xml v))
         (sorted_attrs attrs)).

(** The builder's void elements. *)
Definition empty_element_tags : list string :=
  ["area"; "base"; "br"; "col"; "embed"; "hr"; "img"; "input"; "keygen";
   "link"; "menuitem"; "meta"; "param"; "source"; "track"; "wbr";
   "basefont"; "bgsound"; "command"; "frame"; "image"; "isindex";
   "nextid"; "spacer"].

Definition mem (s : string) (l : list string) : bool :=
  existsb (String.eqb s) l.

(** [element.decode()] with the default formatter, for an element whose
    parent is named [parent]: text is entity-substituted unless it sits in
    a script or style element. *)
Fixpoint decode (parent : string) (n : node) : string :=
  match n with
  | Tag nm attrs cs =>
      match cs with
      | [] =>
          if mem nm empty_element_tags
          then "<" ++ nm ++ attribute_string nm attrs ++ "/>"
          else "<" ++ nm ++ attribute_string nm attrs ++ ">" ++ "</" ++ nm ++ ">"
      | _ :: _ =>
          "<" ++ nm ++ attribute_string nm attrs ++ ">"
          ++ concat "" (map (decode nm) cs) ++ "</" ++ nm ++ ">"
      end
  | NavigableString s =>
      if mem parent ["script"; "style"] then s else substitute_xml s
  | Comment s => "<!--" ++ s ++ "-->"
  end.

(** [str(element)]: a tag decodes to its markup; a string is its own
    text. *)
Definition str (n : node) : string :=
  match n with
  | Tag _ _ _ => decode "" n
  | NavigableString s => s
  | Comment s => s
  end.

End Bs4.

(** ** The body converter: [handle_element] and [html_to_markdown] *)

Import Bs4.

Definition handle_element (element : node) : string :=
  if name_is element "a" then
    "[" ++ get_text false element ++ "](" ++ format_attr (get element "href") ++ ")"
  else if name_is element "code" then
    "`" ++ get_text false element ++ "`"
  else if startswith (str element) "<br" then
    LF ++ LF
  else
    str element.

(** [elem.name and elem.name.startswith('h')] *)
Definition name_startswith_h (elem : node) : bool :=
  match name elem with
  | Some nm => negb (String.eqb nm "") && startswith nm "h"
  | None => false
  end.

(** [int(elem.name[1])], evaluated on a tag with a name. *)
Definition header_level_of (elem : node) : result Z :=
  match name elem with
  | Some nm => c <- index1 nm ;; int_of_char c
  | None => Raise TypeError
  end.

(** The triple-backtick fence. *)
Definition fence : string := "```".

(** One turn of the loop over [post_body.children]: the value of [markdown]
    after the turn, or the exception the turn raises. *)
Definition convert_child (elem : node) (markdown : string) : result string :=
  if name_is elem "p" then
    let markdown := markdown ++ concat "" (map handle_element (children elem)) in
    Ok (markdown ++ (LF ++ LF))
  else if name_startswith_h elem then
    let header_text := get_text true elem in
    header_level <- header_level_of elem ;;
    Ok (markdown ++ (PyStr.repeat "#" header_level ++ " " ++ header_text ++ LF ++ LF))
  else if name_is elem "figure" && class_is elem ["highlight"; "plaintext"] then
    match find elem "td" (Some ("class", "code")) with
    | Some td_code =>
        let code_lines :=
          map (fun span => rstrip (get_text false span))
              (find_all td_code "span" (Some ("class", "line"))) in
        Ok (markdown ++ (LF ++ fence ++ LF ++ strip (join LF code_lines) ++ LF ++ fence ++ LF))
    | None => Ok markdown
    end
  else if name_is elem "table" then
    let headers := map (get_text true) (find_all elem "th" None) in
    let rows := tl (find_all elem "tr" None) in
    let markdown_table :=
      ([join " | " headers]
       ++ [join " | " (List.repeat "---" (List.length headers))])%list in
    let markdown_table :=
      fold_left
        (fun table row =>
           let columns := map (get_text true) (find_all row "td" None) in
           (table ++ [join " | " columns])%list)
        rows markdown_table in
    Ok (markdown ++ (join LF markdown_table ++ LF ++ LF))
  else
    Ok markdown.

(** The loop over the children, threading [markdown]. *)
Fixpoint convert_children (elems : list node) (markdown : string) : result string :=
  match elems with
  | elem :: elems' =>
      markdown <- convert_child elem markdown ;;
      convert_children elems' markdown
  | [] => Ok markdown
  end.

Definition html_to_markdown (soup : node) : result string :=
  match find soup "div" (Some ("class", "post-body")) with
  | None => Ok ""
  | Some post_body =>
      markdown <- convert_children (children post_body) "" ;;
      Ok (strip markdown)
  end.

(** ** The strict extraction and the document: [process_html_file] *)

Section Pipeline.

Variable all_timezones : string -> option Pytz.tzinfo.

(** [soup.find('meta', property=prop)['content']]: subscripting [None] is
    a [TypeError], a tag without the attribute a [KeyError]. *)
Definition meta_content (soup : node) (prop : string) : result string :=
  match find soup "meta" (Some ("property", prop)) with
  | None => Raise TypeError
  | Some tag =>
      match get tag "content" with
      | Some v => Ok (format_attr (Some v))
      | None => Raise KeyError
      end
  end.

(** [[tag['content'] for tag in found]] *)
Fixpoint contents_of (found : list node) : result (list string) :=
  match found with
  | tag :: found' =>
      match get tag "content" with
      | Some v =>
          rest <- contents_of found' ;;
          Ok (format_attr (Some v) :: rest)
      | None => Raise KeyError
      end
  | [] => Ok []
  end.

(** The dictionary [front_matter] as [process_html_file] fills it, key by
    key in the order of the assignments. *)
Definition process_html_file_front_matter (soup : node) : result front_matter :=
  fm_title <-
    match find soup "h1" (Some ("class", "post-title")) with
    | Some title_tag => Ok (get_text true title_tag)
    | None => Raise AttributeError
    end ;;
  let time_tag := find soup "time" (Some ("itemprop", "dateCreated datePublished")) in
  let published_time := option_map (get_text true) time_tag in
  let category_tag := find soup "span" (Some ("itemprop", "name")) in
  let fm_categories := option_map (get_text true) category_tag in
  published <- meta_content soup "article:published_time" ;;
  fm_updated <- convert_utc_to_timezone all_timezones published "Asia/Shanghai" ;;
  modified <- meta_content soup "article:modified_time" ;;
  fm_date <- convert_utc_to_timezone all_timezones modified "Asia/Shanghai" ;;
  fm_tags <- contents_of (find_all soup "meta" (Some ("property", "article:tag"))) ;;
  Ok {| title := fm_title;
        updated := fm_updated;
        date := fm_date;
        categories := fm_categories;
        tags := fm_tags |}.

(** What [process_html_file] writes to the output file for a parsed
    document. *)
Definition process_html_file (soup : node) : result string :=
  front_matter <- process_html_file_front_matter soup ;;
  let fm := generate_front_matter front_matter in
  markdown_content <- html_to_markdown soup ;;
  Ok (fm ++ markdown_content).

End Pipeline.

(** ** The lenient extraction: [extract_front_matter] *)

(** The dictionary the lenient extraction returns: its two keys. *)
Record page_head : Type := mkhead {
  head_title : string;
  head_date : string
}.

(** [(date_tag.get('datetime') or date_tag.get_text()).strip()]: an absent
    or empty value gives way to the text of the element; a list that is not
    empty would be taken, and has no [strip]. *)
Definition date_of_tag (date_tag : node) : result string :=
  match get date_tag "datetime" with
  | None | Some (AStr EmptyString) | Some (AList []) =>
      Ok (strip (get_text false date_tag))
  | Some (AStr date_str) => Ok (strip date_str)
  | Some (AList (_ :: _)) => Raise AttributeError
  end.

(** [extract_front_matter(soup)]; [now] is what [datetime.now()] returns,
    read only where the code calls it. *)
Definition extract_front_matter (now : Datetime.datetime) (soup : node)
    : result page_head :=
  let title_tag := find soup "h1" (Some ("class", "post-title")) in
  let fm_title :=
    match title_tag with
    | Some tag => strip (get_text false tag)
    | None => "Untitled"
    end in
  let date_tag := find soup "time" None in
  fm_date <-
    match date_tag with
    | Some tag => date_of_tag tag
    | None => Ok (Datetime.strftime now)
    end ;;
  Ok (mkhead fm_title fm_date).

(** ** Paths: the part of [os.path] the pipeline calls (POSIX) *)

Module PosixPath.

(** [p[:i]] and [p[i:]] for [i = p.rfind('/') + 1]. *)
Fixpoint split_at_last_sep (p : string) : string * string :=
  match p with
  | EmptyString => (EmptyString, EmptyString)
  | String c p' =>
      let (head, tail) := split_at_last_sep p' in
      match head with
      | EmptyString =>
          if Ascii.eqb c "/" then (String c EmptyString, tail)
          else (EmptyString, String c tail)
      | String _ _ => (String c head, tail)
      end
  end.

(** [head.rstrip('/')] *)
Fixpoint rstrip_sep (s : string) : string :=
  match s with
  | String c s' =>
      match rstrip_sep s' with
      | EmptyString => if Ascii.eqb c "/" then EmptyString else String c EmptyString
      | r => String c r
      end
  | EmptyString => EmptyString
  end.

(** [head == '/' * len(head)] *)
Fixpoint all_sep (s : string) : bool :=
  match s with
  | String c s' => Ascii.eqb c "/" && all_sep s'
  | EmptyString => true
  end.

(** [s.endswith(suffix)] *)
Fixpoint endswith (s suffix : string) : bool :=
  String.eqb s suffix
  || match s with
     | String _ s' => endswith s' suffix
     | EmptyString => false
     end.

(** [os.path.dirname(p)] *)
Definition dirname (p : string) : string :=
  let head := fst (split_at_last_sep p) in
  if negb (String.eqb head "") && negb (all_sep head) then rstrip_sep head
  else head.

(** [os.path.basename(p)] *)
Definition basename (p : string) : string := snd (split_at_last_sep p).

(** [os.path.join(a, b)] *)
Definition join (a b : string) : string :=
  if PyStr.startswith b "/" then b
  else if String.eqb a "" || endswith a "/" then a ++ b
  else a ++ "/" ++ b.

End PosixPath.

(** The output path of [process_html_file]: the name of the directory the
    page lies in, with the extension md, inside the output directory. *)
Definition output_path (html_path output_dir : string) : string :=
  let parent_dir_name := PosixPath.basename (PosixPath.dirname html_path) in
  PosixPath.join output_dir (parent_dir_name ++ ".md").

(** ** Files: [process_html_file] and [batch_convert_html_to_markdown] with
    their effects *)

(** What ends a run early: an exception of the conversion, or a file
    operation that fails. *)
Inductive failure : Type :=
| Raised (e : exn)
| CannotRead (path : string)
| CannotWrite (path : string)
| CannotMake (path : string).

(** The effects of a run, in the order they happen: the directories made,
    the files written with their text, the lines printed. *)
Record world : Type := mkworld {
  made : list string;
  written : list (string * string);
  printed : list string
}.

(** The text of a file after the run: that of the last write to it. *)
Definition file_content (w : world) (path : string) : option string :=
  option_map snd
    (List.find (fun pw => String.eqb (fst pw) path) (rev (written w))).

(** The line printed for a written file. *)
Definition success_line (pw : string * string) : string :=
  "Conversion successful: " ++ fst pw.

Section Files.

Variable all_timezones : string -> option Pytz.tzinfo.

(** The file system as the run finds it: the document parsed from a page
    ([None] when the page cannot be opened or read), whether a file can be
    opened for writing, whether a path exists, and what [os.walk] yields
    for a directory: for each directory under it, its path, its
    subdirectories and its files. *)
Variable read_page : string -> option Bs4.node.
Variable writable : string -> bool.
Variable path_exists : string -> bool.
Variable os_walk : string -> list (string * list string * list string).

(** What [os.makedirs] does for a path: the directories it makes, which
    are the missing ancestors of the path, outermost first, and then the
    path itself, and whether it ends without an error. When it fails it
    may have made some of them, and these remain. *)
Variable makedirs : string -> list string * bool.

(** [process_html_file(html_path, output_dir)]: the page is read and
    converted before the output file is opened; the line is printed after
    the text is written. *)
Definition process_html_file_at (html_path output_dir : string) (w : world)
    : world * option failure :=
  match read_page html_path with
  | None => (w, Some (CannotRead html_path))
  | Some soup =>
      match process_html_file all_timezones soup with
      | Raise e => (w, Some (Raised e))
      | Ok text =>
          let out := output_path html_path output_dir in
          if writable out then
            (mkworld (made w) (List.app (written w) [(out, text)])
               (List.app (printed w) [success_line (out, text)]),
             None)
          else (w, Some (CannotWrite out))
      end
  end.

(** The inner loop: the files of one directory. *)
Fixpoint convert_files (root : string) (files : list string)
    (output_dir : string) (w : world) : world * option failure :=
  match files with
  | file :: files' =>
      if PosixPath.endswith file ".html" then
        match process_html_file_at (PosixPath.join root file) output_dir w with
        | (w', None) => convert_files root files' output_dir w'
        | stop => stop
        end
      else convert_files root files' output_dir w
  | [] => (w, None)
  end.

(** The outer loop: the directories of the walk. *)
Fixpoint convert_walk (entries : list (string * list string * list string))
    (output_dir : string) (w : world) : world * option failure :=
  match entries with
  | (root, _, files) :: entries' =>
      match convert_files root files output_dir w with
      | (w', None) => convert_walk entries' output_dir w'
      | stop => stop
      end
  | [] => (w, None)
  end.

(** [batch_convert_html_to_markdown(input_dir, output_dir)] *)
Definition batch_convert_html_to_markdown (input_dir output_dir : string)
    (w : world) : world * option failure :=
  if path_exists output_dir then
    convert_walk (os_walk input_dir) output_dir w
  else
    let (dirs, done) := makedirs output_dir in
    let w' := mkworld (List.app (made w) dirs) (written w) (printed w) in
    if done then convert_walk (os_walk input_dir) output_dir w'
    else (w', Some (CannotMake output_dir)).

End Files.

(** * Properties *)

(** ** Strings and lines *)

Lemma append_assoc (a b c : string) : (a ++ b) ++ c = a ++ (b ++ c).
Proof.
  induction a as [|x a IH]; simpl; [reflexivity | now rewrite IH].
Qed.

Lemma append_nil_r (a : string) : a ++ "" = a.
Proof.
  induction a as [|x a IH]; simpl; [reflexivity | now rewrite IH].
Qed.

(** A string without a line feed. *)
Definition single_line (s : string) : bool :=
  negb (contains_char (ascii_of_nat 10) s).

Lemma split_lines_nonempty (s : string) : split_lines s <> [].
Proof.
  destruct s as [|c s]; simpl; [discriminate|].
  destruct (Ascii.eqb c (ascii_of_nat 10)); [discriminate|].
  destruct (split_lines s); discriminate.
Qed.

Lemma split_lines_single (s : string) :
  single_line s = true -> split_lines s = [s].
Proof.
  unfold single_line.
  induction s as [|c s IH]; simpl; intros H; [reflexivity|].
  apply negb_true_iff, orb_false_iff in H. destruct H as [Hc Hs].
  rewrite Hc, IH; [reflexivity | now rewrite Hs].
Qed.

Lemma split_lines_cons (s rest : string) :
  single_line s = true ->
  split_lines (s ++ LF ++ rest) = s :: split_lines rest.
Proof.
  unfold single_line.
  induction s as [|c s IH]; intros H; [reflexivity|].
  cbn [contains_char] in H.
  apply negb_true_iff, orb_false_iff in H. destruct H as [Hc Hs].
  change (String c s ++ LF ++ rest) with (String c (s ++ LF ++ rest)).
  cbn [split_lines]. rewrite Hc, IH; [reflexivity | now rewrite Hs].
Qed.

Lemma split_lines_join (l : list string) :
  l <> [] -> forallb single_line l = true -> split_lines (join LF l) = l.
Proof.
  unfold join.
  induction l as [|x l IH]; intros Hne Hall; [congruence|].
  simpl in Hall. apply andb_true_iff in Hall. destruct Hall as [Hx Hl].
  destruct l as [|y l].
  - simpl. now apply split_lines_single.
  - change (concat LF (x :: y :: l)) with (x ++ LF ++ concat LF (y :: l)).
    rewrite split_lines_cons by exact Hx.
    rewrite IH; [reflexivity | discriminate | exact Hl].
Qed.

(** ** The front-matter renderer *)

(** The lines of the front matter, as the renderer lays them out: with no
    tag, an empty line stands where the tag lines would. *)
Definition front_matter_lines (data : front_matter) : list string :=
  List.app
    ["---";
     "title: " ++ title data;
     "updated: " ++ updated data;
     "date: " ++ date data;
     "categories: " ++ format_opt (categories data)]
    (List.app
       match tags data with
       | [] => [""]
       | _ :: _ => "tags:" :: map (fun tag => "  - " ++ tag) (tags data)
       end
       ["---"; ""; ""]).

Lemma join_app (sep : string) (l1 l2 : list string) :
  l1 <> [] -> l2 <> [] ->
  join sep (List.app l1 l2) = join sep l1 ++ sep ++ join sep l2.
Proof.
  unfold join. intros H1 H2.
  induction l1 as [|x l1 IH]; [congruence|].
  destruct l1 as [|y l1].
  - simpl. destruct l2; [congruence | reflexivity].
  - change (concat sep (List.app (x :: y :: l1) l2))
      with (x ++ sep ++ concat sep (List.app (y :: l1) l2)).
    rewrite IH by discriminate.
    change (concat sep (x :: y :: l1)) with (x ++ sep ++ concat sep (y :: l1)).
    now rewrite !append_assoc.
Qed.

Lemma generate_front_matter_lines (data : front_matter) :
  generate_front_matter data = join LF (front_matter_lines data).
Proof.
  unfold generate_front_matter, front_matter_lines.
  destruct (tags data) as [|t ts].
  - cbn [List.app join concat]. rewrite !append_assoc. reflexivity.
  - set (tl := map (fun tag => "  - " ++ tag) (t :: ts)).
    assert (Htl : tl <> []) by (subst tl; discriminate).
    change (List.app
              ["---"; "title: " ++ title data; "updated: " ++ updated data;
               "date: " ++ date data;
               "categories: " ++ format_opt (categories data)]
              (List.app ("tags:" :: tl) ["---"; ""; ""]))
      with (List.app
              (List.app
                 ["---"; "title: " ++ title data; "updated: " ++ updated data;
                  "date: " ++ date data;
                  "categories: " ++ format_opt (categories data); "tags:"]
                 tl)
              ["---"; ""; ""]).
    rewrite join_app; [| destruct tl; discriminate | discriminate].
    rewrite join_app; [| discriminate | exact Htl].
    cbn [join concat]. rewrite !append_assoc. reflexivity.
Qed.

Lemma single_line_app (a b : string) :
  single_line (a ++ b) = single_line a && single_line b.
Proof.
  unfold single_line.
  induction a as [|c a IH]; simpl; [reflexivity|].
  destruct (Ascii.eqb c (ascii_of_nat 10)); simpl; [reflexivity | exact IH].
Qed.

(** Every value of the record sits on one line. *)
Definition single_line_fields (data : front_matter) : bool :=
  single_line (title data)
  && single_line (updated data)
  && single_line (date data)
  && single_line (format_opt (categories data))
  && forallb single_line (tags data).

Lemma front_matter_lines_single (data : front_matter) :
  single_line_fields data = true ->
  forallb single_line (front_matter_lines data) = true.
Proof.
  unfold single_line_fields, front_matter_lines. intros H.
  repeat (apply andb_true_iff in H; destruct H as [H ?]).
  cbn [List.app forallb]. rewrite !single_line_app.
  repeat (apply andb_true_iff; split); try reflexivity; try assumption.
  rewrite forallb_app. apply andb_true_iff; split; [|reflexivity].
  destruct (tags data) as [|t ts]; [reflexivity|].
  cbn [forallb]. apply andb_true_iff; split; [reflexivity|].
  rewrite forallb_forall in *. intros x Hx.
  apply in_map_iff in Hx. destruct Hx as [tag [<- Hin]].
  rewrite single_line_app. now rewrite (H0 tag Hin).
Qed.

Lemma split_lines_front_matter (data : front_matter) :
  single_line_fields data = true ->
  split_lines (generate_front_matter data) = front_matter_lines data.
Proof.
  intros H. rewrite generate_front_matter_lines.
  apply split_lines_join; [discriminate | now apply front_matter_lines_single].
Qed.

(** The record of the rendering example. *)
Definition fm_example : front_matter :=
  {| title := "A";
     updated := "2024-01-01 00:00:00";
     date := "2024-01-02 00:00:00";
     categories := Some "Tech";
     tags := ["x"; "y"] |}.

(** Lines, each closed by a line feed. *)
Definition unlines (l : list string) : string :=
  concat "" (map (fun line => line ++ LF) l).

(** C2. The record with title A, the two timestamps, category Tech and tags
    x and y renders to exactly ten lines, each closed by a line feed: the
    delimiter, the four key-value lines, the tags line, one line per tag, the
    delimiter, an empty line. Rendering is a function of the record: equal
    records give equal text. *)
Theorem C2_render_example :
  generate_front_matter fm_example
  = unlines ["---"; "title: A"; "updated: 2024-01-01 00:00:00";
             "date: 2024-01-02 00:00:00"; "categories: Tech"; "tags:";
             "  - x"; "  - y"; "---"; ""]
  /\ generate_front_matter fm_example
     = "---" ++ LF ++ "title: A" ++ LF ++ "updated: 2024-01-01 00:00:00" ++ LF
       ++ "date: 2024-01-02 00:00:00" ++ LF ++ "categories: Tech" ++ LF
       ++ "tags:" ++ LF ++ "  - x" ++ LF ++ "  - y" ++ LF ++ "---" ++ LF ++ LF
  /\ (forall d1 d2 : front_matter,
        d1 = d2 -> generate_front_matter d1 = generate_front_matter d2).
Proof.
  split; [reflexivity | split; [reflexivity|]].
  intros d1 d2 ->. reflexivity.
Qed.

Lemma C2_render_example_witness :
  generate_front_matter fm_example = generate_front_matter fm_example.
Proof.
  exact (proj2 (proj2 C2_render_example) fm_example fm_example eq_refl).
Defined.

(** The record of the rendering example, without tags. *)
Definition fm_no_tags : front_matter :=
  {| title := "A";
     updated := "2024-01-01 00:00:00";
     date := "2024-01-02 00:00:00";
     categories := Some "Tech";
     tags := [] |}.

(** With no tag, nothing is appended after the categories line, whose own
    line feed is then followed by the line feed that opens the closing
    delimiter. *)
Lemma generate_front_matter_no_tags (data : front_matter) :
  tags data = [] ->
  generate_front_matter data
  = "---" ++ LF ++ "title: " ++ title data ++ LF
    ++ "updated: " ++ updated data ++ LF
    ++ "date: " ++ date data ++ LF
    ++ "categories: " ++ format_opt (categories data) ++ LF
    ++ LF ++ "---" ++ LF ++ LF.
Proof.
  intros H. unfold generate_front_matter. rewrite H.
  rewrite !append_assoc. reflexivity.
Qed.

(** C3. With an empty tag list the rendered block has no tags line, and an
    empty line stands between the categories line and the closing
    delimiter: on the example record without tags the lines are the
    delimiter, the four key-value lines, an empty line, the delimiter, an
    empty line. *)
Theorem C3_no_tags_blank_line :
  generate_front_matter fm_no_tags
  = unlines ["---"; "title: A"; "updated: 2024-01-01 00:00:00";
             "date: 2024-01-02 00:00:00"; "categories: Tech"; ""; "---"; ""]
  /\ nth 5 (split_lines (generate_front_matter fm_no_tags)) "-" = ""
  /\ nth 6 (split_lines (generate_front_matter fm_no_tags)) "-" = "---"
  /\ existsb (String.eqb "tags:") (split_lines (generate_front_matter fm_no_tags))
     = false.
Proof.
  repeat split; reflexivity.
Qed.

(** A line of the key [categories]. *)
Definition is_categories_line (line : string) : bool :=
  startswith line "categories:".

(** C9. An absent category is rendered, not left out: the line after the
    date line is [categories: None]. Whether or not a category was
    extracted, a record whose values hold no line feed renders to a block
    with exactly one categories line, the fifth, carrying the printed
    value. *)
Theorem C9_categories_line_always (data : front_matter) :
  (categories data = None ->
   exists rest,
     generate_front_matter data
     = "---" ++ LF ++ "title: " ++ title data ++ LF
       ++ "updated: " ++ updated data ++ LF
       ++ "date: " ++ date data ++ LF
       ++ "categories: None" ++ LF ++ rest)
  /\ (single_line_fields data = true ->
      List.length (List.filter is_categories_line
                     (split_lines (generate_front_matter data))) = 1%nat
      /\ nth 4 (split_lines (generate_front_matter data)) ""
         = "categories: " ++ format_opt (categories data)).
Proof.
  split.
  - intros Hc. unfold generate_front_matter. rewrite Hc. cbn [format_opt].
    destruct (tags data) as [|t ts]; eexists;
      rewrite !append_assoc; cbn [append]; reflexivity.
  - intros Hs. rewrite (split_lines_front_matter data Hs).
    unfold front_matter_lines. split; [|reflexivity].
    rewrite !filter_app, !length_app.
    replace (List.filter is_categories_line
               match tags data with
               | [] => [""]
               | _ :: _ => "tags:" :: map (fun tag => "  - " ++ tag) (tags data)
               end) with (@nil string); [reflexivity|].
    destruct (tags data) as [|t ts]; [reflexivity|].
    generalize (t :: ts). intros l.
    induction l as [|t' l IH]; [reflexivity | exact IH].
Qed.

Lemma C9_categories_line_always_witness :
  List.length (List.filter is_categories_line
                 (split_lines (generate_front_matter
                    {| title := "A"; updated := "u"; date := "d";
                       categories := None; tags := ["x"] |}))) = 1%nat.
Proof.
  exact (proj1 (proj2 (C9_categories_line_always
                         {| title := "A"; updated := "u"; date := "d";
                            categories := None; tags := ["x"] |}) eq_refl)).
Defined.

(** The values are written as they are: a title that goes on, after a line
    feed, with the text of a categories line gives a block with two such
    lines, and the fifth line is then not the categories line. *)
Lemma C9_second_categories_line :
  ~ (forall data,
       List.length (List.filter is_categories_line
                      (split_lines (generate_front_matter data))) = 1%nat
       /\ nth 4 (split_lines (generate_front_matter data)) ""
          = "categories: " ++ format_opt (categories data)).
Proof.
  intros H.
  destruct (H {| title := "A" ++ LF ++ "categories: B"; updated := "u";
                 date := "d"; categories := None; tags := [] |}) as [Hn _].
  vm_compute in Hn. discriminate.
Qed.

(** ** The body converter *)

(** The kinds of child the loop has a branch for, as the loop tests them. *)
Definition is_paragraph (elem : node) : bool := name_is elem "p".

Definition is_highlight_figure (elem : node) : bool :=
  name_is elem "figure" && class_is elem ["highlight"; "plaintext"].

Definition is_table (elem : node) : bool := name_is elem "table".

(** A child outside every branch leaves [markdown] as it is: a string, a
    comment, or a tag whose name does not begin with h and is not one of the
    three others. *)
Lemma convert_child_other (elem : node) (markdown : string) :
  is_paragraph elem = false ->
  name_startswith_h elem = false ->
  is_highlight_figure elem = false ->
  is_table elem = false ->
  convert_child elem markdown = Ok markdown.
Proof.
  unfold is_paragraph, is_highlight_figure, is_table, convert_child.
  intros -> -> -> ->. reflexivity.
Qed.

Lemma convert_child_string (s markdown : string) :
  convert_child (NavigableString s) markdown = Ok markdown
  /\ convert_child (Comment s) markdown = Ok markdown.
Proof.
  split; reflexivity.
Qed.

(** A document whose post body holds the given children. *)
Definition post_with (elems : list node) : node :=
  Tag "[document]" [] [Tag "div" [("class", "post-body")] elems].

(** C4. A horizontal rule is none of the recognised kinds, yet its name
    begins with h: the loop takes the heading branch, reads the level from
    the second letter and raises; the same branch prints a seven-mark
    heading for an h7 element. *)
Theorem C4_hr_child_raises :
  is_paragraph (Tag "hr" [] []) = false
  /\ is_highlight_figure (Tag "hr" [] []) = false
  /\ is_table (Tag "hr" [] []) = false
  /\ convert_child (Tag "hr" [] []) "" = Raise ValueError
  /\ html_to_markdown
       (post_with [Tag "p" [] [NavigableString "text"]; Tag "hr" [] []])
     = Raise ValueError
  /\ convert_child (Tag "h7" [] [NavigableString "x"]) ""
     = Ok ("#######" ++ " x" ++ LF ++ LF).
Proof.
  repeat split; reflexivity.
Qed.

(** The rendering of a paragraph: its children's renderings, concatenated,
    then two line feeds. *)
Lemma convert_child_paragraph (attrs : list (string * string))
    (cs : list node) (markdown : string) :
  convert_child (Tag "p" attrs cs) markdown
  = Ok (markdown ++ concat "" (map handle_element cs) ++ LF ++ LF).
Proof.
  unfold convert_child. cbn [name_is name String.eqb children].
  cbn. now rewrite !append_assoc.
Qed.

(** The inline rules as the helper applies them: the line-break rule looks
    at the printed form of the node, not at its name. *)
Lemma handle_element_rules (element : node) :
  (name_is element "a" = true ->
   handle_element element
   = "[" ++ get_text false element ++ "](" ++ format_attr (get element "href") ++ ")")
  /\ (name_is element "a" = false -> name_is element "code" = true ->
      handle_element element = "`" ++ get_text false element ++ "`")
  /\ (name_is element "a" = false -> name_is element "code" = false ->
      startswith (str element) "<br" = true ->
      handle_element element = LF ++ LF)
  /\ (name_is element "a" = false -> name_is element "code" = false ->
      startswith (str element) "<br" = false ->
      handle_element element = str element).
Proof.
  unfold handle_element.
  repeat split; intros; repeat match goal with H : _ = _ |- _ => rewrite H end;
    reflexivity.
Qed.

(** C5. A text node is not a line-break element, and the rule for any other
    node is to print it unchanged; yet a text node whose text begins with
    the characters of a line-break tag renders as two line feeds, and its
    text is lost from the paragraph. The hyperlink example of the claim
    renders as stated. *)
Theorem C5_text_node_taken_for_line_break :
  name (NavigableString "<br> ends a line") = None
  /\ str (NavigableString "<br> ends a line") = "<br> ends a line"
  /\ handle_element (NavigableString "<br> ends a line") = LF ++ LF
  /\ convert_child (Tag "p" [] [NavigableString "<br> ends a line"]) ""
     = Ok (LF ++ LF ++ LF ++ LF)
  /\ convert_child (Tag "p" [] [Tag "a" [("href", "http://x")]
                                  [NavigableString "here"]]) ""
     = Ok ("[here](http://x)" ++ LF ++ LF).
Proof.
  repeat split; reflexivity.
Qed.

Lemma fold_left_snoc {A B : Type} (f : A -> B) (l : list A) (init : list B) :
  fold_left (fun acc x => List.app acc [f x]) l init = List.app init (map f l).
Proof.
  revert init. induction l as [|x l IH]; intros init; simpl.
  - now rewrite app_nil_r.
  - rewrite IH, <- app_assoc. reflexivity.
Qed.

(** The header texts of a table: its header cells, in document order. *)
Definition table_headers (elem : node) : list string :=
  map (get_text true) (find_all elem "th" None).

(** The cell texts of a row. *)
Definition row_columns (row : node) : list string :=
  map (get_text true) (find_all row "td" None).

(** The table of the two-column example. *)
Definition table_2x2 : node :=
  Tag "table" []
    [Tag "tr" [] [Tag "th" [] [NavigableString "A"];
                  Tag "th" [] [NavigableString "B"]];
     Tag "tr" [] [Tag "td" [] [NavigableString "1"];
                  Tag "td" [] [NavigableString "2"]];
     Tag "tr" [] [Tag "td" [] [NavigableString "3"];
                  Tag "td" [] [NavigableString "4"]]].

(** C6. A table child appends the header texts joined by [" | "], then one
    ["---"] per header joined the same way, then for each row after the
    first its cell texts joined the same way, the lines separated by line
    feeds and followed by two line feeds. The two-column table with two data
    rows gives four lines and an empty one. *)
Theorem C6_table_block (attrs : list (string * string)) (cs : list node)
    (markdown : string) :
  convert_child (Tag "table" attrs cs) markdown
  = Ok (markdown
        ++ join LF
             (join " | " (table_headers (Tag "table" attrs cs))
              :: join " | "
                   (List.repeat "---"
                      (List.length (table_headers (Tag "table" attrs cs))))
              :: map (fun row => join " | " (row_columns row))
                   (tl (find_all (Tag "table" attrs cs) "tr" None)))
        ++ LF ++ LF)
  /\ convert_child table_2x2 ""
     = Ok (unlines ["A | B"; "--- | ---"; "1 | 2"; "3 | 4"] ++ LF).
Proof.
  split; [|reflexivity].
  unfold convert_child.
  change (name_is (Tag "table" attrs cs) "p") with false.
  change (name_startswith_h (Tag "table" attrs cs)) with false.
  change (name_is (Tag "table" attrs cs) "figure") with false.
  change (name_is (Tag "table" attrs cs) "table") with true.
  cbv iota. cbn [andb].
  rewrite (fold_left_snoc (fun row => join " | " (row_columns row))).
  reflexivity.
Qed.

(** The code lines of a highlight figure: the text of each line span of the
    code cell, trailing whitespace removed. *)
Definition code_lines_of (td_code : node) : list string :=
  map (fun span => rstrip (get_text false span))
      (find_all td_code "span" (Some ("class", "line"))).

(** A highlight figure with the three code lines a, b and c. *)
Definition figure_abc : node :=
  Tag "figure" [("class", "highlight plaintext")]
    [Tag "table" []
       [Tag "tr" []
          [Tag "td" [("class", "gutter")] [];
           Tag "td" [("class", "code")]
             [Tag "pre" []
                [Tag "span" [("class", "line")] [NavigableString "a "];
                 Tag "br" [] [];
                 Tag "span" [("class", "line")] [NavigableString "b"];
                 Tag "br" [] [];
                 Tag "span" [("class", "line")] [NavigableString "c"];
                 Tag "br" [] []]]]]].

(** C10. A figure whose class list is exactly highlight, plaintext: with no
    code cell inside, it leaves the output as it is and raises nothing; with
    one, it appends a line feed, the fence and a line feed, the code lines
    (each without trailing whitespace) joined by line feeds and stripped as
    a whole, a line feed, the fence, and one line feed. *)
Theorem C10_highlight_figure (attrs : list (string * string)) (cs : list node)
    (markdown : string) :
  class_is (Tag "figure" attrs cs) ["highlight"; "plaintext"] = true ->
  (find (Tag "figure" attrs cs) "td" (Some ("class", "code")) = None ->
   convert_child (Tag "figure" attrs cs) markdown = Ok markdown)
  /\ (forall td_code,
        find (Tag "figure" attrs cs) "td" (Some ("class", "code")) = Some td_code ->
        convert_child (Tag "figure" attrs cs) markdown
        = Ok (markdown ++ LF ++ fence ++ LF
              ++ strip (join LF (code_lines_of td_code))
              ++ LF ++ fence ++ LF)).
Proof.
  intros Hclass. unfold convert_child.
  change (name_is (Tag "figure" attrs cs) "p") with false.
  change (name_startswith_h (Tag "figure" attrs cs)) with false.
  change (name_is (Tag "figure" attrs cs) "figure") with true.
  rewrite Hclass. cbv iota. cbn [andb].
  split.
  - intros ->. reflexivity.
  - intros td_code ->. reflexivity.
Qed.

Lemma C10_highlight_figure_witness :
  convert_child (Tag "figure" [("class", "highlight plaintext")] []) "text"
  = Ok "text"
  /\ convert_child figure_abc ""
     = Ok (LF ++ unlines [fence; "a"; "b"; "c"; fence]).
Proof.
  split.
  - exact (proj1 (C10_highlight_figure [("class", "highlight plaintext")] []
                    "text" eq_refl) eq_refl).
  - exact (proj2 (C10_highlight_figure [("class", "highlight plaintext")]
                    (children figure_abc) "" eq_refl) _ eq_refl).
Defined.

(** ** The strict extraction *)

(** The metadata attribute behind a timestamp: the [content] of the first
    [meta] element with the given [property], when both exist. *)
Definition metadata_attribute (soup : node) (prop : string) : option string :=
  match find soup "meta" (Some ("property", prop)) with
  | Some tag => option_map (fun v => format_attr (Some v)) (get tag "content")
  | None => None
  end.

Lemma meta_content_attribute (soup : node) (prop : string) :
  match metadata_attribute soup prop with
  | Some v => meta_content soup prop = Ok v
  | None => is_ok (meta_content soup prop) = false
  end.
Proof.
  unfold metadata_attribute, meta_content.
  destruct (find soup "meta" (Some ("property", prop))) as [tag|]; [|reflexivity].
  destruct (get tag "content") as [v|]; reflexivity.
Qed.

(** The fixed target zone of the extraction. *)
Definition target_zone_name : string := "Asia/Shanghai".

(** A document with a title and both timestamps. *)
Definition doc_complete : node :=
  Tag "[document]" []
    [Tag "meta" [("property", "article:published_time");
                 ("content", "2024-06-15T10:30:00.000Z")] [];
     Tag "meta" [("property", "article:modified_time");
                 ("content", "2024-06-16T23:30:00Z")] [];
     Tag "h1" [("class", "post-title")] [NavigableString "Hello"];
     Tag "div" [("class", "post-body")] [Tag "p" [] [NavigableString "hi"]]].

(** The same document without its modification time. *)
Definition doc_no_modified : node :=
  Tag "[document]" []
    [Tag "meta" [("property", "article:published_time");
                 ("content", "2024-06-15T10:30:00.000Z")] [];
     Tag "h1" [("class", "post-title")] [NavigableString "Hello"];
     Tag "div" [("class", "post-body")] [Tag "p" [] [NavigableString "hi"]]].

(** C7. When the strict extraction produces a record, both timestamp
    attributes were present, [updated] is the normalised publication time
    and [date] the normalised modification time, both for the fixed zone.
    When either attribute is absent, the extraction produces no record, and
    no document is written. And a record is produced: for a page with a
    title element, both attributes with values the normaliser accepts, and
    a content on every tag element, the extraction returns the record with
    these two normalised times. *)
Theorem C7_strict_timestamps (all_timezones : string -> option Pytz.tzinfo)
    (soup : node) :
  (forall fm,
     process_html_file_front_matter all_timezones soup = Ok fm ->
     exists published modified,
       metadata_attribute soup "article:published_time" = Some published
       /\ metadata_attribute soup "article:modified_time" = Some modified
       /\ convert_utc_to_timezone all_timezones published target_zone_name
          = Ok (updated fm)
       /\ convert_utc_to_timezone all_timezones modified target_zone_name
          = Ok (date fm))
  /\ (metadata_attribute soup "article:published_time" = None
      \/ metadata_attribute soup "article:modified_time" = None ->
      is_ok (process_html_file_front_matter all_timezones soup) = false
      /\ is_ok (process_html_file all_timezones soup) = false)
  /\ (forall title_tag published modified fm_updated fm_date fm_tags,
        find soup "h1" (Some ("class", "post-title")) = Some title_tag ->
        metadata_attribute soup "article:published_time" = Some published ->
        metadata_attribute soup "article:modified_time" = Some modified ->
        convert_utc_to_timezone all_timezones published target_zone_name
        = Ok fm_updated ->
        convert_utc_to_timezone all_timezones modified target_zone_name
        = Ok fm_date ->
        contents_of (find_all soup "meta" (Some ("property", "article:tag")))
        = Ok fm_tags ->
        process_html_file_front_matter all_timezones soup
        = Ok {| title := get_text true title_tag;
                updated := fm_updated;
                date := fm_date;
                categories :=
                  option_map (get_text true)
                    (find soup "span" (Some ("itemprop", "name")));
                tags := fm_tags |}).
Proof.
  assert (Hp := meta_content_attribute soup "article:published_time").
  assert (Hm := meta_content_attribute soup "article:modified_time").
  apply and_assoc. split.
  2: { intros title_tag published modified fm_updated fm_date fm_tags
         Ht Ep Em Eu Ed Etags.
       rewrite Ep in Hp. rewrite Em in Hm.
       unfold process_html_file_front_matter.
       rewrite Ht. cbn [bind]. rewrite Hp. cbn [bind].
       unfold target_zone_name in Eu, Ed. rewrite Eu. cbn [bind].
       rewrite Hm. cbn [bind]. rewrite Ed. cbn [bind]. rewrite Etags.
       reflexivity. }
  unfold process_html_file, process_html_file_front_matter, target_zone_name.
  destruct (find soup "h1" (Some ("class", "post-title"))) as [title_tag|];
    cbn [bind].
  2: { split; [discriminate | intros _; split; reflexivity]. }
  destruct (metadata_attribute soup "article:published_time") as [p|].
  2: { destruct (meta_content soup "article:published_time"); [discriminate|].
       cbn [bind]. split; [discriminate | intros _; split; reflexivity]. }
  rewrite Hp. cbn [bind].
  destruct (convert_utc_to_timezone all_timezones p "Asia/Shanghai")
    as [u|e] eqn:Hu; cbn [bind].
  2: { split; [discriminate | intros _; split; reflexivity]. }
  destruct (metadata_attribute soup "article:modified_time") as [m|].
  2: { destruct (meta_content soup "article:modified_time"); [discriminate|].
       cbn [bind]. split; [discriminate | intros _; split; reflexivity]. }
  rewrite Hm. cbn [bind].
  destruct (convert_utc_to_timezone all_timezones m "Asia/Shanghai")
    as [d|e] eqn:Hd; cbn [bind].
  2: { split; [discriminate|]. intros [H|H]; discriminate. }
  split.
  - intros fm Hfm. exists p, m.
    destruct (contents_of _); cbn [bind] in Hfm; [|discriminate].
    injection Hfm as <-. cbn. repeat split; assumption.
  - intros [H|H]; discriminate.
Qed.

Lemma C7_strict_timestamps_witness :
  (exists published modified,
     metadata_attribute doc_complete "article:published_time" = Some published
     /\ metadata_attribute doc_complete "article:modified_time" = Some modified
     /\ convert_utc_to_timezone tz_excerpt published target_zone_name
        = Ok "2024-06-15 18:30:00"
     /\ convert_utc_to_timezone tz_excerpt modified target_zone_name
        = Ok "2024-06-17 07:30:00")
  /\ is_ok (process_html_file tz_excerpt doc_no_modified) = false
  /\ process_html_file_front_matter tz_excerpt doc_complete
     = Ok {| title := "Hello";
             updated := "2024-06-15 18:30:00";
             date := "2024-06-17 07:30:00";
             categories := None;
             tags := [] |}.
Proof.
  split; [|split].
  - exact (proj1 (C7_strict_timestamps tz_excerpt doc_complete)
             {| title := "Hello";
                updated := "2024-06-15 18:30:00";
                date := "2024-06-17 07:30:00";
                categories := None;
                tags := [] |} eq_refl).
  - exact (proj2 (proj1 (proj2 (C7_strict_timestamps tz_excerpt
                                  doc_no_modified))
                    (or_intror eq_refl))).
  - exact (proj2 (proj2 (C7_strict_timestamps tz_excerpt doc_complete))
             (Tag "h1" [("class", "post-title")] [NavigableString "Hello"])
             "2024-06-15T10:30:00.000Z" "2024-06-16T23:30:00Z"
             "2024-06-15 18:30:00" "2024-06-17 07:30:00" []
             eq_refl eq_refl eq_refl eq_refl eq_refl eq_refl).
Defined.

(** ** The calendar: ordinals and dates *)

Import Datetime.

(** The integers from [lo], [n] of them. *)
Definition zrange (lo : Z) (n : nat) : list Z :=
  map (fun i => lo + Z.of_nat i) (seq 0 n).

Lemma forallb_zrange (P : Z -> bool) (lo : Z) (n : nat) :
  forallb P (zrange lo n) = true ->
  forall z, lo <= z < lo + Z.of_nat n -> P z = true.
Proof.
  intros H z Hz. rewrite forallb_forall in H. apply H.
  unfold zrange. apply in_map_iff. exists (Z.to_nat (z - lo)). split; [lia|].
  apply in_seq. lia.
Qed.

Lemma forallb_bool (P : bool -> bool) :
  forallb P [true; false] = true -> forall b, P b = true.
Proof.
  simpl. intros H b. apply andb_true_iff in H. destruct H as [Ht H].
  apply andb_true_iff in H. destruct H as [Hf _]. now destruct b.
Qed.

(** The days of a month and the days before it, by the leap flag. *)
Definition dim (leap : bool) (m : Z) : Z :=
  index _DAYS_IN_MONTH m + (if (m =? 2) && leap then 1 else 0).

Definition dbm (leap : bool) (m : Z) : Z :=
  index _DAYS_BEFORE_MONTH m + (if (2 <? m) && leap then 1 else 0).

(** The last step of [_ord2ymd]: month and day from the day of the year,
    counted from 0. *)
Definition month_day (leapyear : bool) (n : Z) : Z * Z :=
  let m := Z.shiftr (n + 50) 5 in
  let preceding :=
    index _DAYS_BEFORE_MONTH m + (if (2 <? m) && leapyear then 1 else 0) in
  if n <? preceding then
    let m := m - 1 in
    let preceding :=
      preceding
      - (index _DAYS_IN_MONTH m + (if (m =? 2) && leapyear then 1 else 0)) in
    (m, n - preceding + 1)
  else (m, n - preceding + 1).

Lemma ord2ymd_unfold (n : Z) :
  _ord2ymd n =
    let n := n - 1 in
    let n400 := n / _DI400Y in
    let n := n mod _DI400Y in
    let n100 := n / _DI100Y in
    let n := n mod _DI100Y in
    let n4 := n / _DI4Y in
    let n := n mod _DI4Y in
    let n1 := n / 365 in
    let n := n mod 365 in
    let y := n400 * 400 + 1 + (n100 * 100 + n4 * 4 + n1) in
    if (n1 =? 4) || (n100 =? 4) then (y - 1, 12, 31)
    else
      let leapyear := (n1 =? 3) && (negb (n4 =? 24) || (n100 =? 3)) in
      (y, fst (month_day leapyear n), snd (month_day leapyear n)).
Proof.
  unfold _ord2ymd, month_day. cbv zeta.
  repeat match goal with |- context [if ?b then _ else _] => destruct b end;
    reflexivity.
Qed.

Lemma days_in_month_dim (y m : Z) : _days_in_month y m = dim (_is_leap y) m.
Proof.
  unfold _days_in_month, dim. destruct ((m =? 2) && _is_leap y) eqn:E; [|lia].
  apply andb_true_iff in E. destruct E as [E _]. apply Z.eqb_eq in E.
  subst m. reflexivity.
Qed.

(** A year counted in cycles of 400, 100, 4 and 1 years. *)
Lemma days_before_year_cycles (y : Z) :
  1 <= y ->
  exists a c f g,
    0 <= a /\ 0 <= c < 4 /\ 0 <= f < 25 /\ 0 <= g < 4
    /\ y - 1 = 400 * a + 100 * c + 4 * f + g
    /\ _days_before_year y = 146097 * a + 36524 * c + 1461 * f + 365 * g
    /\ _is_leap y = ((g =? 3) && (negb (f =? 24) || (c =? 3))).
Proof.
  intros Hy.
  exists ((y - 1) / 400), ((y - 1) mod 400 / 100), ((y - 1) mod 100 / 4),
    ((y - 1) mod 4).
  unfold _days_before_year, _is_leap.
  repeat split; try (Z.div_mod_to_equations; lia).
Qed.

Lemma dim_le_31 (leap : bool) (m : Z) : 1 <= m <= 12 -> dim leap m <= 31.
Proof.
  intros Hm.
  assert (H : forallb (fun l => forallb (fun m => dim l m <=? 31) (zrange 1 12))
                [true; false] = true) by (vm_compute; reflexivity).
  pose proof (forallb_bool _ H leap) as H1. cbv beta in H1.
  pose proof (forallb_zrange _ _ _ H1 m ltac:(lia)) as H2. cbv beta in H2. lia.
Qed.

Lemma dbm_range (leap : bool) (m : Z) :
  1 <= m <= 12 ->
  0 <= dbm leap m /\ dbm leap m + dim leap m <= 365 + (if leap then 1 else 0).
Proof.
  intros Hm.
  assert (H : forallb
                (fun l => forallb
                   (fun m => (0 <=? dbm l m)
                             && (dbm l m + dim l m <=? 365 + (if l then 1 else 0)))
                   (zrange 1 12)) [true; false] = true)
    by (vm_compute; reflexivity).
  pose proof (forallb_bool _ H leap) as H1. cbv beta in H1.
  pose proof (forallb_zrange _ _ _ H1 m ltac:(lia)) as H2. cbv beta in H2.
  destruct leap; lia.
Qed.

(** From a month and a day to the day of the year and back. *)
Lemma month_day_spec (leap : bool) (m d : Z) :
  1 <= m <= 12 -> 1 <= d <= dim leap m ->
  month_day leap (dbm leap m + d - 1) = (m, d).
Proof.
  intros Hm Hd.
  pose (check := fun (leap : bool) (m d : Z) =>
    negb (d <=? dim leap m)
    || (let r := month_day leap (dbm leap m + d - 1) in
        (fst r =? m) && (snd r =? d))).
  assert (H : forallb
                (fun l => forallb (fun m => forallb (check l m) (zrange 1 31))
                            (zrange 1 12)) [true; false] = true)
    by (vm_compute; reflexivity).
  pose proof (dim_le_31 leap m Hm) as Hd31.
  pose proof (forallb_bool _ H leap) as H0. cbv beta in H0.
  pose proof (forallb_zrange _ _ _ H0 m ltac:(lia)) as H1. cbv beta in H1.
  pose proof (forallb_zrange _ _ _ H1 d ltac:(lia)) as H2.
  unfold check in H2.
  destruct (month_day leap (dbm leap m + d - 1)) as [m' d'].
  cbn [fst snd] in H2. f_equal; lia.
Qed.

(** From a day of the year to its month and day, and back. *)
Lemma month_day_inv (leap : bool) (n : Z) :
  0 <= n <= 364 + (if leap then 1 else 0) ->
  let r := month_day leap n in
  1 <= fst r <= 12
  /\ 1 <= snd r <= dim leap (fst r)
  /\ dbm leap (fst r) + snd r - 1 = n.
Proof.
  intros Hn.
  pose (check := fun (leap : bool) (n : Z) =>
    negb (n <=? 364 + (if leap then 1 else 0))
    || (let r := month_day leap n in
        (1 <=? fst r) && (fst r <=? 12) && (1 <=? snd r)
        && (snd r <=? dim leap (fst r))
        && (dbm leap (fst r) + snd r - 1 =? n))).
  assert (H : forallb (fun l => forallb (check l) (zrange 0 366)) [true; false]
              = true) by (vm_compute; reflexivity).
  pose proof (forallb_bool _ H leap) as H0. cbv beta in H0.
  pose proof (forallb_zrange _ _ _ H0 n ltac:(destruct leap; lia)) as H1.
  unfold check in H1. cbv zeta.
  destruct (month_day leap n) as [m' d']. cbn [fst snd] in *.
  destruct leap; lia.
Qed.

(** The date of the ordinal of a date is that date. *)
Lemma ord2ymd_ymd2ord (y m d : Z) :
  1 <= y -> 1 <= m <= 12 -> 1 <= d <= _days_in_month y m ->
  _ord2ymd (_ymd2ord y m d) = (y, m, d).
Proof.
  intros Hy Hm Hd.
  destruct (days_before_year_cycles y Hy)
    as (a & c & f & g & Ha & Hc & Hf & Hg & Hy1 & Hdby & Hleap).
  rewrite days_in_month_dim in Hd.
  pose proof (month_day_spec (_is_leap y) m d Hm Hd) as Hmd.
  pose proof (dbm_range (_is_leap y) m Hm) as Hrange.
  assert (Hr1 : 0 <= dbm (_is_leap y) m + d - 1 <= 365)
    by (destruct (_is_leap y); lia).
  assert (Hr2 : _is_leap y = false -> dbm (_is_leap y) m + d - 1 <= 364)
    by (intros E; rewrite E in *; lia).
  clear Hrange.
  rewrite ord2ymd_unfold. unfold _ymd2ord.
  change (_days_before_month y m) with (dbm (_is_leap y) m).
  remember (dbm (_is_leap y) m + d - 1) as e.
  replace (_days_before_year y + dbm (_is_leap y) m + d - 1)
    with (146097 * a + 36524 * c + 1461 * f + 365 * g + e)
    by (rewrite Hdby, Heqe; ring).
  cbv zeta. unfold _DI400Y, _DI100Y, _DI4Y.
  remember (146097 * a + 36524 * c + 1461 * f + 365 * g + e) as n0.
  assert (E400 : n0 / 146097 = a) by (Z.div_mod_to_equations; lia).
  assert (R400 : n0 mod 146097 = 36524 * c + 1461 * f + 365 * g + e)
    by (Z.div_mod_to_equations; lia).
  rewrite E400, R400. clear E400 R400.
  destruct (Z.eq_dec e 365) as [He|He].
  - (* the last day of a leap year *)
    assert (Hl : _is_leap y = true).
    { destruct (_is_leap y); [reflexivity | specialize (Hr2 eq_refl); lia]. }
    rewrite Hl in *.
    assert (Hm12 : m = 12 /\ d = 31).
    { rewrite He in Hmd. vm_compute in Hmd. now inversion Hmd. }
    destruct Hm12; subst m d.
    match goal with
    | |- (if ?b then _ else _) = _ =>
        replace b with true by (symmetry; Z.div_mod_to_equations; lia)
    end.
    match goal with
    | |- (?u, _, _) = _ => replace u with y by (Z.div_mod_to_equations; lia)
    end.
    reflexivity.
  - match goal with
    | |- (if ?b then _ else _) = _ =>
        replace b with false by (symmetry; Z.div_mod_to_equations; lia)
    end.
    remember (36524 * c + 1461 * f + 365 * g + e) as r1.
    assert (E1 : r1 / 36524 = c) by (Z.div_mod_to_equations; lia).
    assert (E2 : r1 mod 36524 / 1461 = f) by (Z.div_mod_to_equations; lia).
    assert (E3 : (r1 mod 36524) mod 1461 / 365 = g)
      by (Z.div_mod_to_equations; lia).
    assert (E4 : ((r1 mod 36524) mod 1461) mod 365 = e)
      by (Z.div_mod_to_equations; lia).
    rewrite E1, E2, E3, E4. rewrite <- Hleap, Hmd. cbn [fst snd].
    match goal with
    | |- (?u, _, _) = _ => replace u with y by lia
    end.
    reflexivity.
Qed.

(** The date of an ordinal is a date of the calendar, its ordinal is the
    one given, and up to the last ordinal its year is at most 9999. *)
Lemma ord2ymd_spec (n : Z) :
  1 <= n ->
  let r := _ord2ymd n in
  1 <= fst (fst r)
  /\ 1 <= snd (fst r) <= 12
  /\ 1 <= snd r <= _days_in_month (fst (fst r)) (snd (fst r))
  /\ _ymd2ord (fst (fst r)) (snd (fst r)) (snd r) = n
  /\ (n <= _MAXORDINAL -> fst (fst r) <= MAXYEAR).
Proof.
  intros Hn. cbv zeta. rewrite ord2ymd_unfold. cbv zeta.
  unfold _DI400Y, _DI100Y, _DI4Y, _MAXORDINAL, MAXYEAR.
  remember (n - 1) as n0.
  remember (n0 / 146097) as a. remember (n0 mod 146097) as r1.
  remember (r1 / 36524) as c. remember (r1 mod 36524) as r2.
  remember (r2 / 1461) as f. remember (r2 mod 1461) as r3.
  remember (r3 / 365) as g. remember (r3 mod 365) as r4.
  assert (Hfacts :
    0 <= a /\ 0 <= c <= 4 /\ 0 <= f <= 24 /\ 0 <= g <= 4 /\ 0 <= r4 < 365
    /\ n0 = 146097 * a + 36524 * c + 1461 * f + 365 * g + r4
    /\ (c = 4 -> f = 0 /\ g = 0 /\ r4 = 0)
    /\ (g = 4 -> r4 = 0 /\ f <= 23)
    /\ (n <= 3652059 ->
        400 * a + 100 * c + 4 * f + g
        + (if (g =? 4) || (c =? 4) then 0 else 1) <= 9999)).
  { subst. repeat split; try (Z.div_mod_to_equations; lia).
    intros. destruct ((_ =? 4) || (_ =? 4)) eqn:E; Z.div_mod_to_equations; lia. }
  clear Heqa Heqr1 Heqc Heqr2 Heqf Heqr3 Heqg Heqr4.
  destruct Hfacts as (Ha & Hc & Hf & Hg & Hr4 & Hn0 & Hc4 & Hg4 & Hmax).
  destruct ((g =? 4) || (c =? 4)) eqn:E.
  - cbn [fst snd].
    assert (Hleap : _is_leap (a * 400 + 1 + (c * 100 + f * 4 + g) - 1) = true).
    { unfold _is_leap.
      apply orb_true_iff in E. rewrite !Z.eqb_eq in E.
      repeat match goal with
             | |- context [?u =? ?v] => destruct (Z.eqb_spec u v)
             end;
        cbn; try reflexivity; exfalso; Z.div_mod_to_equations; lia. }
    rewrite days_in_month_dim. unfold _ymd2ord, _days_before_month.
    rewrite Hleap.
    change (dim true 12) with 31. change (index _DAYS_BEFORE_MONTH 12) with 334.
    change ((2 <? 12) && true) with true. cbv iota.
    unfold _days_before_year.
    repeat split; try (Z.div_mod_to_equations; lia).
  - cbn [fst snd].
    remember ((g =? 3) && (negb (f =? 24) || (c =? 3))) as L.
    assert (Hleap : _is_leap (a * 400 + 1 + (c * 100 + f * 4 + g)) = L).
    { subst L. unfold _is_leap.
      apply orb_false_iff in E. destruct E as [Eg Ec].
      apply Z.eqb_neq in Eg, Ec.
      repeat match goal with
             | |- context [?u =? ?v] => destruct (Z.eqb_spec u v)
             end;
        cbn; try reflexivity; exfalso; Z.div_mod_to_equations; lia. }
    pose proof (month_day_inv L r4 ltac:(destruct L; lia)) as Hinv.
    cbv zeta in Hinv.
    destruct (month_day L r4) as [m d]. cbn [fst snd] in *.
    rewrite days_in_month_dim. unfold _ymd2ord.
    change (_days_before_month ?y m) with (dbm (_is_leap y) m).
    rewrite Hleap.
    assert (Hdby : _days_before_year (a * 400 + 1 + (c * 100 + f * 4 + g))
                   = 146097 * a + 36524 * c + 1461 * f + 365 * g).
    { unfold _days_before_year. Z.div_mod_to_equations. lia. }
    rewrite Hdby.
    repeat split; try lia.
Qed.

(** The ordinal of a date up to the year 9999 is within the ordinals. *)
Lemma ymd2ord_range (y m d : Z) :
  1 <= y <= MAXYEAR -> 1 <= m <= 12 -> 1 <= d <= _days_in_month y m ->
  1 <= _ymd2ord y m d <= _MAXORDINAL.
Proof.
  unfold MAXYEAR, _MAXORDINAL. intros Hy Hm Hd.
  destruct (days_before_year_cycles y ltac:(lia))
    as (a & c & f & g & Ha & Hc & Hf & Hg & Hy1 & Hdby & Hleap).
  rewrite days_in_month_dim in Hd.
  pose proof (dbm_range (_is_leap y) m Hm) as Hrange.
  unfold _ymd2ord. change (_days_before_month y m) with (dbm (_is_leap y) m).
  rewrite Hdby. rewrite Hleap in *.
  destruct ((g =? 3) && (negb (f =? 24) || (c =? 3))) eqn:E; lia.
Qed.

(** ** Adding an offset to a datetime *)

(** A datetime as the constructor accepts it. *)
Definition valid (dt : datetime) : bool :=
  check_fields (year dt) (month dt) (day dt) (hour dt) (minute dt) (second dt)
    (microsecond dt).

Lemma valid_fields (dt : datetime) :
  valid dt = true ->
  1 <= year dt <= 9999
  /\ 1 <= month dt <= 12
  /\ 1 <= day dt <= _days_in_month (year dt) (month dt)
  /\ 0 <= hour dt <= 23
  /\ 0 <= minute dt <= 59
  /\ 0 <= second dt <= 59
  /\ 0 <= microsecond dt <= 999999.
Proof.
  unfold valid, check_fields, MINYEAR, MAXYEAR. intros H.
  repeat (apply andb_true_iff in H; destruct H as [H ?]).
  repeat match goal with
         | H : (_ <=? _) = true |- _ => apply Z.leb_le in H
         end.
  lia.
Qed.

Lemma fields_valid (dt : datetime) :
  1 <= year dt <= 9999 ->
  1 <= month dt <= 12 ->
  1 <= day dt <= _days_in_month (year dt) (month dt) ->
  0 <= hour dt <= 23 ->
  0 <= minute dt <= 59 ->
  0 <= second dt <= 59 ->
  0 <= microsecond dt <= 999999 ->
  valid dt = true.
Proof.
  unfold valid, check_fields, MINYEAR, MAXYEAR. intros.
  repeat (apply andb_true_iff; split); apply Z.leb_le; lia.
Qed.

Lemma toordinal_range (dt : datetime) :
  valid dt = true -> 1 <= toordinal dt <= _MAXORDINAL.
Proof.
  intros H. apply valid_fields in H. unfold toordinal.
  apply ymd2ord_range; unfold MAXYEAR; lia.
Qed.

(** The instant shifted by [delta] seconds falls on a day of the calendar. *)
Definition in_range (dt : datetime) (delta : Z) : bool :=
  let days := (total_seconds dt + delta) / 86400 in
  (0 <? days) && (days <=? _MAXORDINAL).

Lemma add_seconds_zero (dt : datetime) :
  valid dt = true -> add_seconds dt 0 = Ok dt.
Proof.
  intros Hv. pose proof (toordinal_range dt Hv) as Hord.
  pose proof (valid_fields dt Hv) as (Hy & Hm & Hd & Hh & Hmi & Hs & Hus).
  unfold add_seconds, total_seconds. rewrite Z.add_0_r.
  remember (toordinal dt) as n.
  assert (E1 : (n * 86400 + hour dt * 3600 + minute dt * 60 + second dt) / 86400
               = n) by (Z.div_mod_to_equations; lia).
  assert (E2 : (n * 86400 + hour dt * 3600 + minute dt * 60 + second dt) mod 86400
               = hour dt * 3600 + minute dt * 60 + second dt)
    by (Z.div_mod_to_equations; lia).
  rewrite E1, E2.
  assert (E3 : (hour dt * 3600 + minute dt * 60 + second dt) / 3600 = hour dt)
    by (Z.div_mod_to_equations; lia).
  assert (E4 : (hour dt * 3600 + minute dt * 60 + second dt) mod 3600
               = minute dt * 60 + second dt) by (Z.div_mod_to_equations; lia).
  rewrite E3, E4.
  assert (E5 : (minute dt * 60 + second dt) / 60 = minute dt)
    by (Z.div_mod_to_equations; lia).
  assert (E6 : (minute dt * 60 + second dt) mod 60 = second dt)
    by (Z.div_mod_to_equations; lia).
  rewrite E5, E6.
  replace ((0 <? n) && (n <=? _MAXORDINAL)) with true by (symmetry; lia).
  subst n. unfold toordinal. rewrite ord2ymd_ymd2ord by lia.
  destruct dt; reflexivity.
Qed.

Lemma add_seconds_in_range (dt : datetime) (delta : Z) :
  valid dt = true ->
  in_range dt delta = true ->
  exists local,
    add_seconds dt delta = Ok local
    /\ valid local = true
    /\ total_seconds local = total_seconds dt + delta.
Proof.
  intros Hv Hr.
  pose proof (valid_fields dt Hv) as (Hy & Hm & Hd & Hh & Hmi & Hs & Hus).
  unfold in_range in Hr. cbv zeta in Hr.
  unfold add_seconds. cbv zeta. rewrite Hr.
  remember (total_seconds dt + delta) as total.
  apply andb_true_iff in Hr. destruct Hr as [Hlo Hhi].
  apply Z.ltb_lt in Hlo. apply Z.leb_le in Hhi.
  pose proof (ord2ymd_spec (total / 86400) ltac:(lia)) as Hspec.
  cbv zeta in Hspec.
  destruct (_ord2ymd (total / 86400)) as [[y m] d]. cbn [fst snd] in Hspec.
  destruct Hspec as (Hy' & Hm' & Hd' & Hord & Hmax).
  specialize (Hmax Hhi). unfold MAXYEAR in Hmax.
  eexists. split; [reflexivity|]. split.
  - apply fields_valid; cbn [year month day hour minute second microsecond];
      try lia; Z.div_mod_to_equations; lia.
  - unfold total_seconds at 1, toordinal.
    cbn [year month day hour minute second]. rewrite Hord.
    Z.div_mod_to_equations. lia.
Qed.

Lemma add_seconds_out_of_range (dt : datetime) (delta : Z) :
  in_range dt delta = false -> add_seconds dt delta = Raise OverflowError.
Proof.
  unfold in_range, add_seconds. cbv zeta. intros ->. reflexivity.
Qed.

(** ** The printed form of a local time *)

(** A string against a picture: a letter of the picture stands for one
    decimal digit, any other character for itself. *)
Fixpoint matches_picture (picture s : string) : bool :=
  match picture, s with
  | EmptyString, EmptyString => true
  | String p picture', String c s' =>
      (if Strptime.between "A" "Z" p then is_digit c else Ascii.eqb p c)
      && matches_picture picture' s'
  | _, _ => false
  end.

Lemma is_digit_digit_char (k : Z) :
  0 <= k <= 9 -> is_digit (digit_char k) = true.
Proof.
  intros Hk.
  assert (H : forallb (fun k => is_digit (digit_char k)) (zrange 0 10) = true)
    by (vm_compute; reflexivity).
  exact (forallb_zrange _ _ _ H k ltac:(lia)).
Qed.

(** The printed form has the picture exactly from the year 1000 on:
    before, the year is printed with fewer than four digits. *)
Lemma strftime_picture (dt : datetime) :
  valid dt = true ->
  matches_picture "YYYY-MM-DD HH:MM:SS" (strftime dt) = (1000 <=? year dt).
Proof.
  intros Hv.
  pose proof (valid_fields dt Hv) as (Hy & Hm & Hd & Hh & Hmi & Hs & Hus).
  pose proof (dim_le_31 (_is_leap (year dt)) (month dt) Hm) as H31.
  rewrite days_in_month_dim in Hd.
  unfold strftime, format_Y.
  destruct (Z.ltb_spec (year dt) 10) as [H10|H10];
    [|destruct (Z.ltb_spec (year dt) 100) as [H100|H100];
      [|destruct (Z.ltb_spec (year dt) 1000) as [H1000|H1000]]];
    destruct (Z.leb_spec 1000 (year dt)) as [Hle|Hlt]; try lia;
    unfold pad4, pad2;
    cbn -[is_digit digit_char Z.div Z.modulo];
    rewrite ?is_digit_digit_char by (Z.div_mod_to_equations; lia);
    reflexivity.
Qed.

(** ** Parsing the two timestamp forms *)

Import Strptime Pytz.

(** A string that goes on with a decimal digit. *)
Definition digit_led (s : string) : bool :=
  match s with
  | String c _ => is_digit c
  | EmptyString => false
  end.

(** The directive [D] reads [text] at the head of any input: [text] is its
    first match, and every other match stops before a digit. *)
Definition reads (D : rx string) (text : string) : Prop :=
  forall r, exists others,
    D (text ++ r) = (text, r) :: others
    /\ Forall (fun p => digit_led (snd p) = true) others.

Lemma rx_bind_dead {A : Type} (sep : rx string) (k : string -> rx A)
    (others : list (string * string)) :
  (forall s, digit_led s = true -> sep s = []) ->
  Forall (fun p => digit_led (snd p) = true) others ->
  flat_map (fun p => rx_bind sep (fun _ => k (fst p)) (snd p)) others = [].
Proof.
  intros Hsep Hall.
  induction Hall as [|p others Hp Hall IH]; [reflexivity|].
  cbn [flat_map]. rewrite IH. unfold rx_bind. now rewrite (Hsep _ Hp).
Qed.

Lemma reads_then (D sep : rx string) (text : string) {A : Type}
    (k : string -> rx A) (r : string) :
  reads D text ->
  (forall s, digit_led s = true -> sep s = []) ->
  rx_bind D (fun x => rx_bind sep (fun _ => k x)) (text ++ r)
  = rx_bind sep (fun _ => k text) r.
Proof.
  intros HD Hsep. destruct (HD r) as (others & E & Hall).
  unfold rx_bind at 1. rewrite E. cbn [flat_map fst snd].
  rewrite (rx_bind_dead sep k others Hsep Hall). now rewrite app_nil_r.
Qed.

Lemma lit_digit_led (a : ascii) (s : string) :
  is_digit a = false -> digit_led s = true -> lit a s = [].
Proof.
  intros Ha Hs. destruct s as [|c s]; [reflexivity|].
  unfold lit, rx_char. cbn in Hs.
  destruct (Ascii.eqb_spec a c) as [->|]; [congruence | reflexivity].
Qed.

Tactic Notation "enum" constr(k) "below" integer(n) "by" tactic(tac) :=
  let i := fresh "i" in
  let Hi := fresh "Hi" in
  assert (exists i : nat, k = Z.of_nat i) as [i Hi]
    by (exists (Z.to_nat k); lia);
  subst k;
  do n (destruct i as [|i]; [try lia; tac|]); lia.

Ltac solve_reads :=
  intros r; eexists; split; [cbn; reflexivity | repeat constructor].

Lemma reads_m (v : Z) : 1 <= v <= 12 -> reads dir_m (pad2 v).
Proof. intros H. enum v below 13 by solve_reads. Qed.

Lemma reads_d (v : Z) : 1 <= v <= 31 -> reads dir_d (pad2 v).
Proof. intros H. enum v below 32 by solve_reads. Qed.

Lemma reads_H (v : Z) : 0 <= v <= 23 -> reads dir_H (pad2 v).
Proof. intros H. enum v below 24 by solve_reads. Qed.

Lemma reads_M (v : Z) : 0 <= v <= 59 -> reads dir_M (pad2 v).
Proof. intros H. enum v below 60 by solve_reads. Qed.

Lemma reads_S (v : Z) : 0 <= v <= 59 -> reads dir_S (pad2 v).
Proof. intros H. enum v below 60 by solve_reads. Qed.

Lemma dir_Y_pad4 (y : Z) (r : string) :
  0 <= y <= 9999 -> dir_Y (pad4 y ++ r) = [(pad4 y, r)].
Proof.
  intros Hy. unfold dir_Y, rx_cat, rx_bind, rx_d, rx_ret, rx_char, pad4.
  cbn [append flat_map fst snd].
  rewrite !is_digit_digit_char by (Z.div_mod_to_equations; lia).
  cbn [append flat_map fst snd app].
  rewrite !is_digit_digit_char by (Z.div_mod_to_equations; lia).
  cbn [append flat_map fst snd app].
  rewrite !is_digit_digit_char by (Z.div_mod_to_equations; lia).
  cbn [append flat_map fst snd app].
  rewrite !is_digit_digit_char by (Z.div_mod_to_equations; lia).
  reflexivity.
Qed.

(** The digits of a fraction of a second: one to six of them. *)
Definition is_fraction (fr : string) : bool :=
  (1 <=? String.length fr)%nat && (String.length fr <=? 6)%nat
  && forallb is_digit (list_ascii_of_string fr).

Lemma dir_f_fraction (fr : string) :
  is_fraction fr = true -> exists others, dir_f fr = (fr, "") :: others.
Proof.
  unfold is_fraction. intros H.
  apply andb_true_iff in H. destruct H as [H Hd].
  apply andb_true_iff in H. destruct H as [Hlo Hhi].
  apply Nat.leb_le in Hlo, Hhi.
  unfold dir_f, rx_cat, rx_opt, rx_alt, rx_bind, rx_d, rx_ret, rx_char.
  do 7 (destruct fr as [|? fr]; [cbn in Hlo, Hhi, Hd |- *; try lia;
      repeat (apply andb_true_iff in Hd; destruct Hd as [? Hd]);
      repeat (progress (repeat match goal with
                               | H : is_digit _ = true |- _ => rewrite H
                               end; cbn));
      eexists; reflexivity|]).
  cbn in Hhi. lia.
Qed.

Lemma lit_nocase_digit_led (lo up : ascii) (s : string) :
  is_digit lo = false -> is_digit up = false -> digit_led s = true ->
  lit_nocase lo up s = [].
Proof.
  intros Hl Hu Hs. destruct s as [|c s]; [reflexivity|].
  unfold lit_nocase, rx_char. cbn in Hs.
  destruct (Ascii.eqb_spec c lo) as [->|]; [congruence|].
  destruct (Ascii.eqb_spec c up) as [->|]; [congruence | reflexivity].
Qed.

Lemma rx_bind_lit {A : Type} (a : ascii) (k : string -> rx A) (r : string) :
  rx_bind (lit a) k (String a r) = k (String a "") r.
Proof.
  unfold rx_bind, lit, rx_char. rewrite Ascii.eqb_refl.
  cbn [flat_map fst snd]. now rewrite app_nil_r.
Qed.

Lemma rx_bind_lit_nocase {A : Type} (lo up : ascii) (k : string -> rx A)
    (r : string) :
  rx_bind (lit_nocase lo up) k (String up r) = k (String up "") r.
Proof.
  unfold rx_bind, lit_nocase, rx_char. rewrite Ascii.eqb_refl, orb_true_r.
  cbn [flat_map fst snd]. now rewrite app_nil_r.
Qed.

(** A datetime printed to the second, date and time joined by the letter
    T: the text of a UTC timestamp before its fraction and its Z. *)
Definition isoformat_seconds (dt : datetime) : string :=
  pad4 (year dt) ++ "-" ++ pad2 (month dt) ++ "-" ++ pad2 (day dt) ++ "T"
  ++ pad2 (hour dt) ++ ":" ++ pad2 (minute dt) ++ ":" ++ pad2 (second dt).

Lemma rx_seconds_isoformat {A : Type}
    (k : string -> string -> string -> string -> string -> string -> rx A)
    (dt : datetime) (r : string) :
  valid dt = true ->
  rx_seconds k (isoformat_seconds dt ++ r)
  = rx_bind dir_S
      (fun S => k (pad4 (year dt)) (pad2 (month dt)) (pad2 (day dt))
                  (pad2 (hour dt)) (pad2 (minute dt)) S)
      (pad2 (second dt) ++ r).
Proof.
  intros Hv.
  pose proof (valid_fields dt Hv) as (Hy & Hm & Hd & Hh & Hmi & Hs & Hus).
  pose proof (dim_le_31 (_is_leap (year dt)) (month dt) Hm) as H31.
  rewrite days_in_month_dim in Hd.
  unfold rx_seconds, isoformat_seconds. rewrite !append_assoc.
  unfold rx_bind at 1. rewrite dir_Y_pad4 by lia.
  cbn [flat_map fst snd]. rewrite app_nil_r.
  repeat change (String ?c "" ++ ?x) with (String c x).
  rewrite (rx_bind_lit "-").
  rewrite (reads_then dir_m (lit "-"));
    [| apply reads_m; lia | intros s; now apply lit_digit_led].
  rewrite (rx_bind_lit "-").
  rewrite (reads_then dir_d (lit_nocase "t" "T"));
    [| apply reads_d; lia | intros s; now apply lit_nocase_digit_led].
  rewrite (rx_bind_lit_nocase "t" "T").
  rewrite (reads_then dir_H (lit ":"));
    [| apply reads_H; lia | intros s; now apply lit_digit_led].
  rewrite (rx_bind_lit ":").
  rewrite (reads_then dir_M (lit ":"));
    [| apply reads_M; lia | intros s; now apply lit_digit_led].
  rewrite (rx_bind_lit ":").
  reflexivity.
Qed.

(** ** The values of the groups *)

Lemma int_of_group_pad2 (v : Z) : 0 <= v <= 99 -> int_of_group (pad2 v) = v.
Proof.
  intros Hv.
  assert (H : forallb (fun v => int_of_group (pad2 v) =? v) (zrange 0 100) = true)
    by (vm_compute; reflexivity).
  pose proof (forallb_zrange _ _ _ H v ltac:(lia)) as H1. cbv beta in H1. lia.
Qed.

Lemma int_of_group_pad4 (y : Z) : 0 <= y <= 9999 -> int_of_group (pad4 y) = y.
Proof.
  intros Hy.
  assert (H : forallb (fun y => int_of_group (pad4 y) =? y) (zrange 0 (Z.to_nat 10000)) = true).
  { vm_compute. reflexivity. }
  pose proof (forallb_zrange _ _ _ H y ltac:(lia)) as H1. cbv beta in H1. lia.
Qed.

Lemma digit_value_range (c : ascii) :
  is_digit c = true -> 0 <= digit_value c <= 9.
Proof.
  unfold is_digit, digit_value. intros H.
  apply andb_true_iff in H. destruct H as [H1 H2].
  apply Nat.leb_le in H1, H2. lia.
Qed.

Lemma fraction_range (fr : string) :
  is_fraction fr = true -> 0 <= fraction_of_group (Some fr) <= 999999.
Proof.
  unfold is_fraction. intros H.
  apply andb_true_iff in H. destruct H as [H Hd].
  apply andb_true_iff in H. destruct H as [Hlo Hhi].
  apply Nat.leb_le in Hlo, Hhi.
  unfold fraction_of_group.
  do 7 (destruct fr as [|? fr]; [cbn in Hlo, Hhi, Hd; try lia;
      repeat (apply andb_true_iff in Hd; destruct Hd as [? Hd]);
      repeat match goal with H : is_digit _ = true |- _ => apply digit_value_range in H end;
      cbn [String.length append];
      match goal with
      | |- context [PyStr.repeat ?s ?n] =>
          let v := eval vm_compute in (PyStr.repeat s n) in
          change (PyStr.repeat s n) with v
      end;
      cbn -[digit_value Z.mul Z.add];
      change (digit_value "0") with 0; lia|]).
  cbn in Hhi. lia.
Qed.

Lemma drop_last_snoc (s : string) (c : ascii) : drop_last (s ++ String c "") = s.
Proof.
  induction s as [|x s IH]; [reflexivity|].
  cbn [append drop_last]. rewrite IH.
  destruct s; reflexivity.
Qed.

Lemma new_of_groups (dt : datetime) (f : option string) :
  valid dt = true ->
  microsecond dt = fraction_of_group f ->
  Datetime.new (int_of_group (pad4 (year dt))) (int_of_group (pad2 (month dt)))
    (int_of_group (pad2 (day dt))) (int_of_group (pad2 (hour dt)))
    (int_of_group (pad2 (minute dt))) (int_of_group (pad2 (second dt)))
    (fraction_of_group f) = Ok dt.
Proof.
  intros Hv Hus.
  pose proof (valid_fields dt Hv) as (Hy & Hm & Hd & Hh & Hmi & Hs & _).
  pose proof (dim_le_31 (_is_leap (year dt)) (month dt) Hm) as H31.
  rewrite days_in_month_dim in Hd.
  rewrite int_of_group_pad4 by lia. rewrite !int_of_group_pad2 by lia.
  rewrite <- Hus. unfold Datetime.new. fold (valid dt). rewrite Hv.
  destruct dt; reflexivity.
Qed.

Lemma strptime_whole (dt : datetime) :
  valid dt = true -> microsecond dt = 0 ->
  strptime (isoformat_seconds dt) rx_whole = Ok dt.
Proof.
  intros Hv Hus.
  pose proof (valid_fields dt Hv) as (_ & _ & _ & _ & _ & Hs & _).
  unfold strptime, rx_whole.
  rewrite <- (append_nil_r (isoformat_seconds dt)).
  rewrite rx_seconds_isoformat by exact Hv.
  destruct (reads_S (second dt) Hs "") as (others & E & _).
  unfold rx_bind. rewrite E. cbn [flat_map fst snd rx_ret app gY gm gd gH gM gS gf].
  now apply new_of_groups.
Qed.

Lemma strptime_fraction_on_whole (dt : datetime) :
  valid dt = true ->
  strptime (isoformat_seconds dt) rx_fraction = Raise ValueError.
Proof.
  intros Hv.
  pose proof (valid_fields dt Hv) as (_ & _ & _ & _ & _ & Hs & _).
  unfold strptime, rx_fraction.
  rewrite <- (append_nil_r (isoformat_seconds dt)).
  rewrite rx_seconds_isoformat by exact Hv.
  rewrite (reads_then dir_S (lit "."));
    [| now apply reads_S | intros s; now apply lit_digit_led].
  reflexivity.
Qed.

Lemma strptime_fraction (dt : datetime) (fr : string) :
  valid dt = true -> is_fraction fr = true ->
  microsecond dt = fraction_of_group (Some fr) ->
  strptime (isoformat_seconds dt ++ "." ++ fr) rx_fraction = Ok dt.
Proof.
  intros Hv Hfr Hus.
  pose proof (valid_fields dt Hv) as (_ & _ & _ & _ & _ & Hs & _).
  unfold strptime, rx_fraction.
  rewrite rx_seconds_isoformat by exact Hv.
  rewrite (reads_then dir_S (lit "."));
    [| now apply reads_S | intros s; now apply lit_digit_led].
  change ("." ++ fr) with (String "." fr). rewrite (rx_bind_lit ".").
  destruct (dir_f_fraction fr Hfr) as (others & E).
  unfold rx_bind. rewrite E. cbn [flat_map fst snd rx_ret app gY gm gd gH gM gS gf].
  now apply new_of_groups.
Qed.

(** The two accepted forms of a UTC timestamp and the instant each denotes. *)
Inductive utc_timestamp : string -> datetime -> Prop :=
| utc_whole (dt : datetime) :
    valid dt = true -> microsecond dt = 0 ->
    utc_timestamp (isoformat_seconds dt ++ "Z") dt
| utc_fraction (dt : datetime) (fr : string) :
    valid dt = true -> is_fraction fr = true ->
    microsecond dt = fraction_of_group (Some fr) ->
    utc_timestamp (isoformat_seconds dt ++ "." ++ fr ++ "Z") dt.

(** The [try]/[except] of the normaliser, on the text before the final
    character. *)
Definition parse_utc (s : string) : result datetime :=
  match strptime s rx_fraction with
  | Raise ValueError => strptime s rx_whole
  | r => r
  end.

Lemma parse_utc_timestamp (t : string) (dt : datetime) :
  utc_timestamp t dt ->
  parse_utc (drop_last t) = Ok dt
  /\ (strptime (drop_last t) rx_fraction = Ok dt
      \/ (strptime (drop_last t) rx_fraction = Raise ValueError
          /\ strptime (drop_last t) rx_whole = Ok dt)).
Proof.
  intros [dt' Hv Hus | dt' fr Hv Hfr Hus]; unfold parse_utc.
  - rewrite drop_last_snoc.
    rewrite strptime_fraction_on_whole, strptime_whole by assumption.
    split; [reflexivity | right; split; reflexivity].
  - replace (isoformat_seconds dt' ++ "." ++ fr ++ "Z")
      with ((isoformat_seconds dt' ++ "." ++ fr) ++ "Z")
      by (now rewrite !append_assoc).
    rewrite drop_last_snoc.
    rewrite strptime_fraction by assumption.
    split; [reflexivity | left; reflexivity].
Qed.

(** The offset a zone applies to a naive UTC datetime. *)
Definition utcoffset (tz : tzinfo) (utc : datetime) : option Z :=
  match tz with
  | UTC => Some 0
  | StaticTzInfo off => Some off
  | DstTzInfo times info =>
      nth_error info (Z.to_nat (Z.max 0 (bisect_right times utc - 1)))
  end.

Lemma astimezone_offset (tz : tzinfo) (dt : datetime) (off : Z) :
  valid dt = true -> utcoffset tz dt = Some off ->
  astimezone dt tz = add_seconds dt off.
Proof.
  intros Hv Hoff. pose proof (add_seconds_zero dt Hv) as H0.
  destruct tz as [|o|times info]; cbn in Hoff |- *.
  - injection Hoff as <-. now rewrite H0.
  - injection Hoff as <-. now rewrite H0.
  - rewrite H0. cbn [bind]. now rewrite Hoff.
Qed.

Lemma add_seconds_raises (dt : datetime) (delta : Z) (e : exn) :
  add_seconds dt delta = Raise e -> e = OverflowError.
Proof.
  unfold add_seconds. cbv zeta.
  destruct ((0 <? _) && (_ <=? _)); [|congruence].
  destruct (_ord2ymd _) as [[y m] d]. discriminate.
Qed.

Lemma astimezone_raises (dt : datetime) (tz : tzinfo) (e : exn) :
  astimezone dt tz = Raise e -> e = OverflowError \/ e = IndexError.
Proof.
  destruct tz as [|o|times info]; cbn.
  - discriminate.
  - destruct (add_seconds dt 0) as [utc|e0] eqn:E0; cbn [bind].
    + intros H. left. eapply add_seconds_raises, H.
    + intros H. injection H as <-. left. eapply add_seconds_raises, E0.
  - destruct (add_seconds dt 0) as [utc|e0] eqn:E0; cbn [bind].
    + destruct (nth_error info _).
      * intros H. left. eapply add_seconds_raises, H.
      * intros H. injection H as <-. now right.
    + intros H. injection H as <-. left. eapply add_seconds_raises, E0.
Qed.

Lemma convert_unfold (all_timezones : string -> option tzinfo) (t z : string) :
  convert_utc_to_timezone all_timezones t z
  = (utc_time <- parse_utc (drop_last t) ;;
     target_zone <- pytz_timezone all_timezones z ;;
     local_time <- astimezone utc_time target_zone ;;
     Ok (strftime local_time)).
Proof. reflexivity. Qed.

Lemma normalize_accepted (all_timezones : string -> option tzinfo)
    (t : string) (dt : datetime) (z : string) (tz : tzinfo) (off : Z) :
  utc_timestamp t dt ->
  pytz_timezone all_timezones z = Ok tz ->
  utcoffset tz dt = Some off ->
  (in_range dt off = true ->
   exists local,
     convert_utc_to_timezone all_timezones t z = Ok (strftime local)
     /\ valid local = true
     /\ total_seconds local = total_seconds dt + off
     /\ matches_picture "YYYY-MM-DD HH:MM:SS" (strftime local)
        = (1000 <=? year local))
  /\ (in_range dt off = false ->
      convert_utc_to_timezone all_timezones t z = Raise OverflowError).
Proof.
  intros Ht Hz Hoff.
  assert (Hv : valid dt = true) by (destruct Ht; assumption).
  rewrite convert_unfold.
  rewrite (proj1 (parse_utc_timestamp t dt Ht)). cbn [bind].
  rewrite Hz. cbn [bind].
  rewrite (astimezone_offset tz dt off Hv Hoff).
  split; intros Hr.
  - destruct (add_seconds_in_range dt off Hv Hr) as (local & E & Hvl & Htot).
    exists local. rewrite E. cbn [bind].
    repeat split; try assumption. now apply strftime_picture.
  - now rewrite (add_seconds_out_of_range dt off Hr).
Qed.




Lemma normalize_no_format_error (all_timezones : string -> option tzinfo)
    (t : string) (dt : datetime) (z : string) :
  parse_utc (drop_last t) = Ok dt ->
  convert_utc_to_timezone all_timezones t z <> Raise ValueError.
Proof.
  intros Hp. rewrite convert_unfold, Hp. cbn [bind].
  unfold pytz_timezone.
  destruct (is_utc_name z); [cbn; discriminate|].
  destruct (all_timezones z) as [tz|]; cbn [bind]; [|discriminate].
  destruct (astimezone dt tz) as [local|e] eqn:E; cbn [bind]; [discriminate|].
  intros H. injection H as ->.
  destruct (astimezone_raises dt tz ValueError E); discriminate.
Qed.

(** C8. The normaliser drops the final character of its input whatever it
    is: replacing the final Z by any character gives the same outcome,
    string or exception. For a timestamp of an accepted form the text
    before the replaced character still parses to the same instant, the
    call does not raise a format error, and it returns what the call on the
    timestamp returns: for a zone of the database, the printed local time
    when the local day is a day of the calendar, and the overflow error of
    the call on the timestamp when it is not. *)
Theorem C8_final_character_unchecked
    (all_timezones : string -> option tzinfo) (body : string) (c : ascii)
    (z : string) :
  drop_last (body ++ String c "") = body
  /\ convert_utc_to_timezone all_timezones (body ++ String c "") z
     = convert_utc_to_timezone all_timezones (body ++ "Z") z
  /\ (forall r,
        convert_utc_to_timezone all_timezones (body ++ "Z") z = Ok r ->
        convert_utc_to_timezone all_timezones (body ++ String c "") z = Ok r)
  /\ (forall dt,
        utc_timestamp (body ++ "Z") dt ->
        parse_utc (drop_last (body ++ String c "")) = Ok dt
        /\ convert_utc_to_timezone all_timezones (body ++ String c "") z
           <> Raise ValueError)
  /\ (forall dt tz off,
        utc_timestamp (body ++ "Z") dt ->
        pytz_timezone all_timezones z = Ok tz ->
        utcoffset tz dt = Some off ->
        (in_range dt off = true ->
         exists local,
           convert_utc_to_timezone all_timezones (body ++ String c "") z
           = Ok (strftime local)
           /\ valid local = true
           /\ total_seconds local = total_seconds dt + off)
        /\ (in_range dt off = false ->
            convert_utc_to_timezone all_timezones (body ++ String c "") z
            = Raise OverflowError)).
Proof.
  assert (E : convert_utc_to_timezone all_timezones (body ++ String c "") z
              = convert_utc_to_timezone all_timezones (body ++ "Z") z).
  { rewrite !convert_unfold, !drop_last_snoc. reflexivity. }
  split; [apply drop_last_snoc|].
  split; [exact E|].
  split; [intros r Hr; now rewrite E|].
  split.
  - intros dt Ht.
    assert (Hp : parse_utc (drop_last (body ++ String c "")) = Ok dt).
    { rewrite drop_last_snoc.
      rewrite <- (drop_last_snoc body "Z").
      exact (proj1 (parse_utc_timestamp _ dt Ht)). }
    split; [exact Hp|].
    exact (normalize_no_format_error all_timezones _ dt z Hp).
  - intros dt tz off Ht Hz Hoff. rewrite E.
    destruct (normalize_accepted all_timezones _ dt z tz off Ht Hz Hoff)
      as [Hin Hout].
    split; [|exact Hout].
    intros Hr. destruct (Hin Hr) as (local & El & Hv & Htot & _).
    exists local. repeat split; assumption.
Qed.

Lemma C8_final_character_unchecked_witness :
  convert_utc_to_timezone tz_excerpt "2024-06-15T10:30:00X" "Asia/Shanghai"
  = Ok "2024-06-15 18:30:00"
  /\ convert_utc_to_timezone tz_excerpt "2024-06-15T10:30:00.25 " "Asia/Shanghai"
     <> Raise ValueError.
Proof.
  split.
  - exact (proj1 (proj2 (proj2
             (C8_final_character_unchecked tz_excerpt "2024-06-15T10:30:00"
                "X" "Asia/Shanghai"))) "2024-06-15 18:30:00" eq_refl).
  - exact (proj2 (proj1 (proj2 (proj2 (proj2
             (C8_final_character_unchecked tz_excerpt "2024-06-15T10:30:00.25"
                " " "Asia/Shanghai"))))
             (mkdt 2024 6 15 10 30 0 250000)
             (utc_fraction (mkdt 2024 6 15 10 30 0 250000) "25"
                eq_refl eq_refl eq_refl))).
Defined.

(** The last second of the year 9999, with its Z replaced by the letter X,
    still parses; the local time of Asia/Shanghai would fall in the year
    10000, and the call raises as the call on the timestamp does: the
    altered input does not always succeed. *)
Lemma C8_altered_input_overflows :
  ~ (forall body dt c,
       utc_timestamp (body ++ "Z") dt ->
       exists r,
         convert_utc_to_timezone tz_excerpt (body ++ String c "")
           "Asia/Shanghai" = Ok r).
Proof.
  intros H.
  destruct (H "9999-12-31T23:59:59" (mkdt 9999 12 31 23 59 59 0) "X"%char
              (utc_whole (mkdt 9999 12 31 23 59 59 0) eq_refl eq_refl))
    as (r & E).
  vm_compute in E. discriminate.
Qed.

(** * Further properties *)


(** ** Errors of the normaliser *)

Lemma new_raises (y m d hh mm ss us : Z) (e : exn) :
  Datetime.new y m d hh mm ss us = Raise e -> e = ValueError.
Proof.
  unfold Datetime.new. destruct (check_fields _ _ _ _ _ _ _); congruence.
Qed.

Lemma strptime_raises (s : string) (format : rx groups) (e : exn) :
  strptime s format = Raise e -> e = ValueError.
Proof.
  unfold strptime. destruct (format s) as [|[g rest] l]; [congruence|].
  destruct rest; [apply new_raises | congruence].
Qed.

Lemma parse_utc_raises (s : string) (e : exn) :
  parse_utc s = Raise e -> e = ValueError.
Proof.
  unfold parse_utc.
  destruct (strptime s rx_fraction) as [dt|e0] eqn:E; [discriminate|].
  destruct e0; try (intros H; injection H as <-; exact (strptime_raises _ _ _ E)).
  apply strptime_raises.
Qed.

(** X1. The timestamp is parsed before the zone is looked up: a timestamp
    that does not parse raises ValueError for every zone name, known or
    not, and so do the empty and the one-character input; a timestamp of an
    accepted form with a zone name that is not UTC and that the database
    lacks raises UnknownTimeZoneError. *)
Theorem normalize_error_order (all_timezones : string -> option tzinfo) :
  (forall t z e,
     parse_utc (drop_last t) = Raise e ->
     e = ValueError
     /\ convert_utc_to_timezone all_timezones t z = Raise ValueError)
  /\ (forall z c,
        convert_utc_to_timezone all_timezones "" z = Raise ValueError
        /\ convert_utc_to_timezone all_timezones (String c "") z
           = Raise ValueError)
  /\ (forall t dt z,
        utc_timestamp t dt ->
        is_utc_name z = false ->
        all_timezones z = None ->
        convert_utc_to_timezone all_timezones t z = Raise UnknownTimeZoneError).
Proof.
  split; [|split].
  - intros t z e H. pose proof (parse_utc_raises _ _ H) as ->.
    split; [reflexivity|]. rewrite convert_unfold, H. reflexivity.
  - intros z c. split; reflexivity.
  - intros t dt z Ht Hz Hdb. rewrite convert_unfold.
    rewrite (proj1 (parse_utc_timestamp t dt Ht)). cbn [bind].
    unfold pytz_timezone. rewrite Hz, Hdb. reflexivity.
Qed.

Lemma normalize_error_order_witness :
  convert_utc_to_timezone tz_excerpt "2024-06-15 10:30:00Z" "Mars/Olympus"
  = Raise ValueError
  /\ convert_utc_to_timezone tz_excerpt "2024-06-15T10:30:00Z" "Mars/Olympus"
     = Raise UnknownTimeZoneError.
Proof.
  split.
  - exact (proj2 (proj1 (normalize_error_order tz_excerpt)
                    "2024-06-15 10:30:00Z" "Mars/Olympus" ValueError eq_refl)).
  - exact (proj2 (proj2 (normalize_error_order tz_excerpt))
             "2024-06-15T10:30:00Z" (mkdt 2024 6 15 10 30 0 0) "Mars/Olympus"
             (utc_whole (mkdt 2024 6 15 10 30 0 0) eq_refl eq_refl)
             eq_refl eq_refl).
Defined.

(** ** Timestamps of the right shape that name no instant *)

(** The directive [D] reads no more than one digit of [text] at the head of
    any input: every match it has stops before a digit. *)
Definition dead (D : rx string) (text : string) : Prop :=
  forall r, Forall (fun p => digit_led (snd p) = true) (D (text ++ r)).

Ltac solve_dead := intros r; cbn; repeat constructor.

Lemma dead_m (v : Z) : v = 0 \/ 13 <= v <= 99 -> dead dir_m (pad2 v).
Proof. intros H. assert (0 <= v) by lia. enum v below 100 by solve_dead. Qed.

Lemma dead_d (v : Z) : v = 0 \/ 32 <= v <= 99 -> dead dir_d (pad2 v).
Proof. intros H. assert (0 <= v) by lia. enum v below 100 by solve_dead. Qed.

Lemma dead_H (v : Z) : 24 <= v <= 99 -> dead dir_H (pad2 v).
Proof. intros H. enum v below 100 by solve_dead. Qed.

Lemma dead_M (v : Z) : 60 <= v <= 99 -> dead dir_M (pad2 v).
Proof. intros H. enum v below 100 by solve_dead. Qed.

Lemma dead_S (v : Z) : 62 <= v <= 99 -> dead dir_S (pad2 v).
Proof. intros H. enum v below 100 by solve_dead. Qed.

Lemma reads_S_leap (v : Z) : 60 <= v <= 61 -> reads dir_S (pad2 v).
Proof. intros H. enum v below 62 by solve_reads. Qed.


Lemma rx_bind_dead_dir {A : Type} (D sep : rx string) (text : string)
    (k : string -> rx A) (r : string) :
  dead D text ->
  (forall s, digit_led s = true -> sep s = []) ->
  rx_bind D (fun x => rx_bind sep (fun _ => k x)) (text ++ r) = [].
Proof.
  intros HD Hsep. unfold rx_bind at 1.
  exact (rx_bind_dead sep k _ Hsep (HD r)).
Qed.

(** The fields of a timestamp printed to the second, whatever their
    values. *)
Definition print_seconds (y m d hh mm ss : Z) : string :=
  pad4 y ++ "-" ++ pad2 m ++ "-" ++ pad2 d ++ "T"
  ++ pad2 hh ++ ":" ++ pad2 mm ++ ":" ++ pad2 ss.

(** Four digits of year and two digits for every other field. *)
Definition printable (y m d hh mm ss : Z) : bool :=
  (0 <=? y) && (y <=? 9999)
  && (0 <=? m) && (m <=? 99)
  && (0 <=? d) && (d <=? 99)
  && (0 <=? hh) && (hh <=? 99)
  && (0 <=? mm) && (mm <=? 99)
  && (0 <=? ss) && (ss <=? 99).

Lemma rx_seconds_printed {A : Type}
    (k : string -> string -> string -> string -> string -> string -> rx A)
    (y m d hh mm ss : Z) (r : string) :
  printable y m d hh mm ss = true ->
  rx_seconds k (print_seconds y m d hh mm ss ++ r)
  = if (1 <=? m) && (m <=? 12) && (1 <=? d) && (d <=? 31)
       && (hh <=? 23) && (mm <=? 59)
    then rx_bind dir_S
           (fun S => k (pad4 y) (pad2 m) (pad2 d) (pad2 hh) (pad2 mm) S)
           (pad2 ss ++ r)
    else [].
Proof.
  unfold printable. intros Hp.
  repeat (apply andb_true_iff in Hp; destruct Hp as [Hp ?]).
  repeat match goal with
         | H : (_ <=? _) = true |- _ => apply Z.leb_le in H
         end.
  unfold rx_seconds, print_seconds. rewrite !append_assoc.
  unfold rx_bind at 1. rewrite dir_Y_pad4 by lia.
  cbn [flat_map fst snd]. rewrite app_nil_r.
  repeat change (String ?c "" ++ ?x) with (String c x).
  rewrite (rx_bind_lit "-").
  destruct (Z.leb_spec 1 m); cbn [andb].
  2: { apply rx_bind_dead_dir;
         [apply dead_m; lia | intros s; now apply lit_digit_led]. }
  destruct (Z.leb_spec m 12); cbn [andb].
  2: { apply rx_bind_dead_dir;
         [apply dead_m; lia | intros s; now apply lit_digit_led]. }
  rewrite (reads_then dir_m (lit "-"));
    [| apply reads_m; lia | intros s; now apply lit_digit_led].
  rewrite (rx_bind_lit "-").
  destruct (Z.leb_spec 1 d); cbn [andb].
  2: { apply rx_bind_dead_dir;
         [apply dead_d; lia | intros s; now apply lit_nocase_digit_led]. }
  destruct (Z.leb_spec d 31); cbn [andb].
  2: { apply rx_bind_dead_dir;
         [apply dead_d; lia | intros s; now apply lit_nocase_digit_led]. }
  rewrite (reads_then dir_d (lit_nocase "t" "T"));
    [| apply reads_d; lia | intros s; now apply lit_nocase_digit_led].
  rewrite (rx_bind_lit_nocase "t" "T").
  destruct (Z.leb_spec hh 23); cbn [andb].
  2: { apply rx_bind_dead_dir;
         [apply dead_H; lia | intros s; now apply lit_digit_led]. }
  rewrite (reads_then dir_H (lit ":"));
    [| apply reads_H; lia | intros s; now apply lit_digit_led].
  rewrite (rx_bind_lit ":").
  destruct (Z.leb_spec mm 59); cbn [andb].
  2: { apply rx_bind_dead_dir;
         [apply dead_M; lia | intros s; now apply lit_digit_led]. }
  rewrite (reads_then dir_M (lit ":"));
    [| apply reads_M; lia | intros s; now apply lit_digit_led].
  rewrite (rx_bind_lit ":").
  reflexivity.
Qed.

Lemma dead_first {A : Type} (D : rx string) (text : string) (g : string -> A) :
  dead D text ->
  match rx_bind D (fun S => rx_ret (g S)) (text ++ "") with
  | [] => True
  | (_, rest) :: _ => digit_led rest = true
  end.
Proof.
  intros HD. unfold rx_bind. specialize (HD "").
  destruct (D (text ++ "")) as [|p l]; [exact I|].
  cbn [flat_map rx_ret app snd]. now inversion HD.
Qed.

(** The whole-second format on printed fields: the constructor decides. *)
Lemma strptime_whole_printed (y m d hh mm ss : Z) :
  printable y m d hh mm ss = true ->
  strptime (print_seconds y m d hh mm ss) rx_whole
  = Datetime.new y m d hh mm ss 0.
Proof.
  intros Hp. pose proof Hp as Hr. unfold printable in Hr.
  repeat (apply andb_true_iff in Hr; destruct Hr as [Hr ?]).
  repeat match goal with
         | H : (_ <=? _) = true |- _ => apply Z.leb_le in H
         end.
  unfold strptime, rx_whole.
  rewrite <- (append_nil_r (print_seconds y m d hh mm ss)).
  rewrite rx_seconds_printed by exact Hp.
  assert (Hdim : 1 <= m <= 12 -> _days_in_month y m <= 31).
  { intros Hm. rewrite days_in_month_dim. now apply dim_le_31. }
  destruct ((1 <=? m) && (m <=? 12) && (1 <=? d) && (d <=? 31)
            && (hh <=? 23) && (mm <=? 59)) eqn:E.
  - destruct (Z.leb_spec ss 61).
    + assert (HS : reads dir_S (pad2 ss)).
      { destruct (Z.leb_spec ss 59); [apply reads_S | apply reads_S_leap]; lia. }
      destruct (HS "") as (others & ES & _).
      unfold rx_bind. rewrite ES.
      cbn [flat_map fst snd rx_ret app gY gm gd gH gM gS gf fraction_of_group].
      rewrite int_of_group_pad4 by lia. rewrite !int_of_group_pad2 by lia.
      reflexivity.
    + pose proof (dead_first dir_S (pad2 ss)
                    (fun S => mkgroups (pad4 y) (pad2 m) (pad2 d) (pad2 hh)
                                (pad2 mm) S None)
                    (dead_S ss ltac:(lia))) as Hd.
      unfold Datetime.new, check_fields.
      replace (ss <=? 59) with false by (symmetry; lia).
      rewrite !andb_false_r. cbn [andb].
      destruct (rx_bind dir_S _ _) as [|[g rest] l]; [reflexivity|].
      destruct rest; [discriminate | reflexivity].
  - unfold Datetime.new.
    destruct (check_fields y m d hh mm ss 0) eqn:C; [exfalso | reflexivity].
    pose proof (valid_fields (mkdt y m d hh mm ss 0) C)
      as (Hy & Hm & Hd & Hh & Hmi & Hs & _).
    cbn [year month day hour minute second] in *.
    specialize (Hdim Hm).
    repeat (apply andb_false_iff in E; destruct E as [E|E]);
      apply Z.leb_gt in E; lia.
Qed.

Lemma dir_S_on_printed (ss : Z) (r : string) :
  0 <= ss <= 99 ->
  exists l,
    dir_S (pad2 ss ++ r) = l
    /\ match l with
       | [] => True
       | p :: others =>
           (p = (pad2 ss, r) /\ ss <= 61 \/ digit_led (snd p) = true)
           /\ Forall (fun q => digit_led (snd q) = true) others
       end.
Proof.
  intros Hs. eexists. split; [reflexivity|].
  destruct (Z.leb_spec ss 61).
  - assert (HS : reads dir_S (pad2 ss)).
    { destruct (Z.leb_spec ss 59); [apply reads_S | apply reads_S_leap]; lia. }
    destruct (HS r) as (others & ES & Hall). rewrite ES.
    split; [left; split; [reflexivity | assumption] | exact Hall].
  - pose proof (dead_S ss ltac:(lia) r) as Hd.
    destruct (dir_S (pad2 ss ++ r)) as [|p l]; [exact I|].
    inversion Hd; subst. split; [right; assumption | assumption].
Qed.

Lemma strptime_fraction_printed_whole (y m d hh mm ss : Z) :
  printable y m d hh mm ss = true ->
  strptime (print_seconds y m d hh mm ss) rx_fraction = Raise ValueError.
Proof.
  intros Hp. pose proof Hp as Hr. unfold printable in Hr.
  repeat (apply andb_true_iff in Hr; destruct Hr as [Hr ?]).
  repeat match goal with
         | H : (_ <=? _) = true |- _ => apply Z.leb_le in H
         end.
  unfold strptime, rx_fraction.
  rewrite <- (append_nil_r (print_seconds y m d hh mm ss)).
  rewrite rx_seconds_printed by exact Hp.
  destruct ((1 <=? m) && (m <=? 12) && (1 <=? d) && (d <=? 31)
            && (hh <=? 23) && (mm <=? 59)); [|reflexivity].
  destruct (Z.leb_spec ss 61).
  - assert (HS : reads dir_S (pad2 ss)).
    { destruct (Z.leb_spec ss 59); [apply reads_S | apply reads_S_leap]; lia. }
    rewrite (reads_then dir_S (lit "."));
      [reflexivity | exact HS | intros s; now apply lit_digit_led].
  - rewrite rx_bind_dead_dir;
      [reflexivity | apply dead_S; lia | intros s; now apply lit_digit_led].
Qed.

Lemma strptime_whole_printed_fraction (y m d hh mm ss : Z) (fr : string) :
  printable y m d hh mm ss = true ->
  strptime (print_seconds y m d hh mm ss ++ "." ++ fr) rx_whole
  = Raise ValueError.
Proof.
  intros Hp. pose proof Hp as Hr. unfold printable in Hr.
  repeat (apply andb_true_iff in Hr; destruct Hr as [Hr ?]).
  repeat match goal with
         | H : (_ <=? _) = true |- _ => apply Z.leb_le in H
         end.
  unfold strptime, rx_whole.
  rewrite rx_seconds_printed by exact Hp.
  destruct ((1 <=? m) && (m <=? 12) && (1 <=? d) && (d <=? 31)
            && (hh <=? 23) && (mm <=? 59)); [|reflexivity].
  destruct (dir_S_on_printed ss ("." ++ fr) ltac:(lia)) as (l & El & Hl).
  unfold rx_bind. rewrite El.
  destruct l as [|p others]; [reflexivity|].
  cbn [flat_map rx_ret app snd].
  destruct Hl as [[[-> _]|Hp1] _]; cbn [snd].
  - reflexivity.
  - destruct (snd p); [discriminate | reflexivity].
Qed.

Lemma strptime_fraction_printed (y m d hh mm ss : Z) (fr : string) :
  printable y m d hh mm ss = true ->
  is_fraction fr = true ->
  strptime (print_seconds y m d hh mm ss ++ "." ++ fr) rx_fraction
  = Datetime.new y m d hh mm ss (fraction_of_group (Some fr)).
Proof.
  intros Hp Hfr. pose proof Hp as Hr. unfold printable in Hr.
  repeat (apply andb_true_iff in Hr; destruct Hr as [Hr ?]).
  repeat match goal with
         | H : (_ <=? _) = true |- _ => apply Z.leb_le in H
         end.
  pose proof (fraction_range fr Hfr) as Hus.
  assert (Hdim : 1 <= m <= 12 -> _days_in_month y m <= 31).
  { intros Hm. rewrite days_in_month_dim. now apply dim_le_31. }
  assert (Hbad : (1 <=? m) && (m <=? 12) && (1 <=? d) && (d <=? 31)
                 && (hh <=? 23) && (mm <=? 59) && (ss <=? 61) = false ->
                 Datetime.new y m d hh mm ss (fraction_of_group (Some fr))
                 = Raise ValueError).
  { intros E. unfold Datetime.new.
    destruct (check_fields _ _ _ _ _ _ _) eqn:C; [exfalso | reflexivity].
    pose proof (valid_fields (mkdt y m d hh mm ss _) C)
      as (Hy & Hm & Hd & Hh & Hmi & Hs & _).
    cbn [year month day hour minute second] in *.
    specialize (Hdim Hm).
    repeat (apply andb_false_iff in E; destruct E as [E|E]);
      apply Z.leb_gt in E; lia. }
  unfold strptime, rx_fraction.
  rewrite rx_seconds_printed by exact Hp.
  destruct ((1 <=? m) && (m <=? 12) && (1 <=? d) && (d <=? 31)
            && (hh <=? 23) && (mm <=? 59)) eqn:E.
  2: { symmetry. apply Hbad. reflexivity. }
  destruct (Z.leb_spec ss 61).
  - assert (HS : reads dir_S (pad2 ss)).
    { destruct (Z.leb_spec ss 59); [apply reads_S | apply reads_S_leap]; lia. }
    rewrite (reads_then dir_S (lit "."));
      [| exact HS | intros s; now apply lit_digit_led].
    change ("." ++ fr) with (String "." fr). rewrite (rx_bind_lit ".").
    destruct (dir_f_fraction fr Hfr) as (others & Ef).
    unfold rx_bind. rewrite Ef.
    cbn [flat_map fst snd rx_ret app gY gm gd gH gM gS gf].
    rewrite int_of_group_pad4 by lia. rewrite !int_of_group_pad2 by lia.
    reflexivity.
  - rewrite rx_bind_dead_dir;
      [| apply dead_S; lia | intros s; now apply lit_digit_led].
    symmetry. apply Hbad. cbn [andb]. lia.
Qed.

Lemma check_fields_microsecond (y m d hh mm ss us : Z) :
  0 <= us <= 999999 ->
  check_fields y m d hh mm ss us = check_fields y m d hh mm ss 0.
Proof.
  intros H. unfold check_fields.
  replace (0 <=? us) with true by (symmetry; lia).
  replace (us <=? 999999) with true by (symmetry; lia).
  reflexivity.
Qed.

(** X2. A timestamp of the right shape whose fields name no instant of
    the calendar (a day past the end of its month, the year 0000, a month
    13, an hour 24, a second 60) raises ValueError, with or without a
    fraction, whatever the zone. *)
Theorem normalize_rejects_impossible_instants
    (all_timezones : string -> option tzinfo) (y m d hh mm ss : Z)
    (z : string) :
  printable y m d hh mm ss = true ->
  check_fields y m d hh mm ss 0 = false ->
  convert_utc_to_timezone all_timezones
    (print_seconds y m d hh mm ss ++ "Z") z = Raise ValueError
  /\ (forall fr,
        is_fraction fr = true ->
        convert_utc_to_timezone all_timezones
          (print_seconds y m d hh mm ss ++ "." ++ fr ++ "Z") z
        = Raise ValueError).
Proof.
  intros Hp Hc. split.
  - rewrite convert_unfold, drop_last_snoc. unfold parse_utc.
    rewrite strptime_fraction_printed_whole, strptime_whole_printed by exact Hp.
    unfold Datetime.new. rewrite Hc. reflexivity.
  - intros fr Hfr.
    replace (print_seconds y m d hh mm ss ++ "." ++ fr ++ "Z")
      with ((print_seconds y m d hh mm ss ++ "." ++ fr) ++ "Z")
      by (now rewrite !append_assoc).
    rewrite convert_unfold, drop_last_snoc. unfold parse_utc.
    rewrite strptime_fraction_printed by assumption.
    unfold Datetime.new.
    rewrite check_fields_microsecond by (now apply fraction_range).
    rewrite Hc. rewrite strptime_whole_printed_fraction by exact Hp.
    reflexivity.
Qed.

Lemma normalize_rejects_impossible_instants_witness :
  convert_utc_to_timezone tz_excerpt "2023-02-29T12:00:00Z" "Asia/Shanghai"
  = Raise ValueError
  /\ convert_utc_to_timezone tz_excerpt "2024-06-15T23:59:60.5Z" "UTC"
     = Raise ValueError.
Proof.
  split.
  - exact (proj1 (normalize_rejects_impossible_instants tz_excerpt
                    2023 2 29 12 0 0 "Asia/Shanghai" eq_refl eq_refl)).
  - exact (proj2 (normalize_rejects_impossible_instants tz_excerpt
                    2024 6 15 23 59 60 "UTC" eq_refl eq_refl) "5" eq_refl).
Defined.


(** ** The fraction of a second *)

(** A datetime with another microsecond. *)
Definition with_microsecond (dt : datetime) (us : Z) : datetime :=
  mkdt (year dt) (month dt) (day dt) (hour dt) (minute dt) (second dt) us.

(** A zone whose transitions fall on whole seconds. *)
Definition whole_second_transitions (tz : tzinfo) : bool :=
  match tz with
  | DstTzInfo times _ => forallb (fun t => microsecond t =? 0) times
  | _ => true
  end.

Lemma add_seconds_microsecond (dt : datetime) (us delta : Z) :
  add_seconds (with_microsecond dt us) delta
  = match add_seconds dt delta with
    | Ok local => Ok (with_microsecond local us)
    | Raise e => Raise e
    end.
Proof.
  unfold add_seconds, total_seconds, toordinal, with_microsecond. cbv zeta.
  cbn [year month day hour minute second microsecond].
  destruct ((0 <? _) && (_ <=? _)); [|reflexivity].
  destruct (_ord2ymd _) as [[y m] d]. reflexivity.
Qed.

Lemma strftime_microsecond (dt : datetime) (us : Z) :
  strftime (with_microsecond dt us) = strftime dt.
Proof. reflexivity. Qed.

Lemma leb_microsecond (t dt : datetime) (us : Z) :
  microsecond t = 0 -> 0 <= microsecond dt -> 0 <= us ->
  leb t (with_microsecond dt us) = leb t dt.
Proof.
  intros Ht Hdt Hus. unfold leb, fields, with_microsecond.
  cbn [year month day hour minute second microsecond lex_leb].
  rewrite Ht.
  replace (0 <? us) with (negb (0 =? us)) by lia.
  replace (0 <? microsecond dt) with (negb (0 =? microsecond dt)) by lia.
  destruct (0 =? us), (0 =? microsecond dt); reflexivity.
Qed.

Lemma bisect_right_microsecond (times : list datetime) (dt : datetime) (us : Z) :
  forallb (fun t => microsecond t =? 0) times = true ->
  0 <= microsecond dt -> 0 <= us ->
  bisect_right times (with_microsecond dt us) = bisect_right times dt.
Proof.
  intros Hall Hdt Hus. induction times as [|t times IH]; [reflexivity|].
  cbn [forallb] in Hall. apply andb_true_iff in Hall. destruct Hall as [Ht Hall].
  cbn [bisect_right]. rewrite leb_microsecond by lia.
  now rewrite IH.
Qed.

Lemma astimezone_microsecond (dt : datetime) (us : Z) (tz : tzinfo) :
  valid dt = true -> 0 <= us <= 999999 ->
  whole_second_transitions tz = true ->
  astimezone (with_microsecond dt us) tz
  = match astimezone dt tz with
    | Ok local => Ok (with_microsecond local us)
    | Raise e => Raise e
    end.
Proof.
  intros Hv Hus Htz.
  pose proof (valid_fields dt Hv) as (Hy & Hm & Hd & Hh & Hmi & Hs & Hu).
  assert (Hv' : valid (with_microsecond dt us) = true).
  { apply fields_valid; unfold with_microsecond;
    cbn [year month day hour minute second microsecond]; lia. }
  destruct tz as [|off|times info]; cbn [astimezone].
  - reflexivity.
  - rewrite (add_seconds_zero _ Hv'), (add_seconds_zero _ Hv). cbn [bind fromutc].
    apply add_seconds_microsecond.
  - rewrite (add_seconds_zero _ Hv'), (add_seconds_zero _ Hv). cbn [bind fromutc].
    cbn in Htz. rewrite bisect_right_microsecond by (assumption || lia).
    destruct (nth_error info _); [apply add_seconds_microsecond | reflexivity].
Qed.

(** X3. The fraction of a second never shows in the result: for a zone
    whose transitions fall on whole seconds, a timestamp with a fraction
    gives what the same timestamp without it gives, the same string or the
    same exception; the seconds are cut, not rounded. *)
Theorem fraction_is_dropped (all_timezones : string -> option tzinfo)
    (dt : datetime) (fr z : string) (tz : tzinfo) :
  valid dt = true ->
  is_fraction fr = true ->
  pytz_timezone all_timezones z = Ok tz ->
  whole_second_transitions tz = true ->
  convert_utc_to_timezone all_timezones
    (isoformat_seconds dt ++ "." ++ fr ++ "Z") z
  = convert_utc_to_timezone all_timezones (isoformat_seconds dt ++ "Z") z.
Proof.
  intros Hv Hfr Hz Htz.
  pose proof (valid_fields dt Hv) as (Hy & Hm & Hd & Hh & Hmi & Hs & Hu).
  pose proof (fraction_range fr Hfr) as Hus.
  set (dt0 := with_microsecond dt 0).
  set (dtf := with_microsecond dt (fraction_of_group (Some fr))).
  assert (Hv0 : valid dt0 = true)
    by (apply fields_valid; unfold dt0, with_microsecond;
        cbn [year month day hour minute second microsecond]; lia).
  assert (Hvf : valid dtf = true)
    by (apply fields_valid; unfold dtf, with_microsecond;
        cbn [year month day hour minute second microsecond]; lia).
  assert (Ht0 : utc_timestamp (isoformat_seconds dt ++ "Z") dt0)
    by exact (utc_whole dt0 Hv0 eq_refl).
  assert (Htf : utc_timestamp (isoformat_seconds dt ++ "." ++ fr ++ "Z") dtf)
    by exact (utc_fraction dtf fr Hvf Hfr eq_refl).
  rewrite !convert_unfold.
  rewrite (proj1 (parse_utc_timestamp _ _ Ht0)).
  rewrite (proj1 (parse_utc_timestamp _ _ Htf)).
  cbn [bind]. rewrite Hz. cbn [bind].
  change dtf with (with_microsecond dt0 (fraction_of_group (Some fr))).
  rewrite astimezone_microsecond by assumption.
  destruct (astimezone dt0 tz); reflexivity.
Qed.

Lemma fraction_is_dropped_witness :
  convert_utc_to_timezone tz_excerpt "2024-12-31T15:59:59.999999Z" "Asia/Shanghai"
  = convert_utc_to_timezone tz_excerpt "2024-12-31T15:59:59Z" "Asia/Shanghai".
Proof.
  exact (fraction_is_dropped tz_excerpt (mkdt 2024 12 31 15 59 59 0) "999999"
           "Asia/Shanghai" _ eq_refl eq_refl eq_refl eq_refl).
Defined.

(** ** Reading a rendering back *)

Lemma append_inv_head (p a b : string) : p ++ a = p ++ b -> a = b.
Proof.
  induction p as [|c p IH]; cbn [append]; intros H; [exact H|].
  injection H as H. now apply IH.
Qed.

Lemma map_prefix_inj (p : string) (l1 l2 : list string) :
  map (fun s => p ++ s) l1 = map (fun s => p ++ s) l2 -> l1 = l2.
Proof.
  revert l2. induction l1 as [|a l1 IH]; intros [|b l2] H; try discriminate.
  - reflexivity.
  - cbn [map] in H. injection H as Hab H.
    f_equal; [exact (append_inv_head p a b Hab) | now apply IH].
Qed.

(** X4. The rendering loses nothing but the difference between no category
    and the category spelled None: two records whose values hold no line
    feed render to the same text exactly when they have the same title, the
    same two dates, the same list of tags, and categories that print
    alike. *)
Theorem render_injective (d1 d2 : front_matter) :
  single_line_fields d1 = true ->
  single_line_fields d2 = true ->
  (generate_front_matter d1 = generate_front_matter d2
   <-> title d1 = title d2
       /\ updated d1 = updated d2
       /\ date d1 = date d2
       /\ format_opt (categories d1) = format_opt (categories d2)
       /\ tags d1 = tags d2).
Proof.
  intros H1 H2. split.
  - intros E.
    apply (f_equal split_lines) in E.
    rewrite !split_lines_front_matter in E by assumption.
    unfold front_matter_lines in E. cbn [List.app] in E.
    injection E as Et Eu Ed Ec Etags.
    repeat split; try assumption.
    apply app_inv_tail in Etags.
    destruct (tags d1) as [|a l1], (tags d2) as [|b l2]; try discriminate.
    + reflexivity.
    + injection Etags as Eab Etags. subst b. f_equal.
      exact (map_prefix_inj "  - " _ _ Etags).
  - intros (Et & Eu & Ed & Ec & Etags).
    unfold generate_front_matter. now rewrite Et, Eu, Ed, Ec, Etags.
Qed.

Lemma render_injective_witness :
  generate_front_matter
    {| title := "A"; updated := "u"; date := "d"; categories := None;
       tags := ["x"] |}
  = generate_front_matter
      {| title := "A"; updated := "u"; date := "d";
         categories := Some "None"; tags := ["x"] |}.
Proof.
  exact (proj2 (render_injective
                  {| title := "A"; updated := "u"; date := "d";
                     categories := None; tags := ["x"] |}
                  {| title := "A"; updated := "u"; date := "d";
                     categories := Some "None"; tags := ["x"] |}
                  eq_refl eq_refl)
           (conj eq_refl (conj eq_refl (conj eq_refl (conj eq_refl eq_refl))))).
Defined.

Lemma split_lines_append_LF (x r : string) :
  split_lines (x ++ LF ++ r) = List.app (split_lines x) (split_lines r).
Proof.
  induction x as [|c x IH]; [reflexivity|].
  change (String c x ++ LF ++ r) with (String c (x ++ LF ++ r)).
  cbn [split_lines]. rewrite IH.
  destruct (Ascii.eqb c (ascii_of_nat 10)); [reflexivity|].
  pose proof (split_lines_nonempty x) as Hne.
  destruct (split_lines x) as [|l ls]; [congruence | reflexivity].
Qed.

Lemma split_lines_cons2 (p s rest : string) :
  single_line (p ++ s) = true ->
  split_lines (p ++ s ++ LF ++ rest) = (p ++ s) :: split_lines rest.
Proof.
  intros H. rewrite <- append_assoc. now apply split_lines_cons.
Qed.

(** X5. The title is written as it is: when it holds a line feed, the
    title line ends there and the rest of the title stands on the next line
    of the front matter, as a line of its own. *)
Theorem title_line_feed_starts_a_line (data : front_matter) (a b : string) :
  title data = a ++ LF ++ b ->
  single_line a = true ->
  single_line b = true ->
  firstn 3 (split_lines (generate_front_matter data))
  = ["---"; "title: " ++ a; b].
Proof.
  intros Ht Ha Hb. unfold generate_front_matter. cbv zeta. rewrite Ht.
  destruct (tags data); rewrite !append_assoc;
    rewrite (split_lines_cons "---") by reflexivity;
    rewrite (split_lines_cons2 "title: " a)
      by (rewrite single_line_app; now rewrite Ha);
    rewrite (split_lines_cons b) by exact Hb;
    reflexivity.
Qed.

Lemma title_line_feed_starts_a_line_witness :
  firstn 3 (split_lines (generate_front_matter
              {| title := "A" ++ LF ++ "tags:"; updated := "u"; date := "d";
                 categories := None; tags := [] |}))
  = ["---"; "title: A"; "tags:"].
Proof.
  exact (title_line_feed_starts_a_line
           {| title := "A" ++ LF ++ "tags:"; updated := "u"; date := "d";
              categories := None; tags := [] |} "A" "tags:"
           eq_refl eq_refl eq_refl).
Defined.

(** ** The body as a whole *)

Lemma rstrip_idempotent (s : string) : rstrip (rstrip s) = rstrip s.
Proof.
  induction s as [|c s IH]; [reflexivity|].
  cbn [rstrip]. destruct (rstrip s) as [|c' r] eqn:E.
  - destruct (isspace c) eqn:Ec; [reflexivity|].
    cbn [rstrip]. now rewrite Ec.
  - cbn [rstrip]. cbn [rstrip] in IH. rewrite IH. reflexivity.
Qed.

Lemma lstrip_head (s : string) :
  match lstrip s with
  | EmptyString => True
  | String c _ => isspace c = false
  end.
Proof.
  induction s as [|c s IH]; [exact I|].
  cbn [lstrip]. destruct (isspace c) eqn:Ec; [exact IH | exact Ec].
Qed.

Lemma rstrip_keeps_head (c : ascii) (s : string) :
  isspace c = false -> exists r, rstrip (String c s) = String c r.
Proof.
  intros Hc. cbn [rstrip]. destruct (rstrip s); [rewrite Hc|]; eauto.
Qed.

Lemma strip_fixed (s : string) :
  lstrip (strip s) = strip s /\ rstrip (strip s) = strip s.
Proof.
  unfold strip. split; [|apply rstrip_idempotent].
  pose proof (lstrip_head s) as H.
  destruct (lstrip s) as [|c u]; [reflexivity|].
  destruct (rstrip_keeps_head c u H) as [r ->].
  cbn [lstrip]. now rewrite H.
Qed.

Lemma strip_idempotent (s : string) : strip (strip s) = strip s.
Proof.
  destruct (strip_fixed s) as [Hl Hr].
  unfold strip at 1. now rewrite Hl, Hr.
Qed.

(** A returned body is the stripped form of some text. *)
Lemma html_to_markdown_strip (soup : node) (markdown : string) :
  html_to_markdown soup = Ok markdown -> exists raw, markdown = strip raw.
Proof.
  unfold html_to_markdown.
  destruct (find soup "div" _) as [post_body|].
  - destruct (convert_children _ _) as [md|e]; cbn [bind]; [|discriminate].
    intros H. injection H as <-. now exists md.
  - intros H. injection H as <-. now exists "".
Qed.

(** X6. A body that [html_to_markdown] returns has no white space at
    either end: stripping it again, on the left, on the right or on both
    sides, gives the same text; so the two line feeds that end the last
    block never reach the output. *)
Theorem body_is_stripped (soup : node) (markdown : string) :
  html_to_markdown soup = Ok markdown ->
  strip markdown = markdown
  /\ lstrip markdown = markdown
  /\ rstrip markdown = markdown.
Proof.
  intros H. destruct (html_to_markdown_strip soup markdown H) as [raw ->].
  destruct (strip_fixed raw).
  split; [apply strip_idempotent | split; assumption].
Qed.

Lemma body_is_stripped_witness :
  strip "[here](http://x)" = "[here](http://x)".
Proof.
  exact (proj1 (body_is_stripped
                  (post_with [Tag "p" [] [Tag "a" [("href", "http://x")]
                                            [NavigableString "here"]]])
                  "[here](http://x)" eq_refl)).
Defined.

(** What one child adds to the output. *)
Definition contribution (elem : node) : result string := convert_child elem "".

Lemma convert_child_contribution (elem : node) (markdown : string) :
  convert_child elem markdown = (s <- contribution elem ;; Ok (markdown ++ s)).
Proof.
  unfold contribution, convert_child.
  destruct (name_is elem "p"); [cbn; now rewrite !append_assoc|].
  destruct (name_startswith_h elem).
  { destruct (header_level_of elem); reflexivity. }
  destruct (name_is elem "figure" && class_is elem ["highlight"; "plaintext"]).
  { destruct (find elem "td" _); cbn [bind]; [reflexivity|].
    now rewrite append_nil_r. }
  destruct (name_is elem "table"); cbn [bind]; [reflexivity|].
  now rewrite append_nil_r.
Qed.

Lemma convert_children_from (elems : list node) (markdown : string) :
  convert_children elems markdown
  = (s <- convert_children elems "" ;; Ok (markdown ++ s)).
Proof.
  revert markdown. induction elems as [|elem elems IH]; intros markdown.
  - cbn. now rewrite append_nil_r.
  - cbn [convert_children].
    rewrite (convert_child_contribution elem markdown).
    rewrite (convert_child_contribution elem "").
    destruct (contribution elem) as [s|e]; cbn [bind]; [|reflexivity].
    rewrite (IH (markdown ++ s)), (IH ("" ++ s)).
    destruct (convert_children elems "") as [s'|e]; cbn [bind]; [|reflexivity].
    cbn [append]. now rewrite append_assoc.
Qed.

Lemma convert_children_app (elems1 elems2 : list node) :
  convert_children (elems1 ++ elems2) ""
  = (s1 <- convert_children elems1 "" ;;
     s2 <- convert_children elems2 "" ;;
     Ok (s1 ++ s2)).
Proof.
  induction elems1 as [|elem elems1 IH].
  - cbn. destruct (convert_children elems2 ""); reflexivity.
  - cbn [List.app convert_children].
    destruct (convert_child elem "") as [s|e]; cbn [bind]; [|reflexivity].
    rewrite (convert_children_from (elems1 ++ elems2) s).
    rewrite (convert_children_from elems1 s).
    rewrite IH.
    destruct (convert_children elems1 "") as [s1|e]; cbn [bind]; [|reflexivity].
    destruct (convert_children elems2 "") as [s2|e]; cbn [bind]; [|reflexivity].
    now rewrite append_assoc.
Qed.

(** X7. The loop converts each child on its own: no branch reads the text
    gathered so far, so the text of a list of children is the text of its
    first part followed by the text of the rest (and an error of the first
    part comes first), one child gives its own contribution, and a loop
    started on a text gives that text followed by what it gives from the
    empty text. *)
Theorem body_concatenates_contributions (elems1 elems2 : list node) :
  convert_children (elems1 ++ elems2) ""
  = (s1 <- convert_children elems1 "" ;;
     s2 <- convert_children elems2 "" ;;
     Ok (s1 ++ s2))
  /\ (forall elem,
        convert_children [elem] "" = contribution elem)
  /\ (forall markdown,
        convert_children elems1 markdown
        = (s <- convert_children elems1 "" ;; Ok (markdown ++ s))).
Proof.
  split; [|split].
  - apply convert_children_app.
  - intros elem. cbn. unfold contribution.
    destruct (convert_child elem ""); reflexivity.
  - apply convert_children_from.
Qed.

(** ** Headings and the names that start like one *)

Lemma is_digit_digit_value (c : ascii) :
  is_digit c = true -> digit_char (digit_value c) = c.
Proof.
  unfold is_digit, digit_value, digit_char. intros H.
  apply andb_true_iff in H. destruct H as [H1 H2].
  apply Nat.leb_le in H1, H2.
  replace (48 + Z.to_nat (Z.of_nat (nat_of_ascii c) - 48))%nat
    with (nat_of_ascii c) by lia.
  apply ascii_nat_embedding.
Qed.

(** X8. A child whose name is the letter h followed by a digit, whatever
    comes after the digit, becomes a heading: as many number signs as the
    digit says (none for h0, seven for h7, one for h10), a blank, the text
    of the element with every piece stripped, and two line feeds. *)
Theorem heading_rule (c : ascii) (rest : string)
    (attrs : list (string * string)) (cs : list node) (markdown : string) :
  is_digit c = true ->
  convert_child (Tag (String "h" (String c rest)) attrs cs) markdown
  = Ok (markdown ++ PyStr.repeat "#" (digit_value c) ++ " "
        ++ get_text true (Tag (String "h" (String c rest)) attrs cs)
        ++ LF ++ LF).
Proof.
  intros Hc. unfold convert_child.
  change (name_is (Tag (String "h" (String c rest)) attrs cs) "p") with false.
  change (name_startswith_h (Tag (String "h" (String c rest)) attrs cs))
    with true.
  cbv iota. unfold header_level_of. cbn [name index1 bind].
  unfold int_of_char. rewrite Hc. reflexivity.
Qed.

Lemma heading_rule_witness :
  convert_child (Tag "h3" [("id", "a")]
                   [NavigableString " Section "; Tag "a" [] [NavigableString "#"]])
    "" = Ok ("### Section#" ++ LF ++ LF)
  /\ convert_child (Tag "h10" [] [NavigableString "x"]) "" = Ok ("# x" ++ LF ++ LF).
Proof.
  split.
  - exact (heading_rule "3" "" [("id", "a")]
             [NavigableString " Section "; Tag "a" [] [NavigableString "#"]] ""
             eq_refl).
  - exact (heading_rule "1" "0" [] [NavigableString "x"] "" eq_refl).
Defined.

(** X9. The conversion of one child fails in two cases only, both on a
    name that starts with the letter h: the name h alone, where the second
    character is missing (IndexError), and a name whose second character is
    no digit, such as hr or header (ValueError). Every other child, with
    any content, converts. *)
Theorem child_raises_exactly_on_h_names (elem : node) (markdown : string)
    (e : exn) :
  convert_child elem markdown = Raise e
  <-> exists nm,
        name elem = Some nm
        /\ ((nm = "h" /\ e = IndexError)
            \/ (exists c rest,
                  nm = String "h" (String c rest)
                  /\ is_digit c = false /\ e = ValueError)).
Proof.
  split.
  - unfold convert_child.
    destruct (name_is elem "p"); [discriminate|].
    destruct (name_startswith_h elem) eqn:Eh.
    + unfold name_startswith_h in Eh. unfold header_level_of.
      destruct (name elem) as [nm|]; [|discriminate].
      apply andb_true_iff in Eh. destruct Eh as [_ Eh].
      intros H. exists nm. split; [reflexivity|].
      destruct nm as [|h nm]; [discriminate|].
      unfold startswith in Eh. cbn [prefix] in Eh.
      destruct (ascii_dec "h" h) as [<-|]; [clear Eh|discriminate].
      destruct nm as [|c rest].
      * left. cbn in H. injection H as <-. split; reflexivity.
      * right. exists c, rest. cbn [index1 bind] in H. unfold int_of_char in H.
        destruct (is_digit c); [discriminate|].
        cbn [bind] in H. injection H as <-. repeat split.
    + destruct (name_is elem "figure" && _).
      * destruct (find elem "td" _); discriminate.
      * destruct (name_is elem "table"); discriminate.
  - intros (nm & Hn & Hcase).
    destruct elem as [nm' attrs cs| |]; try discriminate.
    cbn in Hn. injection Hn as ->.
    destruct Hcase as [[-> ->]|(c & rest & -> & Hc & ->)].
    + reflexivity.
    + unfold convert_child.
      change (name_is (Tag (String "h" (String c rest)) attrs cs) "p")
        with false.
      change (name_startswith_h (Tag (String "h" (String c rest)) attrs cs))
        with true.
      cbv iota. unfold header_level_of. cbn [name index1 bind].
      unfold int_of_char. now rewrite Hc.
Qed.

Lemma child_raises_exactly_on_h_names_witness :
  convert_child (Tag "header" [] [NavigableString "x"]) "text"
  = Raise ValueError.
Proof.
  apply (proj2 (child_raises_exactly_on_h_names
                  (Tag "header" [] [NavigableString "x"]) "text" ValueError)).
  exists "header". split; [reflexivity|].
  right. exists "e"%char, "ader". repeat split.
Defined.

(** X10. The body is all or nothing: when a child fails, the conversion
    of the document raises that child's error, whatever the children before
    it gave and whatever comes after it. *)
Theorem first_failing_child_aborts (soup post_body : node)
    (before after : list node) (elem : node) (done : string) (e : exn) :
  find soup "div" (Some ("class", "post-body")) = Some post_body ->
  children post_body = List.app before (elem :: after) ->
  convert_children before "" = Ok done ->
  contribution elem = Raise e ->
  html_to_markdown soup = Raise e.
Proof.
  intros Hf Hc Hb He. unfold html_to_markdown. rewrite Hf, Hc.
  rewrite (convert_children_app before (elem :: after)).
  rewrite Hb. cbn [bind convert_children].
  unfold contribution in He. now rewrite He.
Qed.

Lemma first_failing_child_aborts_witness :
  html_to_markdown
    (post_with [Tag "p" [] [NavigableString "kept?"]; Tag "hr" [] [];
                Tag "h" [] []])
  = Raise ValueError.
Proof.
  exact (first_failing_child_aborts
           (post_with [Tag "p" [] [NavigableString "kept?"]; Tag "hr" [] [];
                       Tag "h" [] []])
           (Tag "div" [("class", "post-body")]
              [Tag "p" [] [NavigableString "kept?"]; Tag "hr" [] [];
               Tag "h" [] []])
           [Tag "p" [] [NavigableString "kept?"]]
           [Tag "h" [] []] (Tag "hr" [] []) ("kept?" ++ LF ++ LF) ValueError
           eq_refl eq_refl eq_refl eq_refl).
Defined.

(** ** Inline elements *)

(** The printed form of a tag goes on, after its name, with a blank, a
    slash or a closing bracket. *)
Lemma decode_tag_shape (parent nm : string) (attrs : list (string * string))
    (cs : list node) :
  exists c r,
    decode parent (Tag nm attrs cs) = "<" ++ nm ++ String c r
    /\ (c = " " \/ c = "/" \/ c = ">")%char.
Proof.
  assert (Hattr : forall tail : string, forall c0 r0,
            tail = String c0 r0 -> (c0 = "/" \/ c0 = ">")%char ->
            exists c r, attribute_string nm attrs ++ tail = String c r
                        /\ (c = " " \/ c = "/" \/ c = ">")%char).
  { intros tail c0 r0 -> Hc0. unfold attribute_string.
    destruct (sorted_attrs attrs) as [|kv l].
    - cbn. exists c0, r0. split; [reflexivity | tauto].
    - cbn [map concat]. destruct (map _ l); cbn [concat append];
        eexists _, _; (split; [reflexivity | tauto]). }
  cbn [decode]. destruct cs as [|x cs].
  - destruct (mem nm empty_element_tags).
    + destruct (Hattr "/>" "/"%char ">" eq_refl ltac:(tauto)) as (c & r & E & Hc).
      exists c, r. split; [|exact Hc]. cbn [append]. now rewrite E.
    + destruct (Hattr (">" ++ "</" ++ nm ++ ">") ">"%char ("</" ++ nm ++ ">")
                  eq_refl ltac:(tauto)) as (c & r & E & Hc).
      exists c, r. split; [|exact Hc]. cbn [append]. cbn [append] in E.
      now rewrite E.
  - destruct (Hattr (">" ++ concat "" (map (decode nm) (x :: cs)) ++ "</" ++ nm ++ ">")
                ">"%char (concat "" (map (decode nm) (x :: cs)) ++ "</" ++ nm ++ ">")
                eq_refl ltac:(tauto)) as (c & r & E & Hc).
    exists c, r. split; [|exact Hc]. cbn [append]. cbn [append] in E.
    now rewrite E.
Qed.

Lemma prefix_nil (s : string) : prefix "" s = true.
Proof. destruct s; reflexivity. Qed.

(** For a tag, the test on the printed form is a test on the name. *)
Lemma tag_line_break_test (nm : string) (attrs : list (string * string))
    (cs : list node) :
  startswith (str (Tag nm attrs cs)) "<br" = startswith nm "br".
Proof.
  unfold str. destruct (decode_tag_shape "" nm attrs cs) as (c & r & E & Hc).
  rewrite E. clear E.
  unfold startswith.
  destruct nm as [|a nm].
  - cbn. destruct Hc as [-> | [-> | ->]]; reflexivity.
  - destruct nm as [|b nm].
    + cbn [append prefix]. destruct (ascii_dec "<" "<"); [|congruence].
      destruct (ascii_dec "b" a); [|reflexivity].
      destruct Hc as [-> | [-> | ->]]; reflexivity.
    + cbn [append prefix]. destruct (ascii_dec "<" "<"); [|congruence].
      destruct (ascii_dec "b" a); [|reflexivity].
      destruct (ascii_dec "r" b); [|reflexivity].
      now rewrite !prefix_nil.
Qed.

(** X11. An inline tag other than a hyperlink and inline code is a line
    break exactly when its name starts with br, whatever its attributes and
    content, which are then lost; any other tag is passed on as the markup
    bs4 prints for it, which opens with its name: the Markdown keeps such
    tags as HTML. *)
Theorem inline_tag_rendering (nm : string) (attrs : list (string * string))
    (cs : list node) :
  String.eqb nm "a" = false ->
  String.eqb nm "code" = false ->
  (startswith nm "br" = true ->
   handle_element (Tag nm attrs cs) = LF ++ LF)
  /\ (startswith nm "br" = false ->
      handle_element (Tag nm attrs cs) = decode "" (Tag nm attrs cs)
      /\ startswith (handle_element (Tag nm attrs cs)) ("<" ++ nm) = true).
Proof.
  intros Ha Hc. unfold handle_element, name_is. cbn [name].
  rewrite Ha, Hc, tag_line_break_test.
  split; intros Hbr; rewrite Hbr; [reflexivity|].
  split; [reflexivity|].
  unfold str. destruct (decode_tag_shape "" nm attrs cs) as (c & r & E & _).
  rewrite E. clear E.
  unfold startswith. cbn [append prefix].
  destruct (ascii_dec "<" "<"); [|congruence].
  clear. induction nm as [|x nm IH]; [apply prefix_nil|].
  cbn [append prefix]. destruct (ascii_dec x x); [exact IH | congruence].
Qed.

Lemma inline_tag_rendering_witness :
  handle_element (Tag "br" [("class", "x")] []) = LF ++ LF
  /\ handle_element (Tag "em" [] [Tag "a" [("href", "u")] [NavigableString "t"]])
     = "<em><a href=" ++ String dquote "u" ++ String dquote ">t</a></em>".
Proof.
  split.
  - exact (proj1 (inline_tag_rendering "br" [("class", "x")] []
                    eq_refl eq_refl) eq_refl).
  - exact (proj1 (proj2 (inline_tag_rendering "em" []
                           [Tag "a" [("href", "u")] [NavigableString "t"]]
                           eq_refl eq_refl) eq_refl)).
Defined.

(** X12. A hyperlink without an href attribute does not fail: its target
    is printed as None. With the attribute, the target is the attribute's
    value as it stands. In both cases the label is the text of the element,
    not stripped. *)
Theorem link_rendering (attrs : list (string * string)) (cs : list node) :
  (lookup "href" attrs = None ->
   handle_element (Tag "a" attrs cs)
   = "[" ++ get_text false (Tag "a" attrs cs) ++ "](None)")
  /\ (forall url,
        lookup "href" attrs = Some url ->
        handle_element (Tag "a" attrs cs)
        = "[" ++ get_text false (Tag "a" attrs cs) ++ "](" ++ url ++ ")").
Proof.
  unfold handle_element.
  change (name_is (Tag "a" attrs cs) "a") with true. cbv iota.
  unfold get. split.
  - intros ->. reflexivity.
  - intros url ->. reflexivity.
Qed.

Lemma link_rendering_witness :
  handle_element (Tag "a" [("name", "top")] [Tag "b" [] [NavigableString "up"]])
  = "[up](None)".
Proof.
  exact (proj1 (link_rendering [("name", "top")]
                  [Tag "b" [] [NavigableString "up"]]) eq_refl).
Defined.

(** ** Children the loop passes over *)

(** A child the loop has no branch for. *)
Definition is_skipped (elem : node) : bool :=
  negb (is_paragraph elem) && negb (name_startswith_h elem)
  && negb (is_highlight_figure elem) && negb (is_table elem).

Lemma convert_children_skipped (elems : list node) (markdown : string) :
  forallb is_skipped elems = true ->
  convert_children elems markdown = Ok markdown.
Proof.
  induction elems as [|elem elems IH]; intros H; [reflexivity|].
  cbn [forallb] in H. apply andb_true_iff in H. destruct H as [He Hs].
  unfold is_skipped in He.
  repeat (apply andb_true_iff in He; destruct He as [He ?]).
  cbn [convert_children].
  rewrite convert_child_other by (now apply negb_true_iff).
  cbn [bind]. now apply IH.
Qed.

(** X13. The body is empty, and no error is raised, when the document has
    no post-body container, and when none of the container's children is a
    paragraph, a highlight figure, a table or a tag whose name starts with
    h. Text and comments directly in the container are such children, and
    so is every tag with another name: lists, block quotes, images and
    nested containers are dropped with all they hold. *)
Theorem nothing_recognised_gives_empty_body (soup : node) :
  (find soup "div" (Some ("class", "post-body")) = None ->
   html_to_markdown soup = Ok "")
  /\ (forall post_body,
        find soup "div" (Some ("class", "post-body")) = Some post_body ->
        forallb is_skipped (children post_body) = true ->
        html_to_markdown soup = Ok "")
  /\ (forall s, is_skipped (NavigableString s) = true
                /\ is_skipped (Comment s) = true)
  /\ (forall nm attrs cs,
        startswith nm "h" = false ->
        String.eqb nm "p" = false ->
        String.eqb nm "figure" = false ->
        String.eqb nm "table" = false ->
        is_skipped (Tag nm attrs cs) = true).
Proof.
  split; [|split; [|split]].
  - unfold html_to_markdown. intros ->. reflexivity.
  - intros post_body Hf Hs. unfold html_to_markdown. rewrite Hf.
    now rewrite convert_children_skipped.
  - intros s. split; reflexivity.
  - intros nm attrs cs Hh Hp Hfig Ht.
    unfold is_skipped, is_paragraph, is_highlight_figure, is_table,
      name_startswith_h, name_is.
    cbn [name]. rewrite Hh, Hp, Hfig, Ht. now rewrite andb_false_r.
Qed.

(** Children none of which the loop converts. *)
Definition loose_children : list node :=
  [NavigableString "loose text"; Comment " more ";
   Tag "ul" [] [Tag "li" [] [NavigableString "item"]];
   Tag "blockquote" [] [Tag "p" [] [NavigableString "quoted"]]].

Lemma nothing_recognised_gives_empty_body_witness :
  html_to_markdown (post_with loose_children) = Ok "".
Proof.
  exact (proj1 (proj2 (nothing_recognised_gives_empty_body
                         (post_with loose_children)))
           (Tag "div" [("class", "post-body")] loose_children)
           eq_refl eq_refl).
Defined.

(** X14. A figure is converted only when its class attribute is exactly
    the two words highlight plaintext, in this order: a figure with any
    other class value, such as the highlight figure of another language,
    adds nothing, and its code is lost without an error. *)
Theorem other_figures_are_dropped (attrs : list (string * string))
    (cs : list node) (markdown : string) :
  class_is (Tag "figure" attrs cs) ["highlight"; "plaintext"] = false ->
  convert_child (Tag "figure" attrs cs) markdown = Ok markdown.
Proof.
  intros H. apply convert_child_other; try reflexivity.
  unfold is_highlight_figure. rewrite H. apply andb_false_r.
Qed.

Lemma other_figures_are_dropped_witness :
  convert_child
    (Tag "figure" [("class", "highlight python")]
       [Tag "td" [("class", "code")]
          [Tag "span" [("class", "line")] [NavigableString "print(1)"]]])
    "text" = Ok "text"
  /\ convert_child (Tag "figure" [("class", "plaintext highlight")] []) "text"
     = Ok "text".
Proof.
  split.
  - exact (other_figures_are_dropped [("class", "highlight python")] _ "text"
             eq_refl).
  - exact (other_figures_are_dropped [("class", "plaintext highlight")] []
             "text" eq_refl).
Defined.

(** ** The record and the document of a page *)

(** The [content] of a [meta] element. *)
Definition content_of (tag : node) : option string :=
  option_map (fun v => format_attr (Some v)) (get tag "content").

Lemma contents_of_spec (found : list node) (values : list string) :
  contents_of found = Ok values ->
  map content_of found = map Some values.
Proof.
  revert values. induction found as [|tag found IH]; intros values.
  - cbn. intros H. injection H as <-. reflexivity.
  - cbn [contents_of map]. unfold content_of at 1.
    destruct (get tag "content") as [v|]; [|discriminate].
    destruct (contents_of found) as [rest|e]; cbn [bind]; [|discriminate].
    intros H. injection H as <-. cbn [map option_map]. f_equal. now apply IH.
Qed.

(** X15. Where the record of a page comes from: the title is the stripped
    text of the first h1 of class post-title, which must exist; the
    category is the stripped text of the first span with itemprop name, or
    absent when there is none; the tags are the content values of all the
    article:tag meta elements, in document order, one for each element,
    repeated values kept. *)
Theorem record_fields (all_timezones : string -> option tzinfo) (soup : node)
    (fm : front_matter) :
  process_html_file_front_matter all_timezones soup = Ok fm ->
  (exists title_tag,
     find soup "h1" (Some ("class", "post-title")) = Some title_tag
     /\ title fm = get_text true title_tag)
  /\ categories fm
     = option_map (get_text true) (find soup "span" (Some ("itemprop", "name")))
  /\ map content_of (find_all soup "meta" (Some ("property", "article:tag")))
     = map Some (tags fm)
  /\ List.length (tags fm)
     = List.length (find_all soup "meta" (Some ("property", "article:tag"))).
Proof.
  unfold process_html_file_front_matter.
  destruct (find soup "h1" _) as [title_tag|]; cbn [bind]; [|discriminate].
  destruct (meta_content soup "article:published_time"); cbn [bind]; [|discriminate].
  destruct (convert_utc_to_timezone _ _ _); cbn [bind]; [|discriminate].
  destruct (meta_content soup "article:modified_time"); cbn [bind]; [|discriminate].
  destruct (convert_utc_to_timezone _ _ _); cbn [bind]; [|discriminate].
  destruct (contents_of _) as [values|] eqn:E; cbn [bind]; [|discriminate].
  intros H. injection H as <-. cbn [title categories tags].
  pose proof (contents_of_spec _ _ E) as Hmap.
  split; [exists title_tag; split; reflexivity|].
  split; [reflexivity|]. split; [exact Hmap|].
  apply (f_equal (@List.length _)) in Hmap. rewrite !length_map in Hmap.
  now symmetry.
Qed.

(** A page with two titles, a repeated tag and no category. *)
Definition doc_tags : node :=
  Tag "[document]" []
    [Tag "meta" [("property", "article:published_time");
                 ("content", "2024-06-15T10:30:00.000Z")] [];
     Tag "meta" [("property", "article:modified_time");
                 ("content", "2024-06-16T23:30:00Z")] [];
     Tag "meta" [("property", "article:tag"); ("content", "rocq")] [];
     Tag "meta" [("property", "article:tag"); ("content", "hexo")] [];
     Tag "meta" [("property", "article:tag"); ("content", "rocq")] [];
     Tag "h1" [("class", "post-title")] [NavigableString " Hello "];
     Tag "h1" [("class", "post-title")] [NavigableString "Second"]].

Lemma record_fields_witness :
  map content_of (find_all doc_tags "meta" (Some ("property", "article:tag")))
  = map Some ["rocq"; "hexo"; "rocq"].
Proof.
  exact (proj1 (proj2 (proj2
           (record_fields tz_excerpt doc_tags
              {| title := "Hello";
                 updated := "2024-06-15 18:30:00";
                 date := "2024-06-17 07:30:00";
                 categories := None;
                 tags := ["rocq"; "hexo"; "rocq"] |} eq_refl)))).
Defined.

(** X16. The errors of the extraction, in the order the code meets them:
    a page without an h1 of class post-title raises AttributeError before
    anything else is read; with the title found, a page without the
    published-time meta element raises TypeError, one whose element has no
    content attribute raises KeyError, and an error of the normaliser on
    the published time is the error of the extraction. *)
Theorem extraction_errors (all_timezones : string -> option tzinfo)
    (soup : node) :
  (find soup "h1" (Some ("class", "post-title")) = None ->
   process_html_file_front_matter all_timezones soup = Raise AttributeError)
  /\ (forall title_tag,
        find soup "h1" (Some ("class", "post-title")) = Some title_tag ->
        (find soup "meta" (Some ("property", "article:published_time")) = None ->
         process_html_file_front_matter all_timezones soup = Raise TypeError)
        /\ (forall tag,
              find soup "meta" (Some ("property", "article:published_time"))
              = Some tag ->
              get tag "content" = None ->
              process_html_file_front_matter all_timezones soup = Raise KeyError)
        /\ (forall published e,
              meta_content soup "article:published_time" = Ok published ->
              convert_utc_to_timezone all_timezones published "Asia/Shanghai"
              = Raise e ->
              process_html_file_front_matter all_timezones soup = Raise e)).
Proof.
  unfold process_html_file_front_matter. split.
  - intros ->. reflexivity.
  - intros title_tag ->. cbn [bind]. unfold meta_content. repeat split.
    + intros ->. reflexivity.
    + intros tag -> ->. reflexivity.
    + intros published e Hp He. rewrite Hp. cbn [bind]. rewrite He.
      reflexivity.
Qed.

Lemma extraction_errors_witness :
  process_html_file_front_matter tz_excerpt
    (Tag "[document]" [] [Tag "div" [("class", "post-body")] []])
  = Raise AttributeError
  /\ process_html_file_front_matter tz_excerpt
       (Tag "[document]" []
          [Tag "h1" [("class", "post-title")] [NavigableString "T"];
           Tag "meta" [("property", "article:published_time")] []])
     = Raise KeyError.
Proof.
  split.
  - exact (proj1 (extraction_errors tz_excerpt
                    (Tag "[document]" [] [Tag "div" [("class", "post-body")] []]))
             eq_refl).
  - exact (proj1 (proj2 (proj2 (extraction_errors tz_excerpt
                    (Tag "[document]" []
                       [Tag "h1" [("class", "post-title")] [NavigableString "T"];
                        Tag "meta" [("property", "article:published_time")] []]))
                    (Tag "h1" [("class", "post-title")] [NavigableString "T"])
                    eq_refl))
             (Tag "meta" [("property", "article:published_time")] [])
             eq_refl eq_refl).
Defined.

Lemma convert_zone_entry (db1 db2 : string -> option tzinfo) (t z : string) :
  db1 z = db2 z ->
  convert_utc_to_timezone db1 t z = convert_utc_to_timezone db2 t z.
Proof.
  intros H. rewrite !convert_unfold. unfold pytz_timezone. now rewrite H.
Qed.

(** X17. The pipeline names one zone, Asia/Shanghai: two zone databases
    that agree on this one entry give the same record and the same
    document for every page, whatever else they hold. *)
Theorem only_the_fixed_zone_matters (db1 db2 : string -> option tzinfo)
    (soup : node) :
  db1 "Asia/Shanghai" = db2 "Asia/Shanghai" ->
  process_html_file_front_matter db1 soup
  = process_html_file_front_matter db2 soup
  /\ process_html_file db1 soup = process_html_file db2 soup.
Proof.
  intros H.
  assert (E : process_html_file_front_matter db1 soup
              = process_html_file_front_matter db2 soup).
  { unfold process_html_file_front_matter.
    destruct (find soup "h1" _); cbn [bind]; [|reflexivity].
    destruct (meta_content soup "article:published_time") as [p|];
      cbn [bind]; [|reflexivity].
    rewrite (convert_zone_entry db1 db2 p "Asia/Shanghai" H).
    destruct (convert_utc_to_timezone db2 p _); cbn [bind]; [|reflexivity].
    destruct (meta_content soup "article:modified_time") as [m|];
      cbn [bind]; [|reflexivity].
    rewrite (convert_zone_entry db1 db2 m "Asia/Shanghai" H).
    reflexivity. }
  split; [exact E|]. unfold process_html_file. now rewrite E.
Qed.

Lemma only_the_fixed_zone_matters_witness :
  process_html_file tz_excerpt doc_tags
  = process_html_file
      (fun zone => if String.eqb zone "Europe/Paris"
                   then Some (StaticTzInfo 3600) else tz_excerpt zone)
      doc_tags.
Proof.
  exact (proj2 (only_the_fixed_zone_matters tz_excerpt
                  (fun zone => if String.eqb zone "Europe/Paris"
                               then Some (StaticTzInfo 3600)
                               else tz_excerpt zone)
                  doc_tags eq_refl)).
Defined.

Lemma prefix_append (p s : string) : prefix p (p ++ s) = true.
Proof.
  induction p as [|c p IH]; [destruct s; reflexivity|].
  cbn [append prefix]. destruct (ascii_dec c c); [exact IH | congruence].
Qed.

Lemma prefix_cancel (a p s : string) : prefix (a ++ p) (a ++ s) = prefix p s.
Proof.
  induction a as [|c a IH]; [reflexivity|].
  cbn [append prefix]. destruct (ascii_dec c c); [exact IH | congruence].
Qed.

(** X18. The text written for a page is the front matter of its record
    followed at once by its body; it opens with the delimiter line and the
    title line, and its body part has no white space at either end. The
    record is built first: an error of the extraction is raised even where
    the body would fail too, and an error of the body is raised only when
    the extraction succeeds. In either case no text is produced. *)
Theorem written_document (all_timezones : string -> option tzinfo)
    (soup : node) :
  (forall out,
     process_html_file all_timezones soup = Ok out ->
     exists fm body,
       process_html_file_front_matter all_timezones soup = Ok fm
       /\ html_to_markdown soup = Ok body
       /\ out = generate_front_matter fm ++ body
       /\ startswith out ("---" ++ LF ++ "title: " ++ title fm ++ LF) = true
       /\ strip body = body)
  /\ (forall e,
        process_html_file_front_matter all_timezones soup = Raise e ->
        process_html_file all_timezones soup = Raise e)
  /\ (forall fm e,
        process_html_file_front_matter all_timezones soup = Ok fm ->
        html_to_markdown soup = Raise e ->
        process_html_file all_timezones soup = Raise e).
Proof.
  unfold process_html_file. split; [|split].
  - intros out.
    destruct (process_html_file_front_matter all_timezones soup) as [fm|];
      cbn [bind]; [|discriminate].
    destruct (html_to_markdown soup) as [body|] eqn:Eb; cbn [bind];
      [|discriminate].
    intros H. injection H as <-. exists fm, body.
    repeat split.
    + unfold generate_front_matter, startswith. cbv zeta.
      destruct (tags fm); rewrite !append_assoc;
        rewrite !prefix_cancel; apply prefix_append.
    + destruct (html_to_markdown_strip soup body Eb) as [raw ->].
      apply strip_idempotent.
  - intros e ->. reflexivity.
  - intros fm e -> ->. reflexivity.
Qed.

Lemma written_document_witness :
  process_html_file tz_excerpt
    (Tag "[document]" [] (List.app (children doc_tags)
                            [Tag "div" [("class", "post-body")] [Tag "hr" [] []]]))
  = Raise ValueError.
Proof.
  exact (proj2 (proj2 (written_document tz_excerpt
           (Tag "[document]" [] (List.app (children doc_tags)
              [Tag "div" [("class", "post-body")] [Tag "hr" [] []]]))))
           {| title := "Hello";
              updated := "2024-06-15 18:30:00";
              date := "2024-06-17 07:30:00";
              categories := None;
              tags := ["rocq"; "hexo"; "rocq"] |} ValueError eq_refl eq_refl).
Defined.

(** ** The lenient extraction *)

(** What [find] returns is a tag of the name asked for. *)
Lemma find_named (n : node) (tag_name : string)
    (filter : option (string * string)) (t : node) :
  find n tag_name filter = Some t -> exists attrs cs, t = Tag tag_name attrs cs.
Proof.
  unfold find, find_all. intros H.
  assert (Hin : In t (List.filter (matches tag_name filter) (descendants n))).
  { destruct (List.filter _ _) as [|x l]; [discriminate|].
    cbn in H. injection H as ->. now left. }
  apply filter_In in Hin. destruct Hin as [_ Hm].
  unfold matches in Hm. apply andb_true_iff in Hm. destruct Hm as [Hn _].
  unfold name_is in Hn. destruct t as [nm attrs cs| |]; try discriminate.
  cbn in Hn. apply String.eqb_eq in Hn. subst. eauto.
Qed.

(** The date of a [time] element: its [datetime] attribute when this is
    not empty, else its text. *)
Definition date_source (attrs : list (string * string)) (cs : list node)
  : string :=
  match lookup "datetime" attrs with
  | Some (String c v) => String c v
  | _ => get_text false (Tag "time" attrs cs)
  end.

Lemma date_of_time_tag (attrs : list (string * string)) (cs : list node) :
  date_of_tag (Tag "time" attrs cs) = Ok (strip (date_source attrs cs)).
Proof.
  unfold date_of_tag, date_source, get.
  destruct (lookup "datetime" attrs) as [[|c s]|]; reflexivity.
Qed.

(** X19. The lenient extraction never fails, whatever the page: it
    returns a title and a date. The title has no white space at either end,
    and is Untitled when the page has no h1 of class post-title; the date
    is the reading of the clock, printed, when the page has no time
    element, and a text without white space at either end when it has
    one. *)
Theorem lenient_extraction_never_fails (now : datetime) (soup : node) :
  exists head,
    extract_front_matter now soup = Ok head
    /\ strip (head_title head) = head_title head
    /\ (find soup "h1" (Some ("class", "post-title")) = None ->
        head_title head = "Untitled")
    /\ (find soup "time" None = None -> head_date head = strftime now)
    /\ (find soup "time" None <> None ->
        strip (head_date head) = head_date head).
Proof.
  unfold extract_front_matter. cbv zeta.
  destruct (find soup "time" None) as [tag|] eqn:Et.
  - destruct (find_named _ _ _ _ Et) as (attrs & cs & ->).
    rewrite date_of_time_tag. cbn [bind]. eexists. split; [reflexivity|].
    cbn [head_title head_date]. repeat split.
    + destruct (find soup "h1" _); [apply strip_idempotent | reflexivity].
    + now intros ->.
    + discriminate.
    + intros _. apply strip_idempotent.
  - cbn [bind]. eexists. split; [reflexivity|].
    cbn [head_title head_date]. repeat split.
    + destruct (find soup "h1" _); [apply strip_idempotent | reflexivity].
    + now intros ->.
    + congruence.
Qed.

(** A page without a title, whose time element has a blank attribute. *)
Definition doc_blank_date : node :=
  Tag "[document]" []
    [Tag "time" [("datetime", " ")] [NavigableString "15 June 2024"]].

Lemma lenient_extraction_never_fails_witness :
  exists head,
    extract_front_matter (mkdt 2024 6 15 10 30 0 0) doc_blank_date = Ok head
    /\ head_title head = "Untitled".
Proof.
  destruct (lenient_extraction_never_fails (mkdt 2024 6 15 10 30 0 0)
              doc_blank_date) as (head & E & _ & Ht & _).
  exists head. split; [exact E | exact (Ht eq_refl)].
Defined.

(** X20. With a time element on the page the clock plays no part: the
    result is the same for every reading of it. The date is then the
    stripped value of the element's datetime attribute when this is not
    empty, even when it is blank, which gives an empty date; with the
    attribute absent or empty it is the stripped text of the element. *)
Theorem lenient_date_sources (now1 now2 : datetime) (soup : node)
    (attrs : list (string * string)) (cs : list node) :
  find soup "time" None = Some (Tag "time" attrs cs) ->
  extract_front_matter now1 soup = extract_front_matter now2 soup
  /\ (forall head,
        extract_front_matter now1 soup = Ok head ->
        (forall v, lookup "datetime" attrs = Some v -> v <> "" ->
                   head_date head = strip v)
        /\ (lookup "datetime" attrs = None \/ lookup "datetime" attrs = Some "" ->
            head_date head = strip (get_text false (Tag "time" attrs cs)))).
Proof.
  intros Et. unfold extract_front_matter. cbv zeta. rewrite Et.
  split; [reflexivity|].
  rewrite date_of_time_tag. cbn [bind]. intros head H. injection H as <-.
  cbn [head_date]. unfold date_source. split.
  - intros v -> Hv. destruct v; [congruence | reflexivity].
  - intros [-> | ->]; reflexivity.
Qed.

Lemma lenient_date_sources_witness :
  extract_front_matter (mkdt 2024 6 15 10 30 0 0) doc_blank_date
  = extract_front_matter (mkdt 1999 12 31 23 59 59 0) doc_blank_date
  /\ head_date (mkhead "Untitled" "") = strip " ".
Proof.
  split.
  - exact (proj1 (lenient_date_sources (mkdt 2024 6 15 10 30 0 0)
                    (mkdt 1999 12 31 23 59 59 0) doc_blank_date
                    [("datetime", " ")] [NavigableString "15 June 2024"]
                    eq_refl)).
  - exact (proj1 (proj2 (lenient_date_sources (mkdt 2024 6 15 10 30 0 0)
                           (mkdt 1999 12 31 23 59 59 0) doc_blank_date
                           [("datetime", " ")] [NavigableString "15 June 2024"]
                           eq_refl)
                    (mkhead "Untitled" "") eq_refl)
             " " eq_refl ltac:(discriminate)).
Defined.

Lemma strict_title (all_timezones : string -> option tzinfo) (soup : node)
    (fm : front_matter) :
  process_html_file_front_matter all_timezones soup = Ok fm ->
  exists title_tag,
    find soup "h1" (Some ("class", "post-title")) = Some title_tag
    /\ title fm = get_text true title_tag.
Proof.
  unfold process_html_file_front_matter.
  destruct (find soup "h1" _) as [title_tag|]; cbn [bind]; [|discriminate].
  destruct (meta_content soup "article:published_time"); cbn [bind]; [|discriminate].
  destruct (convert_utc_to_timezone _ _ _); cbn [bind]; [|discriminate].
  destruct (meta_content soup "article:modified_time"); cbn [bind]; [|discriminate].
  destruct (convert_utc_to_timezone _ _ _); cbn [bind]; [|discriminate].
  destruct (contents_of _); cbn [bind]; [|discriminate].
  intros H. injection H as <-. exists title_tag. split; reflexivity.
Qed.

(** X21. The two extractions read the title from the same element but
    strip it differently, the strict one piece by piece and the lenient one
    as a whole; for a title element that holds a single piece of text they
    give the same title. *)
Theorem extractions_agree_on_plain_titles
    (all_timezones : string -> option tzinfo) (now : datetime) (soup : node)
    (fm : front_matter) (head : page_head)
    (nm : string) (attrs : list (string * string)) (s : string) :
  process_html_file_front_matter all_timezones soup = Ok fm ->
  extract_front_matter now soup = Ok head ->
  find soup "h1" (Some ("class", "post-title"))
  = Some (Tag nm attrs [NavigableString s]) ->
  head_title head = title fm /\ title fm = strip s.
Proof.
  intros Hs Hl Hf.
  destruct (strict_title _ _ _ Hs) as (title_tag & Hf' & ->).
  rewrite Hf in Hf'. injection Hf' as <-.
  unfold extract_front_matter in Hl. cbv zeta in Hl. rewrite Hf in Hl.
  destruct (match find soup "time" None with
            | Some tag => date_of_tag tag
            | None => Ok (strftime now)
            end); cbn [bind] in Hl; [|discriminate].
  injection Hl as <-. cbn [head_title].
  unfold get_text. cbn [all_strings flat_map]. rewrite !app_nil_r.
  cbn [concat]. destruct (strip s); split; reflexivity.
Qed.

Lemma extractions_agree_on_plain_titles_witness :
  head_title (mkhead "Hello" "2024-06-15 10:30:00") = "Hello"
  /\ "Hello" = strip " Hello ".
Proof.
  exact (extractions_agree_on_plain_titles tz_excerpt
           (mkdt 2024 6 15 10 30 0 0) doc_tags
           {| title := "Hello";
              updated := "2024-06-15 18:30:00";
              date := "2024-06-17 07:30:00";
              categories := None;
              tags := ["rocq"; "hexo"; "rocq"] |}
           (mkhead "Hello" "2024-06-15 10:30:00")
           "h1" [("class", "post-title")] " Hello "
           eq_refl eq_refl eq_refl).
Defined.

(** ** The output path *)

Import PosixPath.

(** A name without a separator. *)
Definition no_sep (s : string) : bool := negb (contains_char "/" s).

Lemma split_no_sep (f : string) :
  no_sep f = true -> split_at_last_sep f = ("", f).
Proof.
  unfold no_sep. induction f as [|c f IH]; [reflexivity|].
  cbn [contains_char split_at_last_sep]. intros H.
  apply negb_true_iff, orb_false_iff in H. destruct H as [Hc Hf].
  rewrite IH by (now rewrite Hf). now rewrite Hc.
Qed.

Lemma split_after_sep (h f : string) :
  no_sep f = true -> split_at_last_sep (h ++ "/" ++ f) = (h ++ "/", f).
Proof.
  intros Hf. induction h as [|c h IH].
  - cbn [append split_at_last_sep]. rewrite (split_no_sep f Hf). reflexivity.
  - change (String c h ++ "/" ++ f) with (String c (h ++ "/" ++ f)).
    cbn [split_at_last_sep]. rewrite IH.
    destruct h; reflexivity.
Qed.

Lemma endswith_spec (s suffix : string) :
  endswith s suffix = true <-> exists h, s = h ++ suffix.
Proof.
  split.
  - induction s as [|c s IH]; cbn [endswith]; intros H.
    + rewrite orb_false_r in H. apply String.eqb_eq in H. exists "". exact H.
    + apply orb_true_iff in H. destruct H as [H|H].
      * apply String.eqb_eq in H. exists "". exact H.
      * destruct (IH H) as [h ->]. now exists (String c h).
  - intros [h ->]. induction h as [|c h IH].
    + cbn [append]. destruct suffix; cbn [endswith]; now rewrite String.eqb_refl.
    + cbn [append endswith]. rewrite IH. apply orb_true_r.
Qed.

Lemma startswith_sep_no_sep (f : string) :
  no_sep f = true -> startswith f "/" = false.
Proof.
  unfold no_sep, startswith. destruct f as [|c f]; [reflexivity|].
  cbn [contains_char prefix]. intros H.
  apply negb_true_iff, orb_false_iff in H. destruct H as [Hc _].
  destruct (ascii_dec "/" c) as [<-|]; [discriminate | reflexivity].
Qed.

(** The directory part of a joined path does not depend on the file name. *)
Lemma split_join (root f : string) :
  no_sep f = true ->
  split_at_last_sep (join root f)
  = (fst (split_at_last_sep (join root "")), f).
Proof.
  intros Hf. unfold join. rewrite (startswith_sep_no_sep f Hf).
  change (startswith "" "/") with false. cbv iota.
  destruct (String.eqb_spec root "") as [->|Hr].
  - cbn [orb append]. now rewrite (split_no_sep f Hf).
  - cbn [orb]. destruct (endswith root "/") eqn:E.
    + destruct (proj1 (endswith_spec root "/") E) as [h ->].
      rewrite append_assoc, append_nil_r.
      rewrite (split_after_sep h f Hf).
      rewrite <- (append_nil_r (h ++ "/")) at 2. rewrite append_assoc.
      now rewrite (split_after_sep h "" eq_refl).
    + rewrite (split_after_sep root f Hf).
      now rewrite (split_after_sep root "" eq_refl).
Qed.

(** A name that is not empty and has no separator ends with a character
    other than the separator. *)
Lemma name_last_char (d : string) :
  no_sep d = true -> d <> "" ->
  exists d' c, d = d' ++ String c "" /\ Ascii.eqb c "/" = false.
Proof.
  unfold no_sep. induction d as [|a d IH]; [congruence|].
  cbn [contains_char]. intros H _.
  apply negb_true_iff, orb_false_iff in H. destruct H as [Ha Hd].
  destruct d as [|b d].
  - exists "", a. split; [reflexivity | exact Ha].
  - destruct IH as (d' & c & E & Hc); [now rewrite Hd | discriminate |].
    exists (String a d'), c. split; [cbn [append]; now rewrite E | exact Hc].
Qed.

Lemma endswith_sep_last (s : string) (c : ascii) :
  Ascii.eqb c "/" = false -> endswith (s ++ String c "") "/" = false.
Proof.
  intros Hc. induction s as [|a s IH].
  - cbn. rewrite Hc. reflexivity.
  - cbn [append endswith]. rewrite IH, orb_false_r.
    cbn [String.eqb]. destruct (s ++ String c "") eqn:E.
    + destruct s; discriminate.
    + apply andb_false_r.
Qed.

Lemma rstrip_sep_last (s : string) (c : ascii) :
  Ascii.eqb c "/" = false ->
  rstrip_sep (s ++ String c "/") = s ++ String c "".
Proof.
  intros Hc. induction s as [|a s IH].
  - cbn. now rewrite Hc.
  - cbn [append rstrip_sep]. rewrite IH. destruct s; reflexivity.
Qed.

Lemma all_sep_last (s : string) (c : ascii) (t : string) :
  Ascii.eqb c "/" = false -> all_sep (s ++ String c t) = false.
Proof.
  intros Hc. induction s as [|a s IH].
  - cbn. now rewrite Hc.
  - cbn [append all_sep]. rewrite IH. apply andb_false_r.
Qed.

Lemma basename_of_directory (pre d : string) :
  no_sep d = true ->
  pre = "" \/ endswith pre "/" = true ->
  basename (pre ++ d) = d.
Proof.
  intros Hd [->|Hpre]; unfold basename.
  - cbn [append]. now rewrite (split_no_sep d Hd).
  - destruct (proj1 (endswith_spec pre "/") Hpre) as [h ->].
    rewrite append_assoc. now rewrite (split_after_sep h d Hd).
Qed.

(** X22. The output file is named after the directory of the page, not
    after the page: two pages of the same directory get the same output
    path, and a page in a directory named d, wherever that directory lies,
    is written to d.md directly in the output directory, so that the tree
    of the input is flattened. *)
Theorem output_named_after_directory (output_dir : string) :
  (forall root f1 f2,
     no_sep f1 = true ->
     no_sep f2 = true ->
     output_path (join root f1) output_dir
     = output_path (join root f2) output_dir)
  /\ (forall pre d f,
        pre = "" \/ endswith pre "/" = true ->
        no_sep d = true -> d <> "" ->
        no_sep f = true ->
        output_path (join (pre ++ d) f) output_dir
        = join output_dir (d ++ ".md")).
Proof.
  split.
  - intros root f1 f2 H1 H2. unfold output_path, dirname. cbv zeta.
    now rewrite (split_join root f1 H1), (split_join root f2 H2).
  - intros pre d f Hpre Hd Hne Hf.
    destruct (name_last_char d Hd Hne) as (d' & c & Ed & Hc).
    assert (Edir : dirname (join (pre ++ d) f) = pre ++ d).
    { unfold join. rewrite (startswith_sep_no_sep f Hf).
      rewrite Ed, <- append_assoc.
      rewrite (endswith_sep_last (pre ++ d') c Hc), orb_false_r.
      replace (String.eqb ((pre ++ d') ++ String c "") "") with false
        by (destruct (pre ++ d'); reflexivity).
      unfold dirname. rewrite (split_after_sep _ f Hf). cbn [fst].
      rewrite append_assoc. cbn [append].
      rewrite (all_sep_last (pre ++ d') c "/" Hc).
      replace (String.eqb ((pre ++ d') ++ String c "/") "") with false
        by (destruct (pre ++ d'); reflexivity).
      cbn [negb andb]. apply rstrip_sep_last, Hc. }
    unfold output_path. cbv zeta. rewrite Edir.
    now rewrite (basename_of_directory pre d Hd Hpre).
Qed.

Lemma output_named_after_directory_witness :
  output_path (join "public/2024/my-post" "index.html") "out"
  = output_path (join "public/2024/my-post" "draft.html") "out"
  /\ output_path (join ("public/2024/" ++ "my-post") "index.html") "out"
     = "out/my-post.md"
  /\ output_path (join ("archive/" ++ "my-post") "index.html") "out"
     = "out/my-post.md".
Proof.
  split; [|split].
  - exact (proj1 (output_named_after_directory "out") "public/2024/my-post"
             "index.html" "draft.html" eq_refl eq_refl).
  - exact (proj2 (output_named_after_directory "out") "public/2024/" "my-post"
             "index.html" (or_intror eq_refl) eq_refl
             ltac:(discriminate) eq_refl).
  - exact (proj2 (output_named_after_directory "out") "archive/" "my-post"
             "index.html" (or_intror eq_refl) eq_refl
             ltac:(discriminate) eq_refl).
Defined.

(** The last character of a string. *)
Fixpoint last_char (s : string) : option ascii :=
  match s with
  | EmptyString => None
  | String c EmptyString => Some c
  | String _ s' => last_char s'
  end.

Lemma last_char_append (h : string) (c : ascii) (t : string) :
  last_char (h ++ String c t) = last_char (String c t).
Proof.
  induction h as [|a h IH]; [reflexivity|].
  cbn [append]. change (last_char (String a (h ++ String c t)))
    with (match h ++ String c t with
          | EmptyString => Some a
          | String _ _ => last_char (h ++ String c t)
          end).
  rewrite IH. destruct h; reflexivity.
Qed.

Lemma output_path_md (html_path output_dir : string) :
  endswith (output_path html_path output_dir) ".md" = true.
Proof.
  unfold output_path, join. cbv zeta.
  set (name := basename (dirname html_path)).
  destruct (startswith (name ++ ".md") "/").
  - apply endswith_spec. now exists name.
  - destruct (String.eqb output_dir "" || endswith output_dir "/").
    + apply endswith_spec. exists (output_dir ++ name).
      now rewrite append_assoc.
    + apply endswith_spec. exists (output_dir ++ "/" ++ name).
      now rewrite !append_assoc.
Qed.

Lemma md_is_not_html (s : string) :
  endswith s ".md" = true -> endswith s ".html" = false.
Proof.
  intros Hmd. destruct (endswith s ".html") eqn:E; [|reflexivity].
  apply endswith_spec in Hmd, E. destruct Hmd as [h1 E1], E as [h2 E2].
  rewrite E1 in E2. apply (f_equal last_char) in E2.
  rewrite !last_char_append in E2. discriminate.
Qed.

(** X23. Whatever the page and the output directory, the output path ends
    with the extension md and never with html: a file the converter writes
    is not a page for the converter. *)
Theorem output_is_never_a_page (html_path output_dir : string) :
  endswith (output_path html_path output_dir) ".md" = true
  /\ endswith (output_path html_path output_dir) ".html" = false.
Proof.
  split; [apply output_path_md | apply md_is_not_html, output_path_md].
Qed.

(** ** Runs over a directory tree *)

(** The pages of a walk, in the order the loops reach them: for each
    directory its files with the extension html, joined to its path. *)
Definition html_pages (entries : list (string * list string * list string))
  : list string :=
  flat_map (fun e => let '(root, _, files) := e in
                     map (join root)
                         (filter (fun file => endswith file ".html") files))
           entries.

(** The effects [w'] are those of [w] and then the writes [more], with one
    line printed for each. *)
Definition extends (w w' : world) (more : list (string * string)) : Prop :=
  written w' = List.app (written w) more
  /\ printed w' = List.app (printed w) (map success_line more).

Lemma extends_refl (w : world) : extends w w [].
Proof. unfold extends. cbn. now rewrite !app_nil_r. Qed.

Lemma extends_trans (w1 w2 w3 : world) (m1 m2 : list (string * string)) :
  extends w1 w2 m1 -> extends w2 w3 m2 -> extends w1 w3 (List.app m1 m2).
Proof.
  unfold extends. intros [H1 H1'] [H2 H2'].
  rewrite H2, H1, H2', H1', map_app, !app_assoc. split; reflexivity.
Qed.

Lemma file_content_last (w : world) (path text : string)
    (ws : list (string * string)) :
  written w = List.app ws [(path, text)] ->
  file_content w path = Some text.
Proof.
  intros H. unfold file_content. rewrite H, rev_app_distr. cbn.
  now rewrite String.eqb_refl.
Qed.

Section Runs.

Variable all_timezones : string -> option tzinfo.
Variable read_page : string -> option node.
Variable writable : string -> bool.
Variable path_exists : string -> bool.
Variable os_walk : string -> list (string * list string * list string).
Variable makedirs : string -> list string * bool.

Local Abbreviation process_at :=
  (process_html_file_at all_timezones read_page writable).
Local Abbreviation files_loop :=
  (convert_files all_timezones read_page writable).
Local Abbreviation walk_loop :=
  (convert_walk all_timezones read_page writable).
Local Abbreviation batch :=
  (batch_convert_html_to_markdown all_timezones read_page writable
     path_exists os_walk makedirs).

(** The write [pw] is the conversion of the page at [page]. *)
Definition converted (output_dir page : string) (pw : string * string) : Prop :=
  fst pw = output_path page output_dir
  /\ exists soup, read_page page = Some soup
                  /\ process_html_file all_timezones soup = Ok (snd pw).

(** One page: on success exactly one write, of the converted document to
    its output path, and one line; on failure no effect at all. *)
Lemma process_at_effects (html_path output_dir : string) (w w' : world)
    (r : option failure) :
  process_at html_path output_dir w = (w', r) ->
  match r with
  | None =>
      exists soup text,
        read_page html_path = Some soup
        /\ process_html_file all_timezones soup = Ok text
        /\ made w' = made w
        /\ extends w w' [(output_path html_path output_dir, text)]
  | Some _ => w' = w
  end.
Proof.
  unfold process_html_file_at.
  destruct (read_page html_path) as [soup|] eqn:Er.
  2: { intros H. injection H as <- <-. reflexivity. }
  destruct (process_html_file all_timezones soup) as [text|e] eqn:Ep.
  2: { intros H. injection H as <- <-. reflexivity. }
  cbv zeta. destruct (writable _).
  - intros H. injection H as <- <-. exists soup, text.
    repeat split; assumption.
  - intros H. injection H as <- <-. reflexivity.
Qed.

Lemma files_loop_app (root : string) (l1 l2 : list string)
    (output_dir : string) (w : world) :
  files_loop root (List.app l1 l2) output_dir w
  = match files_loop root l1 output_dir w with
    | (w', None) => files_loop root l2 output_dir w'
    | stop => stop
    end.
Proof.
  revert w. induction l1 as [|f l1 IH]; intros w; [reflexivity|].
  cbn [List.app convert_files].
  destruct (endswith f ".html"); [|apply IH].
  destruct (process_at (join root f) output_dir w) as [w' [x|]];
    [reflexivity | apply IH].
Qed.

Lemma walk_loop_app (e1 e2 : list (string * list string * list string))
    (output_dir : string) (w : world) :
  walk_loop (List.app e1 e2) output_dir w
  = match walk_loop e1 output_dir w with
    | (w', None) => walk_loop e2 output_dir w'
    | stop => stop
    end.
Proof.
  revert w. induction e1 as [|[[root dirs] files] e1 IH]; intros w;
    [reflexivity|].
  cbn [List.app convert_walk].
  destruct (files_loop root files output_dir w) as [w' [x|]];
    [reflexivity | apply IH].
Qed.

(** X24. A run stops at the first page that fails, whether the page
    cannot be read, its conversion raises or its output cannot be written:
    the failure is that of the run, the files written for the pages before
    it are left as they are, nothing is written or printed for the failing
    page, and the pages and directories after it are not touched. *)
Theorem first_failing_page_stops_the_run
    (e1 e2 : list (string * list string * list string))
    (root : string) (dirs before after : list string) (page output_dir : string)
    (w w1 w2 w3 : world) (f : failure) :
  walk_loop e1 output_dir w = (w1, None) ->
  files_loop root before output_dir w1 = (w2, None) ->
  endswith page ".html" = true ->
  process_at (join root page) output_dir w2 = (w3, Some f) ->
  walk_loop (List.app e1 ((root, dirs, List.app before (page :: after)) :: e2))
    output_dir w
  = (w2, Some f).
Proof.
  intros H1 H2 Hp H3.
  pose proof (process_at_effects _ _ _ _ _ H3) as E. cbn in E. subst w3.
  rewrite walk_loop_app, H1. cbn [convert_walk].
  rewrite files_loop_app, H2. cbn [convert_files]. rewrite Hp, H3.
  reflexivity.
Qed.

Lemma files_loop_effects (root : string) (files : list string)
    (output_dir : string) (w w' : world) (r : option failure) :
  files_loop root files output_dir w = (w', r) ->
  made w' = made w
  /\ exists more,
       extends w w' more
       /\ Forall (fun pw => endswith (fst pw) ".md" = true) more.
Proof.
  revert w. induction files as [|file files IH]; intros w.
  - intros H. injection H as <- <-. split; [reflexivity|].
    exists []. split; [apply extends_refl | constructor].
  - cbn [convert_files]. destruct (endswith file ".html") eqn:Eh; [|apply IH].
    destruct (process_at (join root file) output_dir w) as [w1 [x|]] eqn:E.
    + intros H. injection H as <- <-.
      pose proof (process_at_effects _ _ _ _ _ E) as Ew. cbn in Ew. subst w1.
      split; [reflexivity|].
      exists []. split; [apply extends_refl | constructor].
    + intros H.
      pose proof (process_at_effects _ _ _ _ _ E) as Ew. cbn in Ew.
      destruct Ew as (soup & text & _ & _ & Hm & Hx).
      destruct (IH w1 H) as (Hm' & more & Hext & Hall).
      split; [congruence|].
      exists ((output_path (join root file) output_dir, text) :: more).
      split; [exact (extends_trans _ _ _ _ _ Hx Hext)|].
      constructor; [apply output_path_md | exact Hall].
Qed.

Lemma walk_loop_effects (entries : list (string * list string * list string))
    (output_dir : string) (w w' : world) (r : option failure) :
  walk_loop entries output_dir w = (w', r) ->
  made w' = made w
  /\ exists more,
       extends w w' more
       /\ Forall (fun pw => endswith (fst pw) ".md" = true) more.
Proof.
  revert w. induction entries as [|[[root dirs] files] entries IH]; intros w.
  - intros H. injection H as <- <-. split; [reflexivity|].
    exists []. split; [apply extends_refl | constructor].
  - cbn [convert_walk].
    destruct (files_loop root files output_dir w) as [w1 [x|]] eqn:E.
    + intros H. injection H as <- <-.
      exact (files_loop_effects _ _ _ _ _ _ E).
    + intros H.
      destruct (files_loop_effects _ _ _ _ _ _ E) as (Hm & m1 & Hext1 & Hall1).
      destruct (IH w1 H) as (Hm' & m2 & Hext2 & Hall2).
      split; [congruence|]. exists (List.app m1 m2).
      split; [exact (extends_trans _ _ _ _ _ Hext1 Hext2)|].
      apply Forall_app. split; assumption.
Qed.

(** X25. What a run does to the file system, however it ends: it only
    adds writes after those made before, prints exactly one success line
    for each write, in the same order, and writes only to paths that end
    with md and not with html. Directories are made by the one call of
    [os.makedirs] on the output directory and by nothing else, and only
    when that path does not exist. When that call fails the run ends
    there: no page is converted, no file is written and no line printed,
    whatever the call made before it failed. *)
Theorem batch_effects (input_dir output_dir : string) (w w' : world)
    (r : option failure) :
  batch input_dir output_dir w = (w', r) ->
  (exists more,
     written w' = List.app (written w) more
     /\ printed w' = List.app (printed w) (map success_line more)
     /\ Forall (fun pw => endswith (fst pw) ".md" = true
                          /\ endswith (fst pw) ".html" = false) more)
  /\ made w'
     = List.app (made w)
         (if path_exists output_dir then [] else fst (makedirs output_dir))
  /\ (path_exists output_dir = false -> snd (makedirs output_dir) = false ->
      written w' = written w /\ printed w' = printed w
      /\ r = Some (CannotMake output_dir)).
Proof.
  unfold batch_convert_html_to_markdown.
  assert (Hstrong : forall pw : string * string,
            endswith (fst pw) ".md" = true ->
            endswith (fst pw) ".md" = true /\ endswith (fst pw) ".html" = false).
  { intros pw H. split; [exact H | exact (md_is_not_html _ H)]. }
  destruct (path_exists output_dir).
  - intros H.
    destruct (walk_loop_effects _ _ _ _ _ H) as (Hm & more & [Hw Hp] & Hall).
    split; [|split; [now rewrite app_nil_r | discriminate]].
    exists more. repeat split; try assumption.
    eapply Forall_impl; [|exact Hall]. exact Hstrong.
  - destruct (makedirs output_dir) as [dirs [|]]; cbv zeta; cbn [fst snd].
    + intros H.
      destruct (walk_loop_effects _ _ _ _ _ H) as (Hm & more & [Hw Hp] & Hall).
      cbn [made written printed] in Hm, Hw, Hp.
      split; [|split; [exact Hm | discriminate]].
      exists more. repeat split; try assumption.
      eapply Forall_impl; [|exact Hall]. exact Hstrong.
    + intros H. injection H as <- <-. cbn [made written printed].
      split; [|split; [reflexivity | intros _ _; repeat split]].
      exists []. cbn. rewrite !app_nil_r. repeat split. constructor.
Qed.

Lemma files_loop_success (root : string) (files : list string)
    (output_dir : string) (w w' : world) :
  files_loop root files output_dir w = (w', None) ->
  exists more,
    extends w w' more
    /\ Forall2 (converted output_dir)
         (map (join root) (filter (fun file => endswith file ".html") files))
         more.
Proof.
  revert w. induction files as [|file files IH]; intros w.
  - intros H. injection H as <-. exists [].
    split; [apply extends_refl | constructor].
  - cbn [convert_files filter]. destruct (endswith file ".html") eqn:Eh;
      [|apply IH].
    destruct (process_at (join root file) output_dir w) as [w1 [x|]] eqn:E;
      [discriminate|].
    intros H.
    pose proof (process_at_effects _ _ _ _ _ E) as Ew. cbn in Ew.
    destruct Ew as (soup & text & Hr & Hc & _ & Hx).
    destruct (IH w1 H) as (more & Hext & Hall).
    exists ((output_path (join root file) output_dir, text) :: more).
    split; [exact (extends_trans _ _ _ _ _ Hx Hext)|].
    cbn [map]. constructor; [|exact Hall].
    split; [reflexivity|]. exists soup. split; assumption.
Qed.

(** X26. A run that ends without a failure has written exactly one file
    for each page of the walk, in the order of the walk: the pages being
    the files whose name ends with html, every other file being passed
    over; each write goes to the output path of its page and holds the
    document converted from that page; and one line is printed for each. *)
Theorem successful_run_writes_each_page
    (entries : list (string * list string * list string))
    (output_dir : string) (w w' : world) :
  walk_loop entries output_dir w = (w', None) ->
  exists more,
    written w' = List.app (written w) more
    /\ printed w' = List.app (printed w) (map success_line more)
    /\ Forall2 (converted output_dir) (html_pages entries) more.
Proof.
  revert w. induction entries as [|[[root dirs] files] entries IH]; intros w.
  - intros H. injection H as <-. exists [].
    cbn. rewrite !app_nil_r. repeat split. constructor.
  - cbn [convert_walk html_pages flat_map].
    destruct (files_loop root files output_dir w) as [w1 [x|]] eqn:E;
      [discriminate|].
    intros H.
    destruct (files_loop_success _ _ _ _ _ E) as (m1 & Hext1 & Hall1).
    destruct (IH w1 H) as (m2 & Hw2 & Hp2 & Hall2).
    exists (List.app m1 m2).
    destruct (extends_trans _ _ _ _ _ Hext1 (conj Hw2 Hp2)) as [Hw Hp].
    repeat split; [exact Hw | exact Hp |].
    apply Forall2_app; assumption.
Qed.

(** X27. Two pages of the same directory share their output file, and the
    later one wins: after both are converted, the file holds the document
    of the second page, and that of the first is gone. *)
Theorem later_page_overwrites_earlier
    (first second output_dir : string) (w w1 w2 : world) :
  dirname first = dirname second ->
  process_at first output_dir w = (w1, None) ->
  process_at second output_dir w1 = (w2, None) ->
  exists soup text,
    read_page second = Some soup
    /\ process_html_file all_timezones soup = Ok text
    /\ file_content w2 (output_path first output_dir) = Some text.
Proof.
  intros Hd H1 H2.
  pose proof (process_at_effects _ _ _ _ _ H2) as E. cbn in E.
  destruct E as (soup & text & Hr & Hc & _ & Hw & _).
  exists soup, text. repeat split; try assumption.
  apply (file_content_last _ _ _ (written w1)).
  rewrite Hw. unfold output_path. now rewrite Hd.
Qed.

End Runs.

(** A small site: two pages in one directory, a page that lacks its
    modification time in another, and files that are no pages. *)
Definition site_page (path : string) : option node :=
  if String.eqb path "public/a/index.html" then Some doc_tags
  else if String.eqb path "public/a/draft.html" then Some doc_complete
  else if String.eqb path "public/b/index.html" then Some doc_no_modified
  else None.

Definition site_head : list (string * list string * list string) :=
  [("public", ["a"; "b"], ["about.txt"]);
   ("public/a", [], ["index.html"; "notes.txt"; "draft.html"])].

Definition site_walk (dir : string)
  : list (string * list string * list string) :=
  if String.eqb dir "public" then
    List.app site_head
      [("public/b", [], ["readme.md"; "index.html"; "other.html"]);
       ("public/c", [], ["index.html"])]
  else [].

Definition no_effect : world := mkworld [] [] [].

(** The effects of the run over the first two directories of the site. *)
Definition site_done : world :=
  fst (convert_walk tz_excerpt site_page (fun _ => true) site_head "out"
         no_effect).

Lemma first_failing_page_stops_the_run_witness :
  convert_walk tz_excerpt site_page (fun _ => true) (site_walk "public") "out"
    no_effect
  = (site_done, Some (Raised TypeError)).
Proof.
  exact (first_failing_page_stops_the_run tz_excerpt site_page (fun _ => true)
           site_head [("public/c", [], ["index.html"])]
           "public/b" [] ["readme.md"] ["other.html"] "index.html" "out"
           no_effect site_done site_done site_done (Raised TypeError)
           eq_refl eq_refl eq_refl eq_refl).
Defined.

(** The effects of a run whose output directory is missing and cannot be
    made, after a first ancestor was. *)
Definition site_stuck : world := mkworld ["site"] [] [].

Lemma batch_effects_witness :
  made site_done = List.app (made no_effect) []
  /\ made site_stuck = List.app (made no_effect) ["site"]
  /\ (written site_stuck = written no_effect
      /\ printed site_stuck = printed no_effect
      /\ snd (batch_convert_html_to_markdown tz_excerpt site_page
                (fun _ => true) (fun _ => false) site_walk
                (fun _ => (["site"], false)) "public" "site/out" no_effect)
         = Some (CannotMake "site/out")).
Proof.
  split; [|split].
  - exact (proj1 (proj2 (batch_effects tz_excerpt site_page (fun _ => true)
                           (fun _ => true) site_walk
                           (fun dir => ([dir], true))
                           "public" "out" no_effect site_done
                           (Some (Raised TypeError)) eq_refl))).
  - exact (proj1 (proj2 (batch_effects tz_excerpt site_page (fun _ => true)
                           (fun _ => false) site_walk
                           (fun _ => (["site"], false))
                           "public" "site/out" no_effect site_stuck
                           (Some (CannotMake "site/out")) eq_refl))).
  - exact (proj2 (proj2 (batch_effects tz_excerpt site_page (fun _ => true)
                           (fun _ => false) site_walk
                           (fun _ => (["site"], false))
                           "public" "site/out" no_effect site_stuck
                           (Some (CannotMake "site/out")) eq_refl))
             eq_refl eq_refl).
Defined.

Lemma successful_run_writes_each_page_witness :
  exists more,
    written site_done = List.app (written no_effect) more
    /\ printed site_done = List.app (printed no_effect) (map success_line more)
    /\ Forall2 (converted tz_excerpt site_page "out")
         ["public/a/index.html"; "public/a/draft.html"] more.
Proof.
  exact (successful_run_writes_each_page tz_excerpt site_page (fun _ => true)
           site_head "out" no_effect site_done eq_refl).
Defined.

Lemma later_page_overwrites_earlier_witness :
  exists soup text,
    site_page "public/a/draft.html" = Some soup
    /\ process_html_file tz_excerpt soup = Ok text
    /\ file_content site_done "out/a.md" = Some text.
Proof.
  exact (later_page_overwrites_earlier tz_excerpt site_page (fun _ => true)
           "public/a/index.html" "public/a/draft.html" "out" no_effect
           (fst (process_html_file_at tz_excerpt site_page (fun _ => true)
                   "public/a/index.html" "out" no_effect))
           site_done eq_refl eq_refl eq_refl).
Defined.
